(** * Device detection of the Linux datapath (pkg/datapath/linux/devices.go)

    A shallow embedding of the device manager: the device filter, the
    viability classifier, the wildcard expander, one-shot detection and the
    periodic static-device check, with the kernel and the configuration
    store as explicit read-only or threaded state. *)

From Stdlib Require Import ZArith Ascii String List Lia Bool.
From stdpp Require Import base decidable option list sorting gmap strings fin_sets.

Local Open Scope Z_scope.

(** ** Results of fallible calls

    A Go call returning [(v, err)] is a [result]: [Ok v] when [err == nil],
    [Err msg] otherwise.  Error values are their message strings. *)

Definition error := string.

Inductive result (A : Type) : Type :=
| Ok (a : A)
| Err (e : error).
Arguments Ok {A} a.
Arguments Err {A} e.

(** ** The [strings] package, on byte strings *)

Module Strings.

(** [strings.HasPrefix(s, prefix)]. *)
Definition HasPrefix (s prefix : string) : bool := String.prefix prefix s.

Fixpoint dropBytes (n : nat) (s : string) : string :=
  match n, s with
  | O, _ => s
  | S n', String _ s' => dropBytes n' s'
  | S _, EmptyString => EmptyString
  end.

(** [strings.HasSuffix(s, suffix)]:
    [len(s) >= len(suffix) && s[len(s)-len(suffix):] == suffix]. *)
Definition HasSuffix (s suffix : string) : bool :=
  (String.length suffix <=? String.length s)%nat
  && String.eqb (dropBytes (String.length s - String.length suffix) s) suffix.

(** Membership of a byte in an ASCII cutset. *)
Fixpoint inCutset (c : ascii) (cutset : string) : bool :=
  match cutset with
  | EmptyString => false
  | String d rest => Ascii.eqb c d || inCutset c rest
  end.

(** [strings.TrimRight(s, cutset)] for an ASCII cutset: every trailing
    byte that belongs to the cutset is removed. *)
Fixpoint TrimRight (s cutset : string) : string :=
  match s with
  | EmptyString => EmptyString
  | String c s' =>
      match TrimRight s' cutset with
      | EmptyString => if inCutset c cutset then EmptyString else String c EmptyString
      | t => String c t
      end
  end.

(** [strings.Contains(s, substr)]. *)
Fixpoint Contains (s substr : string) : bool :=
  String.prefix substr s ||
  match s with
  | EmptyString => false
  | String _ s' => Contains s' substr
  end.

Definition bytes (l : list nat) : string :=
  fold_right (fun n acc => String (ascii_of_nat n) acc) EmptyString l.

(** The UTF-8 encodings of the runes for which [unicode.IsSpace] holds:
    U+0009..U+000D, U+0020, U+0085, U+00A0, U+1680, U+2000..U+200A,
    U+2028, U+2029, U+202F, U+205F, U+3000. *)
Definition spaceEncodings : list string :=
  map bytes
    [ [9%nat]; [10%nat]; [11%nat]; [12%nat]; [13%nat]; [32%nat];
      [194; 133]%nat; [194; 160]%nat; [225; 154; 128]%nat;
      [226; 128; 128]%nat; [226; 128; 129]%nat; [226; 128; 130]%nat;
      [226; 128; 131]%nat; [226; 128; 132]%nat; [226; 128; 133]%nat;
      [226; 128; 134]%nat; [226; 128; 135]%nat; [226; 128; 136]%nat;
      [226; 128; 137]%nat; [226; 128; 138]%nat;
      [226; 128; 168]%nat; [226; 128; 169]%nat; [226; 128; 175]%nat;
      [226; 129; 159]%nat; [227; 128; 128]%nat ].

(** One leading rune removed, when it is one of [encs]. *)
Definition stripOne (encs : list string) (s : string) : option string :=
  match List.find (fun e => String.prefix e s) encs with
  | Some e => Some (dropBytes (String.length e) s)
  | None => None
  end.

Fixpoint trimLeftBy (fuel : nat) (encs : list string) (s : string) : string :=
  match fuel with
  | O => s
  | S fuel' =>
      match stripOne encs s with
      | Some s' => trimLeftBy fuel' encs s'
      | None => s
      end
  end.

(** [strings.TrimSpace(s)]: leading and trailing white space removed, as
    defined by Unicode. *)
Definition TrimSpace (s : string) : string :=
  let l := trimLeftBy (String.length s) spaceEncodings s in
  String.rev
    (trimLeftBy (String.length l) (map String.rev spaceEncodings) (String.rev l)).

End Strings.

(** ** The [net] package: IP addresses as byte slices *)

Module Net.

Definition IP := list Byte.byte.

Definition b2z (b : Byte.byte) : Z := Z.of_N (Byte.to_N b).

(** [bytealg.Equal]. *)
Fixpoint bytesEqual (a b : list Byte.byte) : bool :=
  match a, b with
  | [], [] => true
  | x :: a', y :: b' => Byte.eqb x y && bytesEqual a' b'
  | _, _ => false
  end.

Definition zb (n : N) : Byte.byte :=
  match Byte.of_N n with Some b => b | None => Byte.x00 end.

Definition v4InV6Prefix : list Byte.byte :=
  map zb [0; 0; 0; 0; 0; 0; 0; 0; 0; 0; 255; 255]%N.

Definition IPv4len : nat := 4.
Definition IPv6len : nat := 16.

(** [net.IPv4(a, b, c, d)], the 16-byte form. *)
Definition IPv4 (a b c d : N) : IP := v4InV6Prefix ++ map zb [a; b; c; d].

Definition IPv4bcast : IP := IPv4 255 255 255 255.
Definition IPv4zero : IP := IPv4 0 0 0 0.
Definition IPv6unspecified : IP := replicate 16 Byte.x00.
Definition IPv6loopback : IP := replicate 15 Byte.x00 ++ [zb 1].

(** [ip.Equal(x)]: an IPv4 address and its IPv6 form are equal. *)
Definition Equal (ip x : IP) : bool :=
  if bool_decide (length ip = length x) then bytesEqual ip x
  else if bool_decide (length ip = IPv4len) && bool_decide (length x = IPv6len) then
    bytesEqual (take 12 x) v4InV6Prefix && bytesEqual ip (drop 12 x)
  else if bool_decide (length ip = IPv6len) && bool_decide (length x = IPv4len) then
    bytesEqual (take 12 ip) v4InV6Prefix && bytesEqual (drop 12 ip) x
  else false.

(** [ip.To4()]: [None] is Go's nil. *)
Definition To4 (ip : IP) : option IP :=
  if bool_decide (length ip = IPv4len) then Some ip
  else if bool_decide (length ip = IPv6len)
          && forallb (fun b => b2z b =? 0) (take 10 ip)
          && bool_decide (b2z <$> ip !! 10%nat = Some 255)
          && bool_decide (b2z <$> ip !! 11%nat = Some 255)
  then Some (drop 12 ip)
  else None.

Definition byteAt (ip : IP) (i : nat) : Z :=
  match ip !! i with Some b => b2z b | None => 0 end.

Definition IsUnspecified (ip : IP) : bool :=
  Equal ip IPv4zero || Equal ip IPv6unspecified.

Definition IsLoopback (ip : IP) : bool :=
  match To4 ip with
  | Some ip4 => byteAt ip4 0 =? 127
  | None => Equal ip IPv6loopback
  end.

Definition IsMulticast (ip : IP) : bool :=
  match To4 ip with
  | Some ip4 => Z.land (byteAt ip4 0) 0xf0 =? 0xe0
  | None => bool_decide (length ip = IPv6len) && (byteAt ip 0 =? 0xff)
  end.

Definition IsLinkLocalUnicast (ip : IP) : bool :=
  match To4 ip with
  | Some ip4 => (byteAt ip4 0 =? 169) && (byteAt ip4 1 =? 254)
  | None =>
      bool_decide (length ip = IPv6len)
      && (byteAt ip 0 =? 0xfe) && (Z.land (byteAt ip 1) 0xc0 =? 0x80)
  end.

Definition IsGlobalUnicast (ip : IP) : bool :=
  (bool_decide (length ip = IPv4len) || bool_decide (length ip = IPv6len))
  && negb (Equal ip IPv4bcast)
  && negb (IsUnspecified ip)
  && negb (IsLoopback ip)
  && negb (IsMulticast ip)
  && negb (IsLinkLocalUnicast ip).

(** [net.FlagMulticast]. *)
Definition FlagMulticast : Z := 16.

End Net.

(** ** Data model: links, addresses, routes, traffic-control filters *)

(** [netlink.LinkAttrs], the fields the device manager reads.  [RawFlags]
    is a [uint32], [Flags] a [net.Flags], indices are Go [int]s. *)
Record LinkAttrs : Type := mkLinkAttrs {
  Index : Z;
  Name : string;
  HardwareAddr : list Byte.byte;
  Flags : Z;
  RawFlags : Z;
  MasterIndex : Z
}.

(** [netlink.Link]: an interface with [Attrs()] and [Type()]. *)
Record Link : Type := mkLink {
  Attrs : LinkAttrs;
  Type_ : string
}.

(** [netlink.Addr]. *)
Record Addr : Type := mkAddr {
  AddrIP : Net.IP;
  AddrFlags : Z;
  AddrLinkIndex : Z
}.

(** [netlink.Route]: [Dst = None] is the nil destination of a default
    route; only the IP of the destination network is read. *)
Record Route : Type := mkRoute {
  Dst : option Net.IP;
  Table : Z;
  LinkIndex : Z
}.

(** [netlink.Filter] is an interface; [*netlink.BpfFilter] is the
    implementation the auditor looks for. *)
Inductive Filter : Type :=
| BpfFilter (name : string)
| OtherFilter (kind : string).

(** [os.FileInfo] and [os.DirEntry], the parts that are read. *)
Record DirEntry : Type := mkDirEntry {
  EntryName : string;
  EntryIsDir : bool
}.

(** The outcome of [os.Stat]: success, an error for which
    [os.IsNotExist] holds, or any other error. *)
Inductive statResult : Type :=
| StatInfo (isDir : bool)
| StatNotExist (e : error)
| StatFailed (e : error).

(** Constants of [golang.org/x/sys/unix] and [netlink]. *)
Definition IFF_LOOPBACK : Z := 0x8.
Definition IFF_SLAVE : Z := 0x800.
Definition RT_TABLE_LOCAL : Z := 255.
Definition IFA_F_SECONDARY : Z := 0x01.
Definition IFA_F_DEPRECATED : Z := 0x20.
Definition FAMILY_ALL : Z := 0.
Definition FAMILY_V4 : Z := 2.
Definition FAMILY_V6 : Z := 10.

(** ** The collaborators, as one snapshot of the host

    Every call the device manager makes outside itself reads this record:
    the netlink handle of the manager ([dm.handle]), the package-level
    netlink functions, the feature probe, the node and Kubernetes
    packages, viper and the file system. *)
Record Host : Type := mkHost {
  handle_LinkList : result (list Link);
  handle_LinkByIndex : Z -> result Link;
  handle_RouteListFiltered : Z -> result (list Route);
  netlink_LinkByName : string -> result Link;
  netlink_LinkByIndex : Z -> result Link;
  netlink_AddrList : option Link -> Z -> result (list Addr);
  netlink_FilterList : Link -> Z -> result (list Filter);
  probes_GetHelpers : string -> option (gset string);
  node_GetK8sNodeIP : option Net.IP;
  node_GetMasqIPv4AddrsWithDevices : gmap string Net.IP;
  k8s_IsEnabled : bool;
  viper_GetStringSlice : string -> list string;
  os_Stat : string -> statResult;
  os_ReadDir : string -> list DirEntry * option error
}.

(** The host with another answer to the route listing, everything else
    as it is. *)
Definition withRoutes (r : Z -> result (list Route)) (h : Host) : Host :=
  {| handle_LinkList := handle_LinkList h;
     handle_LinkByIndex := handle_LinkByIndex h;
     handle_RouteListFiltered := r;
     netlink_LinkByName := netlink_LinkByName h;
     netlink_LinkByIndex := netlink_LinkByIndex h;
     netlink_AddrList := netlink_AddrList h;
     netlink_FilterList := netlink_FilterList h;
     probes_GetHelpers := probes_GetHelpers h;
     node_GetK8sNodeIP := node_GetK8sNodeIP h;
     node_GetMasqIPv4AddrsWithDevices := node_GetMasqIPv4AddrsWithDevices h;
     k8s_IsEnabled := k8s_IsEnabled h;
     viper_GetStringSlice := viper_GetStringSlice h;
     os_Stat := os_Stat h;
     os_ReadDir := os_ReadDir h |}.

(** ** [option.Config], the configuration store

    [DirectRoutingDeviceRequired] stands for the method of that name,
    taken as a parameter: it is a function of feature flags that detection
    never writes. *)
Record Config : Type := mkConfig {
  devices_ : list string;
  DirectRoutingDevice : string;
  IPv6MCastDevice : string;
  EnableIPv4 : bool;
  EnableIPv6 : bool;
  EnableHostLegacyRouting : bool;
  EnableNodePort : bool;
  EnableHostFirewall : bool;
  EnableBandwidthManager : bool;
  EnableIPv6NDP : bool;
  DirectRoutingDeviceRequired : bool
}.

Definition GetDevices (c : Config) : list string := devices_ c.

Definition SetDevices (devs : list string) (c : Config) : Config :=
  mkConfig devs (DirectRoutingDevice c) (IPv6MCastDevice c) (EnableIPv4 c)
    (EnableIPv6 c) (EnableHostLegacyRouting c) (EnableNodePort c)
    (EnableHostFirewall c) (EnableBandwidthManager c) (EnableIPv6NDP c)
    (DirectRoutingDeviceRequired c).

Definition SetDirectRoutingDevice (dev : string) (c : Config) : Config :=
  mkConfig (devices_ c) dev (IPv6MCastDevice c) (EnableIPv4 c)
    (EnableIPv6 c) (EnableHostLegacyRouting c) (EnableNodePort c)
    (EnableHostFirewall c) (EnableBandwidthManager c) (EnableIPv6NDP c)
    (DirectRoutingDeviceRequired c).

Definition SetIPv6MCastDevice (dev : string) (c : Config) : Config :=
  mkConfig (devices_ c) (DirectRoutingDevice c) dev (EnableIPv4 c)
    (EnableIPv6 c) (EnableHostLegacyRouting c) (EnableNodePort c)
    (EnableHostFirewall c) (EnableBandwidthManager c) (EnableIPv6NDP c)
    (DirectRoutingDeviceRequired c).

(** Option names ([option.Devices], [option.DirectRoutingDevice],
    [option.IPv6MCastDevice]) and [defaults.HostDevice]. *)
Definition option_Devices : string := "devices".
Definition option_DirectRoutingDevice : string := "direct-routing-device".
Definition option_IPv6MCastDevice : string := "ipv6-mcast-device".
Definition defaults_HostDevice : string := "cilium_host".

(** ** The device manager *)

Definition deviceFilter := list string.

Record DeviceManager : Type := mkDeviceManager {
  devices : gset string;
  filter : deviceFilter
}.

Definition excludedDevicePrefixes : list string :=
  ["cilium_"; "lo"; "lxc"; "cni"; "docker"]%string.

Definition tcFilterParentIngress : Z := 0xfffffff2.
Definition tcFilterParentEgress : Z := 0xfffffff3.

(** [sort.Strings]: ascending byte-wise order. *)
Definition sortStrings (l : list string) : list string :=
  merge_sort String.le l.

(** [getDeviceList]: the names of the set, sorted. *)
Definition getDeviceList (devs : gset string) : list string :=
  sortStrings (elements devs).

Definition excludedIfFlagsMask : Z := Z.lor IFF_SLAVE IFF_LOOPBACK.

(** Modelled from the spec: [mac.LinkHasMacAddr] of pkg/mac, which is not
    among the sources; a link has a MAC address when its hardware address
    is not empty. *)
Definition LinkHasMacAddr (link : Link) : bool :=
  negb (bool_decide (length (HardwareAddr (Attrs link)) = 0%nat)).

(** *** The device filter *)

Definition checkLinkAddrs (h : Host) (l : Link) (family : Z) : bool :=
  match netlink_AddrList h (Some l) family with
  | Err _ => false
  | Ok addrs => negb (bool_decide (length addrs = 0%nat))
  end.

Definition checkDeviceWithIP (h : Host) (c : Config) (dev : string) : bool :=
  match netlink_LinkByName h dev with
  | Err _ => false
  | Ok l =>
      if EnableIPv4 c && negb (checkLinkAddrs h l FAMILY_V4) then false
      else if EnableIPv6 c && negb (checkLinkAddrs h l FAMILY_V6) then false
      else true
  end.

(** The loop of [deviceFilter.match] over the entries. *)
Fixpoint matchEntries (h : Host) (c : Config) (lst : deviceFilter) (dev : string) : bool :=
  match lst with
  | [] => false
  | entry :: rest =>
      if Strings.HasSuffix entry "+" then
        let prefix := Strings.TrimRight entry "+" in
        if Strings.HasPrefix dev prefix && checkDeviceWithIP h c dev then true
        else matchEntries h c rest dev
      else if String.eqb dev (Strings.TrimSpace entry) then true
      else matchEntries h c rest dev
  end.

(** [deviceFilter.match]. *)
Definition deviceFilter_match (h : Host) (c : Config) (lst : deviceFilter) (dev : string) : bool :=
  if bool_decide (length lst = 0%nat) then true
  else matchEntries h c lst dev.

(** *** The viability classifier *)

(** The loop over [excludedDevicePrefixes]. *)
Definition hasExcludedPrefix (name : string) : bool :=
  existsb (fun p => Strings.HasPrefix name p) excludedDevicePrefixes.

Definition isViableDevice (h : Host) (c : Config) (dm : DeviceManager)
    (l3DevOK hasDefaultRoute : bool) (link : Link) : bool :=
  let name := Name (Attrs link) in
  if hasExcludedPrefix name then false
  else if negb (Z.land (RawFlags (Attrs link)) excludedIfFlagsMask =? 0) then false
  else if negb l3DevOK && negb (LinkHasMacAddr link) then false
  else if negb (deviceFilter_match h c (filter dm) name) then false
  else
    let checkMaster :=
      if 0 <? MasterIndex (Attrs link) then
        match handle_LinkByIndex h (MasterIndex (Attrs link)) with
        | Ok master =>
            if String.eqb (Type_ master) "bridge" || String.eqb (Type_ master) "openvswitch"
            then false
            else if String.eqb (Type_ master) "bond" || String.eqb (Type_ master) "team"
            then false
            else true
        | Err _ => true
        end
      else true in
    if String.eqb (Type_ link) "veth" then
      if negb hasDefaultRoute then false else checkMaster
    else if String.eqb (Type_ link) "bridge" || String.eqb (Type_ link) "openvswitch" then
      false
    else checkMaster.

(** *** Detection from routes *)

Record linkInfo : Type := mkLinkInfo {
  hasDefaultRoute : bool
}.

Definition addDevice (name : string) (dm : DeviceManager) : DeviceManager :=
  mkDeviceManager ({[name]} ∪ devices dm) (filter dm).

(** One route of the first loop of [updateDevicesFromRoutes]. *)
Definition collectRoute (linkInfos : gmap Z linkInfo) (route : Route) : gmap Z linkInfo :=
  if match Dst route with
     | Some ip => negb (Net.IsGlobalUnicast ip)
     | None => false
     end
  then linkInfos
  else if Table route =? RT_TABLE_LOCAL then linkInfos
  else
    let info := default (mkLinkInfo false) (linkInfos !! LinkIndex route) in
    let info' := mkLinkInfo (hasDefaultRoute info || bool_decide (Dst route = None)) in
    <[LinkIndex route := info']> linkInfos.

(** One link index of the second loop: the manager and the [changed]
    flag are threaded through. *)
Definition visitLinkInfo (h : Host) (c : Config) (l3DevOK : bool)
    (st : DeviceManager * bool) (e : Z * linkInfo) : DeviceManager * bool :=
  match handle_LinkByIndex h e.1 with
  | Err _ => st
  | Ok link =>
      let name := Name (Attrs link) in
      if bool_decide (name ∈ devices st.1) then st
      else if isViableDevice h c st.1 l3DevOK (hasDefaultRoute e.2) link
      then (addDevice name st.1, true)
      else st
  end.

(** [updateDevicesFromRoutes]: the updated manager and whether the set
    changed.  The range over the map of link infos is taken in the order
    of [map_to_list]. *)
Definition updateDevicesFromRoutes (h : Host) (c : Config) (l3DevOK : bool)
    (routes : list Route) (dm : DeviceManager) : DeviceManager * bool :=
  let linkInfos := fold_left collectRoute routes ∅ in
  fold_left (visitLinkInfo h c l3DevOK) (map_to_list linkInfos) (dm, false).

Definition AreDevicesRequired (c : Config) : bool :=
  EnableNodePort c || EnableHostFirewall c || EnableBandwidthManager c.

(** *** The wildcard expander *)

(** The inner loop over all links for one wildcard pattern. *)
Definition expandWildcard (h : Host) (c : Config) (prefix : string)
    (allLinks : list Link) (m : gset string) : gset string :=
  fold_left
    (fun m link =>
       let name := Name (Attrs link) in
       if Strings.HasPrefix name prefix && checkDeviceWithIP h c name
       then {[name]} ∪ m else m)
    allLinks m.

(** One pattern of the outer loop. *)
Definition expandPattern (h : Host) (c : Config) (allLinks : list Link)
    (m : gset string) (iface : string) : gset string :=
  if Strings.HasSuffix iface "+" then
    expandWildcard h c (Strings.TrimRight iface "+") allLinks m
  else {[iface]} ∪ m.

Definition expandDeviceWildcards (h : Host) (c : Config)
    (devs : list string) (option : string) : result (list string) :=
  match handle_LinkList h with
  | Err e => Err ("device wildcard expansion failed to fetch devices: " +:+ e)
  | Ok allLinks =>
      let expandedDevicesMap := fold_left (expandPattern h c allLinks) devs ∅ in
      if bool_decide (0 < length devs)%nat && bool_decide (size expandedDevicesMap = 0%nat)
      then Err ("device wildcard expansion failed to detect devices. Please verify --"
                +:+ option +:+ " option.")
      else Ok (sortStrings (elements expandedDevicesMap))
  end.

(** *** State threaded by detection: the configuration store and the
    manager, with errors that leave the state as it is when they occur *)

Record World : Type := mkWorld {
  config : Config;
  manager : DeviceManager
}.

Definition M (A : Type) : Type := World -> result A * World.

Definition ret {A} (a : A) : M A := fun w => (Ok a, w).
Definition fail {A} (e : error) : M A := fun w => (Err e, w).
Definition bind {A B} (m : M A) (k : A -> M B) : M B :=
  fun w =>
    match m w with
    | (Ok a, w') => k a w'
    | (Err e, w') => (Err e, w')
    end.
Definition getConfig : M Config := fun w => (Ok (config w), w).
Definition getManager : M DeviceManager := fun w => (Ok (manager w), w).
Definition modifyConfig (f : Config -> Config) : M unit :=
  fun w => (Ok tt, mkWorld (f (config w)) (manager w)).
Definition modifyManager (f : DeviceManager -> DeviceManager) : M unit :=
  fun w => (Ok tt, mkWorld (config w) (f (manager w))).
Definition when (b : bool) (m : M unit) : M unit := if b then m else ret tt.

#[global] Instance M_ret : MRet M := @ret.
#[global] Instance M_bind : MBind M := fun A B k m => bind m k.

Definition expandDevices (h : Host) : M unit :=
  c ← getConfig ;
  match expandDeviceWildcards h c (GetDevices c) option_Devices with
  | Err e => fail e
  | Ok expandedDevices => modifyConfig (SetDevices expandedDevices)
  end.

(** Indexing an empty slice panics. *)
Definition panicIndexOutOfRange : error := "panic: runtime error: index out of range".

Definition expandDirectRoutingDevice (h : Host) : M unit :=
  c ← getConfig ;
  if String.eqb (DirectRoutingDevice c) "" then ret tt
  else
    match expandDeviceWildcards h c [DirectRoutingDevice c] option_DirectRoutingDevice with
    | Err e => fail e
    | Ok expandedDevices =>
        match expandedDevices with
        | dev :: _ => modifyConfig (SetDirectRoutingDevice dev)
        | [] => fail panicIndexOutOfRange
        end
    end.

(** The loop of [findK8SNodeIPLink] over the addresses. *)
Fixpoint findNodeIPAddr (h : Host) (nodeIP : Net.IP) (addrs : list Addr) : result Link :=
  match addrs with
  | [] => Err "K8s node device not found"
  | a :: rest =>
      if Net.Equal (AddrIP a) nodeIP then
        match netlink_LinkByIndex h (AddrLinkIndex a) with
        | Err e => Err e
        | Ok link =>
            if String.eqb (Name (Attrs link)) defaults_HostDevice
            then findNodeIPAddr h nodeIP rest
            else Ok link
        end
      else findNodeIPAddr h nodeIP rest
  end.

Definition findK8SNodeIPLink (h : Host) : result Link :=
  match node_GetK8sNodeIP h with
  | None => Err "failed to find K8s node device as node IP is not known"
  | Some nodeIP =>
      let family := if Net.To4 nodeIP is Some _ then FAMILY_V4 else FAMILY_V6 in
      match netlink_AddrList h None family with
      | Ok addrs => findNodeIPAddr h nodeIP addrs
      | Err _ => Err "K8s node device not found"
      end
  end.

Definition supportL3Dev (h : Host) : bool :=
  match probes_GetHelpers h "sched_cls" with
  | Some helpers => bool_decide ("bpf_skb_change_head" ∈ helpers)
  | None => false
  end.

(** The address family of the route listing. *)
Definition routeFamily (c : Config) : Z :=
  if EnableIPv4 c && negb (EnableIPv6 c) then FAMILY_V4
  else if negb (EnableIPv4 c) && EnableIPv6 c then FAMILY_V6
  else FAMILY_ALL.

(** Step 4 of [Detect]: from the routes, or from the configured list. *)
Definition detectOrSeed (h : Host) (l3DevOK : bool) : M unit :=
  c ← getConfig ;
  if bool_decide (length (GetDevices c) = 0%nat) && AreDevicesRequired c then
    match handle_RouteListFiltered h (routeFamily c) with
    | Err e => fail ("cannot retrieve routes for device detection: " +:+ e)
    | Ok routes =>
        modifyManager (fun dm => (updateDevicesFromRoutes h c l3DevOK routes dm).1)
    end
  else
    modifyManager (fun dm => fold_left (fun dm dev => addDevice dev dm) (GetDevices c) dm).

(** The block of [Detect] guarded by
    [detectDirectRoutingDev || detectIPv6MCastDev]. *)
Definition detectFromNodeIP (h : Host) (detectDirectRoutingDev detectIPv6MCastDev : bool)
    : M unit :=
  let found := findK8SNodeIPLink h in
  let k8sNodeDev := match found with Ok l => Name (Attrs l) | Err _ => ""%string end in
  match found with
  | Ok _ => modifyManager (addDevice k8sNodeDev)
  | Err e =>
      if k8s_IsEnabled h
      then fail ("k8s is enabled, but still failed to find node IP: " +:+ e)
      else ret tt
  end ;;
  when detectDirectRoutingDev (
    dm ← getManager ;
    if bool_decide (size (devices dm) = 1%nat) then
      match elements (devices dm) with
      | dev :: _ => modifyConfig (SetDirectRoutingDevice dev)
      | [] => ret tt
      end
    else if negb (String.eqb k8sNodeDev "") then
      modifyConfig (SetDirectRoutingDevice k8sNodeDev)
    else
      fail ("unable to determine direct routing device. Use --"
            +:+ option_DirectRoutingDevice +:+ " to specify it")) ;;
  when detectIPv6MCastDev (
    match found with
    | Ok l =>
        if negb (Z.land (Flags (Attrs l)) Net.FlagMulticast =? 0)
        then modifyConfig (SetIPv6MCastDevice k8sNodeDev)
        else fail ("unable to determine Multicast device. Use --"
                   +:+ option_IPv6MCastDevice +:+ " to specify it")
    | Err _ =>
        fail ("unable to determine Multicast device. Use --"
              +:+ option_IPv6MCastDevice +:+ " to specify it")
    end).

(** The start of [Detect]: the device set is made anew. *)
Definition resetDevices : M unit :=
  modifyManager (fun dm => mkDeviceManager ∅ (filter dm)).

(** The L3 capability: probed only without legacy host routing. *)
Definition probeL3Dev (h : Host) (c : Config) : bool :=
  if negb (EnableHostLegacyRouting c) then supportL3Dev h else true.

(** The configured direct-routing and multicast devices join the set;
    the result is the pair [(detectDirectRoutingDev, detectIPv6MCastDev)]
    of what is still to be detected. *)
Definition addConfiguredDevices : M (bool * bool) :=
  c ← getConfig ;
  let useDirectRoutingDevice :=
    DirectRoutingDeviceRequired c && negb (String.eqb (DirectRoutingDevice c) "") in
  when useDirectRoutingDevice (modifyManager (addDevice (DirectRoutingDevice c))) ;;
  let detectDirectRoutingDev :=
    if useDirectRoutingDevice then false else DirectRoutingDeviceRequired c in
  let useIPv6MCastDevice := negb (String.eqb (IPv6MCastDevice c) "") in
  when useIPv6MCastDevice (modifyManager (addDevice (IPv6MCastDevice c))) ;;
  let detectIPv6MCastDev :=
    if useIPv6MCastDevice then false else EnableIPv6NDP c in
  mret (detectDirectRoutingDev, detectIPv6MCastDev).

(** The end of [Detect]: the sorted list is written to the configuration
    and returned. *)
Definition publishDevices : M (list string) :=
  dm ← getManager ;
  let deviceList := getDeviceList (devices dm) in
  modifyConfig (SetDevices deviceList) ;;
  mret deviceList.

(** [Detect]: the returned list or error, and the state it leaves. *)
Definition Detect (h : Host) : M (list string) :=
  resetDevices ;;
  expandDevices h ;;
  expandDirectRoutingDevice h ;;
  c ← getConfig ;
  detectOrSeed h (probeL3Dev h c) ;;
  detect ← addConfiguredDevices ;
  when (detect.1 || detect.2) (detectFromNodeIP h detect.1 detect.2) ;;
  publishDevices.

(** *** The traffic-control filter auditor *)

(** The name test on a BPF filter. *)
Definition isCiliumProgram (name : string) : bool :=
  Strings.Contains name "bpf_netdev" ||
  Strings.Contains name "bpf_network" ||
  Strings.Contains name "bpf_host" ||
  Strings.Contains name "bpf_lxc" ||
  Strings.Contains name "bpf_overlay".

(** The inner loop: the recognised BPF filters are appended. *)
Definition collectFilters (allFilters : list string) (filters : list Filter) : list string :=
  fold_left
    (fun acc f =>
       match f with
       | BpfFilter name => if isCiliumProgram name then acc ++ [name] else acc
       | OtherFilter _ => acc
       end)
    filters allFilters.

(** The outer loop over the two parents. *)
Fixpoint tcFiltersLoop (h : Host) (link : Link) (parents : list Z)
    (allFilters : list string) : bool :=
  match parents with
  | [] => bool_decide (length allFilters = 0%nat)
  | parent :: rest =>
      match netlink_FilterList h link parent with
      | Err _ => false
      | Ok filters => tcFiltersLoop h link rest (collectFilters allFilters filters)
      end
  end.

Definition tcFiltersLost (h : Host) (link : Link) : bool :=
  tcFiltersLoop h link [tcFilterParentIngress; tcFilterParentEgress] [].

(** *** Dynamic device patterns *)

Definition DynamicDevicePath : string := "/etc/dynamic-devices".

Definition ReadDynamicDevices (h : Host) : result (list string) :=
  match os_Stat h DynamicDevicePath with
  | StatNotExist _ => Ok []
  | StatFailed e => Err e
  | StatInfo isDir =>
      if negb isDir then Ok []
      else
        let files := (os_ReadDir h DynamicDevicePath).1 in
        Ok (fold_left
              (fun devs f => if EntryIsDir f then devs else devs ++ [EntryName f +:+ "+"])
              files [])
  end.

(** *** The static device check *)

(** A log line of [checkStaticDevices]: level, message and the device
    field ([""] when the line has none).  The log lines of its callees
    are not recorded. *)
Inductive logEntry : Type :=
| Log (level msg device : string).

(** The variables of one tick: the device set, the [changed] flag, the
    map [currentExistOnHost] and the log written so far. *)
Record tick : Type := mkTick {
  t_devices : gset string;
  t_changed : bool;
  t_current : gmap string Link;
  t_log : list logEntry
}.

(** One link of the loop over [allLinks]. *)
Definition checkLink (h : Host) (c : Config) (flt : deviceFilter)
    (t : tick) (link : Link) : tick :=
  let name := Name (Attrs link) in
  let isExcluded := hasExcludedPrefix name in
  if negb (deviceFilter_match h c flt name) || isExcluded then
    if bool_decide (name ∈ t_devices t) then
      mkTick (t_devices t ∖ {[name]}) true (t_current t)
        (t_log t ++ [Log "info" "remove cilium_dev config" name])
    else t
  else
    let current := <[name := link]> (t_current t) in
    let exists_ := bool_decide (name ∈ t_devices t) in
    if negb exists_ then
      mkTick ({[name]} ∪ t_devices t) true current
        (t_log t ++ [Log "info" "Static device config lost, load again" name])
    else if exists_ && tcFiltersLost h link then
      mkTick (t_devices t) true current
        (t_log t ++ [Log "info" "Static device tc filter lost, load again" name])
    else mkTick (t_devices t) (t_changed t) current (t_log t).

(** One name of the loop that drops the devices gone from the host. *)
Definition dropIfGone (t : tick) (name : string) : tick :=
  match t_current t !! name with
  | Some _ => t
  | None =>
      mkTick (t_devices t ∖ {[name]}) true (t_current t)
        (t_log t ++ [Log "info" "Static device lost on host, load again" name])
  end.

Definition addrFlagsMask : Z := Z.lor IFA_F_SECONDARY IFA_F_DEPRECATED.

(** The loop over the addresses of a device: [true] when no primary
    address equals the recorded one. *)
Fixpoint addrChange (oldAddr : Net.IP) (addrs : list Addr) : bool :=
  match addrs with
  | [] => true
  | addr :: rest =>
      if negb (Z.land (AddrFlags addr) addrFlagsMask =? 0) then addrChange oldAddr rest
      else if Net.Equal oldAddr (AddrIP addr) then false
      else addrChange oldAddr rest
  end.

(** One name of the loop that compares addresses.  A name missing from
    [currentExistOnHost] reads as a nil link. *)
Definition checkAddr (h : Host) (addrWithDevices : gmap string Net.IP)
    (t : tick) (name : string) : tick :=
  match addrWithDevices !! name with
  | None =>
      mkTick (t_devices t) (t_changed t) (t_current t)
        (t_log t ++ [Log "warning" "Can't get old address, skip" name])
  | Some oldAddr =>
      match netlink_AddrList h (t_current t !! name) FAMILY_V4 with
      | Err _ =>
          mkTick (t_devices t) (t_changed t) (t_current t)
            (t_log t ++ [Log "warning" "Can't list address" name])
      | Ok addrs =>
          if addrChange oldAddr addrs then
            mkTick (t_devices t) true (t_current t)
              (t_log t ++ [Log "warning" "Address changed" name])
          else t
      end
  end.

(** [sets.String.List]: the members, sorted. *)
Definition setList (s : gset string) : list string := sortStrings (elements s).

(** The effective filter of a tick: the configured patterns and the
    dynamic ones, when they could be read. *)
Definition effectiveFilter (h : Host) : deviceFilter :=
  let allDeviceConfigs : gset string := list_to_set (viper_GetStringSlice h option_Devices) in
  match ReadDynamicDevices h with
  | Ok dynamicDeviceConfigs => setList (list_to_set dynamicDeviceConfigs ∪ allDeviceConfigs)
  | Err _ => setList allDeviceConfigs
  end.

(** The three loops of a tick that is not skipped.  The ranges over the
    device set are taken in the order of [elements]. *)
Definition checkLinks (h : Host) (c : Config) (flt : deviceFilter)
    (allLinks : list Link) (t : tick) : tick :=
  fold_left (checkLink h c flt) allLinks t.

Definition dropGone (t : tick) : tick :=
  fold_left dropIfGone (elements (t_devices t)) t.

Definition checkAddrs (h : Host) (t : tick) : tick :=
  fold_left (checkAddr h (node_GetMasqIPv4AddrsWithDevices h)) (elements (t_devices t)) t.

(** The log line written when the dynamic patterns cannot be read. *)
Definition dynamicLog (h : Host) : list logEntry :=
  match ReadDynamicDevices h with
  | Err _ => [Log "error" "read dynamic-device config failed, skip" ""]
  | Ok _ => []
  end.

(** The variables of a tick when its first loop starts. *)
Definition tickStart (h : Host) (dm : DeviceManager) : tick :=
  mkTick (devices dm) false ∅ (dynamicLog h).

(** [checkStaticDevices]: the [changed] result, the manager it leaves
    and the log it wrote. *)
Definition checkStaticDevices (h : Host) (c : Config) (dm : DeviceManager)
    : bool * DeviceManager * list logEntry :=
  match handle_LinkList h with
  | Err _ => (false, dm, [Log "error" "checkStaticDevices failed, skip" ""])
  | Ok allLinks =>
      let flt := effectiveFilter h in
      if bool_decide (length flt = 0%nat) then (false, dm, dynamicLog h)
      else
        let t1 := checkLinks h c flt allLinks (tickStart h dm) in
        let t2 := dropGone t1 in
        let t3 := checkAddrs h t2 in
        (t_changed t3, mkDeviceManager (t_devices t3) (filter dm), t_log t3)
  end.

(** One reconciliation tick of [Listen]: the check, then the list that
    is sent on the channel when something changed. *)
Definition tickOnce (h : Host) (c : Config) (dm : DeviceManager)
    : option (list string) * DeviceManager :=
  let '(devicesChanged, dm', _) := checkStaticDevices h c dm in
  let devs := getDeviceList (devices dm') in
  (if devicesChanged then Some devs else None, dm').

(** *** The start of [Listen]

    The links deleted since [Detect] leave the device set; the list is
    sent on the channel, created with room for one list, when a device
    left.  The range over the device set is taken in the order of
    [elements]. *)

(** The map [linksByName] of the names of all links. *)
Definition linksByName (allLinks : list Link) : gset string :=
  fold_left (fun m link => {[Name (Attrs link)]} ∪ m) allLinks ∅.

(** One name of the loop over the device set. *)
Definition dropIfDeleted (names : gset string) (st : gset string * bool) (name : string)
    : gset string * bool :=
  if bool_decide (name ∈ names) then st else (st.1 ∖ {[name]}, true).

Definition listenStart (h : Host) (dm : DeviceManager)
    : option (list string) * DeviceManager :=
  match handle_LinkList h with
  | Err _ => (None, dm)
  | Ok allLinks =>
      let st :=
        fold_left (dropIfDeleted (linksByName allLinks)) (elements (devices dm))
          (devices dm, false) in
      let devs := getDeviceList st.1 in
      (if st.2 then Some devs else None, mkDeviceManager st.1 (filter dm))
  end.

(** ** Predicates on routes and addresses *)

(** A route that counts for detection: its destination is nil or a
    global unicast address, and it is not in the local table. *)
Definition countsForDetection (route : Route) : Prop :=
  match Dst route with
  | Some ip => Net.IsGlobalUnicast ip = true
  | None => True
  end
  ∧ Table route ≠ RT_TABLE_LOCAL.

(** A primary address: neither secondary nor deprecated. *)
Definition isPrimary (addr : Addr) : Prop :=
  Z.land (AddrFlags addr) addrFlagsMask = 0.

(** ** Predicates on the state of detection *)

(** Every feature flag of the configuration is the same. *)
Definition sameFlags (c c' : Config) : Prop :=
  EnableIPv4 c' = EnableIPv4 c ∧ EnableIPv6 c' = EnableIPv6 c
  ∧ EnableHostLegacyRouting c' = EnableHostLegacyRouting c
  ∧ EnableNodePort c' = EnableNodePort c
  ∧ EnableHostFirewall c' = EnableHostFirewall c
  ∧ EnableBandwidthManager c' = EnableBandwidthManager c
  ∧ EnableIPv6NDP c' = EnableIPv6NDP c
  ∧ DirectRoutingDeviceRequired c' = DirectRoutingDeviceRequired c.

(** What the steps of detection after the expansion of the device list
    leave alone until detection completes: the filter of the manager, the
    feature flags, the multicast device and the configured device list. *)
Definition stable (w w' : World) : Prop :=
  filter (manager w') = filter (manager w)
  ∧ sameFlags (config w) (config w')
  ∧ IPv6MCastDevice (config w') = IPv6MCastDevice (config w)
  ∧ devices_ (config w') = devices_ (config w).

(** The state with another device set. *)
Definition withDevices (devs : gset string) (w : World) : World :=
  mkWorld (config w) (mkDeviceManager devs (filter (manager w))).

(** ** The contracts, in the words of the specification

    Definitions written after the specification's text, to be compared
    with the functions above. *)

Module Spec.

(** The six rules of the viability classifier. *)
Inductive rule : Type :=
| ReservedPrefix
| ExcludedFlags
| NoL3Support
| FilterMismatch
| TypeRule
| MasterRule.

Definition rulesInOrder : list rule :=
  [ReservedPrefix; ExcludedFlags; NoL3Support; FilterMismatch; TypeRule; MasterRule].

(** Whether a rule, taken alone, rejects the link. *)
Definition rejects (h : Host) (c : Config) (dm : DeviceManager)
    (l3Capable hasDefaultRoute : bool) (link : Link) (r : rule) : bool :=
  let name := Name (Attrs link) in
  match r with
  | ReservedPrefix =>
      existsb (fun p => String.prefix p name) excludedDevicePrefixes
  | ExcludedFlags =>
      Z.testbit (RawFlags (Attrs link)) 11 || Z.testbit (RawFlags (Attrs link)) 3
  | NoL3Support =>
      negb l3Capable && bool_decide (HardwareAddr (Attrs link) = [])
  | FilterMismatch =>
      negb (deviceFilter_match h c (filter dm) name)
  | TypeRule =>
      if bool_decide (Type_ link = "veth") then negb hasDefaultRoute
      else bool_decide (Type_ link ∈ ["bridge"; "openvswitch"])
  | MasterRule =>
      (0 <? MasterIndex (Attrs link)) &&
      match handle_LinkByIndex h (MasterIndex (Attrs link)) with
      | Ok master =>
          bool_decide (Type_ master ∈ ["bridge"; "openvswitch"; "bond"; "team"])
      | Err _ => false
      end
  end.

(** The first rule, in order, that rejects. *)
Definition firstRejection (h : Host) (c : Config) (dm : DeviceManager)
    (l3Capable hasDefaultRoute : bool) (link : Link) : option rule :=
  List.find (rejects h c dm l3Capable hasDefaultRoute link) rulesInOrder.

(** A wildcard pattern has a trailing ['+']. *)
Definition isWildcard (pattern : string) : Prop :=
  ∃ s, pattern = s +:+ "+".

(** The named device carries at least one address of the family. *)
Definition carriesAddr (h : Host) (l : Link) (family : Z) : Prop :=
  ∃ a rest, netlink_AddrList h (Some l) family = Ok (a :: rest).

(** The address-family gate: the named device carries at least one
    address in every enabled address family. *)
Definition addressGate (h : Host) (c : Config) (dev : string) : Prop :=
  ∃ l, netlink_LinkByName h dev = Ok l
       ∧ (EnableIPv4 c = true → carriesAddr h l FAMILY_V4)
       ∧ (EnableIPv6 c = true → carriesAddr h l FAMILY_V6).

(** When one pattern matches a name. *)
Definition patternMatches (h : Host) (c : Config) (pattern dev : string) : Prop :=
  (isWildcard pattern
   ∧ String.prefix (Strings.TrimRight pattern "+") dev = true
   ∧ addressGate h c dev)
  ∨ (¬ isWildcard pattern ∧ dev = Strings.TrimSpace pattern).

(** The names a pattern list expands to, given the current links. *)
Definition expandsTo (h : Host) (c : Config) (allLinks : list Link)
    (patterns : list string) (name : string) : Prop :=
  ∃ pattern, pattern ∈ patterns ∧
    ((¬ isWildcard pattern ∧ name = pattern)
     ∨ (isWildcard pattern
        ∧ (∃ link, link ∈ allLinks ∧ Name (Attrs link) = name)
        ∧ String.prefix (Strings.TrimRight pattern "+") name = true
        ∧ addressGate h c name)).

(** A BPF filter of the datapath: its name contains one of the
    recognised program names. *)
Definition programNames : list string :=
  ["bpf_netdev"; "bpf_network"; "bpf_host"; "bpf_lxc"; "bpf_overlay"].

Definition isOurs (f : Filter) : Prop :=
  ∃ name, f = BpfFilter name ∧
    ∃ prog, prog ∈ programNames ∧ Strings.Contains name prog = true.

(** The log line by which a tick reports lost hooks on a device. *)
Definition reportsHooksLost (log : list logEntry) (name : string) : Prop :=
  Log "info" "Static device tc filter lost, load again" name ∈ log.

(** A link stays tracked by a tick: it passes the effective filter
    and has no excluded name prefix. *)
Definition passes (h : Host) (c : Config) (flt : deviceFilter) (name : string) : bool :=
  deviceFilter_match h c flt name && negb (hasExcludedPrefix name).

End Spec.

(** ** A concrete host, for evaluating the definitions *)

Module Sample.

Definition mac1 : list Byte.byte := map Net.zb [2; 0; 0; 0; 0; 1]%N.

Definition mkDev (idx : Z) (name ty : string) (rawFlags master : Z) : Link :=
  mkLink (mkLinkAttrs idx name mac1 (Z.lor 1 Net.FlagMulticast) rawFlags master) ty.

Definition lo : Link := mkDev 1 "lo" "device" 0x49 0.
Definition eth0 : Link := mkDev 2 "eth0" "device" 0x1043 0.
Definition eth1 : Link := mkDev 3 "eth1" "device" 0x1043 0.
Definition veth0 : Link := mkDev 4 "veth0" "veth" 0x1043 0.
Definition br0 : Link := mkDev 5 "br0" "bridge" 0x1043 0.
Definition bond0 : Link := mkDev 6 "bond0" "bond" 0x1443 0.
Definition eth2 : Link := mkDev 7 "eth2" "device" 0x1843 6.
Definition tun0 : Link :=
  mkLink (mkLinkAttrs 8 "tun0" [] 1 0x1043 0) "tuntap".

Definition links : list Link := [lo; eth0; eth1; veth0; br0; bond0; eth2; tun0].

Definition byIndex (idx : Z) : result Link :=
  match List.find (fun l => Index (Attrs l) =? idx) links with
  | Some l => Ok l
  | None => Err "Link not found"
  end.

Definition byName (name : string) : result Link :=
  match List.find (fun l => String.eqb (Name (Attrs l)) name) links with
  | Some l => Ok l
  | None => Err "Link not found"
  end.

Definition ip4 (a b c d : N) : Net.IP := map Net.zb [a; b; c; d].

(** eth0 carries 10.0.0.1 and eth1 carries 10.0.1.1; no link has an
    IPv6 address. *)
Definition addrs (l : option Link) (family : Z) : result (list Addr) :=
  let all := [mkAddr (ip4 10 0 0 1) 0 2; mkAddr (ip4 10 0 1 1) 0 3] in
  if family =? FAMILY_V6 then Ok []
  else
    match l with
    | None => Ok all
    | Some l => Ok (List.filter (fun a => AddrLinkIndex a =? Index (Attrs l)) all)
    end.

(** eth0 has the host program attached at ingress; eth1 has no BPF
    filter of the datapath. *)
Definition filters (l : Link) (parent : Z) : result (list Filter) :=
  if (Index (Attrs l) =? 2) && (parent =? tcFilterParentIngress)
  then Ok [BpfFilter "bpf_host.o:[from-netdev]"]
  else if Index (Attrs l) =? 3 then Ok [OtherFilter "u32"; BpfFilter "other.o"]
  else Ok [].

Definition routes : list Route :=
  [ mkRoute None 254 2;
    mkRoute (Some (ip4 10 0 1 0)) 254 3;
    mkRoute None 254 4;
    mkRoute (Some (ip4 127 0 0 0)) 255 1 ].

Definition host : Host :=
  {| handle_LinkList := Ok links;
     handle_LinkByIndex := byIndex;
     handle_RouteListFiltered := fun _ => Ok routes;
     netlink_LinkByName := byName;
     netlink_LinkByIndex := byIndex;
     netlink_AddrList := addrs;
     netlink_FilterList := filters;
     probes_GetHelpers := fun _ => Some {["bpf_skb_change_head"]};
     node_GetK8sNodeIP := Some (ip4 10 0 0 1);
     node_GetMasqIPv4AddrsWithDevices := {["eth0" := ip4 10 0 0 1]};
     k8s_IsEnabled := true;
     viper_GetStringSlice := fun _ => ["eth+"];
     os_Stat := fun _ => StatNotExist "no such file or directory";
     os_ReadDir := fun _ => ([], Some "no such file or directory") |}.

(** The sample host with the dynamic-device path a directory of the
    given entries. *)
Definition withDir (entries : list DirEntry) : Host :=
  {| handle_LinkList := handle_LinkList host;
     handle_LinkByIndex := handle_LinkByIndex host;
     handle_RouteListFiltered := handle_RouteListFiltered host;
     netlink_LinkByName := netlink_LinkByName host;
     netlink_LinkByIndex := netlink_LinkByIndex host;
     netlink_AddrList := netlink_AddrList host;
     netlink_FilterList := netlink_FilterList host;
     probes_GetHelpers := probes_GetHelpers host;
     node_GetK8sNodeIP := node_GetK8sNodeIP host;
     node_GetMasqIPv4AddrsWithDevices := node_GetMasqIPv4AddrsWithDevices host;
     k8s_IsEnabled := k8s_IsEnabled host;
     viper_GetStringSlice := viper_GetStringSlice host;
     os_Stat := fun _ => StatInfo true;
     os_ReadDir := fun _ => (entries, None) |}.

(** The sample host when every listing of the kernel fails. *)
Definition downHost : Host :=
  {| handle_LinkList := Err "netlink: interrupted system call";
     handle_LinkByIndex := fun _ => Err "netlink: interrupted system call";
     handle_RouteListFiltered := fun _ => Err "netlink: interrupted system call";
     netlink_LinkByName := netlink_LinkByName host;
     netlink_LinkByIndex := netlink_LinkByIndex host;
     netlink_AddrList := netlink_AddrList host;
     netlink_FilterList := netlink_FilterList host;
     probes_GetHelpers := probes_GetHelpers host;
     node_GetK8sNodeIP := node_GetK8sNodeIP host;
     node_GetMasqIPv4AddrsWithDevices := node_GetMasqIPv4AddrsWithDevices host;
     k8s_IsEnabled := k8s_IsEnabled host;
     viper_GetStringSlice := viper_GetStringSlice host;
     os_Stat := os_Stat host;
     os_ReadDir := os_ReadDir host |}.

(** The sample host when the filters of a link cannot be listed at
    egress. *)
Definition noEgress : Host :=
  {| handle_LinkList := handle_LinkList host;
     handle_LinkByIndex := handle_LinkByIndex host;
     handle_RouteListFiltered := handle_RouteListFiltered host;
     netlink_LinkByName := netlink_LinkByName host;
     netlink_LinkByIndex := netlink_LinkByIndex host;
     netlink_AddrList := netlink_AddrList host;
     netlink_FilterList := fun l parent =>
       if parent =? tcFilterParentEgress then Err "netlink: no buffer space available"
       else netlink_FilterList host l parent;
     probes_GetHelpers := probes_GetHelpers host;
     node_GetK8sNodeIP := node_GetK8sNodeIP host;
     node_GetMasqIPv4AddrsWithDevices := node_GetMasqIPv4AddrsWithDevices host;
     k8s_IsEnabled := k8s_IsEnabled host;
     viper_GetStringSlice := viper_GetStringSlice host;
     os_Stat := os_Stat host;
     os_ReadDir := os_ReadDir host |}.

(** The sample host when no device pattern is configured. *)
Definition unconfigured : Host :=
  {| handle_LinkList := handle_LinkList host;
     handle_LinkByIndex := handle_LinkByIndex host;
     handle_RouteListFiltered := handle_RouteListFiltered host;
     netlink_LinkByName := netlink_LinkByName host;
     netlink_LinkByIndex := netlink_LinkByIndex host;
     netlink_AddrList := netlink_AddrList host;
     netlink_FilterList := netlink_FilterList host;
     probes_GetHelpers := probes_GetHelpers host;
     node_GetK8sNodeIP := node_GetK8sNodeIP host;
     node_GetMasqIPv4AddrsWithDevices := node_GetMasqIPv4AddrsWithDevices host;
     k8s_IsEnabled := k8s_IsEnabled host;
     viper_GetStringSlice := fun _ => [];
     os_Stat := os_Stat host;
     os_ReadDir := os_ReadDir host |}.

(** The sample host with no configured pattern and the dynamic-device
    directory holding the file [eth]. *)
Definition dynamicOnly : Host :=
  {| handle_LinkList := handle_LinkList host;
     handle_LinkByIndex := handle_LinkByIndex host;
     handle_RouteListFiltered := handle_RouteListFiltered host;
     netlink_LinkByName := netlink_LinkByName host;
     netlink_LinkByIndex := netlink_LinkByIndex host;
     netlink_AddrList := netlink_AddrList host;
     netlink_FilterList := netlink_FilterList host;
     probes_GetHelpers := probes_GetHelpers host;
     node_GetK8sNodeIP := node_GetK8sNodeIP host;
     node_GetMasqIPv4AddrsWithDevices := node_GetMasqIPv4AddrsWithDevices host;
     k8s_IsEnabled := k8s_IsEnabled host;
     viper_GetStringSlice := fun _ => [];
     os_Stat := fun _ => StatInfo true;
     os_ReadDir := fun _ => ([mkDirEntry "eth" false], None) |}.

(** The sample host when the address recorded for eth0 is no longer
    the one it carries. *)
Definition movedHost : Host :=
  {| handle_LinkList := handle_LinkList host;
     handle_LinkByIndex := handle_LinkByIndex host;
     handle_RouteListFiltered := handle_RouteListFiltered host;
     netlink_LinkByName := netlink_LinkByName host;
     netlink_LinkByIndex := netlink_LinkByIndex host;
     netlink_AddrList := netlink_AddrList host;
     netlink_FilterList := netlink_FilterList host;
     probes_GetHelpers := probes_GetHelpers host;
     node_GetK8sNodeIP := node_GetK8sNodeIP host;
     node_GetMasqIPv4AddrsWithDevices := {["eth0" := ip4 10 0 0 9]};
     k8s_IsEnabled := k8s_IsEnabled host;
     viper_GetStringSlice := viper_GetStringSlice host;
     os_Stat := os_Stat host;
     os_ReadDir := os_ReadDir host |}.

(** A manager that tracks eth1 and a device deleted since. *)
Definition dmGone : DeviceManager := mkDeviceManager {["eth1"; "eth9"]} [].

(** A manager that tracks eth0 and eth1. *)
Definition dm01 : DeviceManager := mkDeviceManager {["eth0"; "eth1"]} [].

(** A directory with one file and one subdirectory. *)
Definition dirEntries : list DirEntry :=
  [mkDirEntry "eth" false; mkDirEntry "bond" true].

Definition dirHost : Host := withDir dirEntries.

(** IPv4 only, node port enabled, nothing configured. *)
Definition cfg : Config :=
  {| devices_ := [];
     DirectRoutingDevice := "";
     IPv6MCastDevice := "";
     EnableIPv4 := true;
     EnableIPv6 := false;
     EnableHostLegacyRouting := false;
     EnableNodePort := true;
     EnableHostFirewall := false;
     EnableBandwidthManager := false;
     EnableIPv6NDP := false;
     DirectRoutingDeviceRequired := false |}.

Definition dm0 : DeviceManager := mkDeviceManager ∅ [].

(** States before detection with a configured device list. *)
Definition wEth0 : World :=
  mkWorld (SetDevices ["eth0"] cfg) (mkDeviceManager ∅ ["eth0"]).
Definition wUnsorted : World :=
  mkWorld (SetDevices ["eth1"; "eth0"] cfg) (mkDeviceManager ∅ ["eth1"; "eth0"]).
Definition wWildcard : World :=
  mkWorld (SetDevices ["eth+"] cfg) (mkDeviceManager ∅ ["eth+"]).
Definition wLo : World :=
  mkWorld (SetDevices ["lo"] cfg) (mkDeviceManager ∅ ["lo"]).

(** eth0 is configured and eth1 is the required direct-routing
    device. *)
Definition cfgDirect : Config :=
  {| devices_ := ["eth0"];
     DirectRoutingDevice := "eth1";
     IPv6MCastDevice := "";
     EnableIPv4 := true;
     EnableIPv6 := false;
     EnableHostLegacyRouting := false;
     EnableNodePort := true;
     EnableHostFirewall := false;
     EnableBandwidthManager := false;
     EnableIPv6NDP := false;
     DirectRoutingDeviceRequired := true |}.

Definition wDirect : World := mkWorld cfgDirect (mkDeviceManager ∅ ["eth0"]).

(** eth0 is configured; the direct-routing device is required and the
    multicast device is needed for NDP, and neither is set. *)
Definition cfgDetect : Config :=
  {| devices_ := ["eth0"];
     DirectRoutingDevice := "";
     IPv6MCastDevice := "";
     EnableIPv4 := true;
     EnableIPv6 := false;
     EnableHostLegacyRouting := false;
     EnableNodePort := true;
     EnableHostFirewall := false;
     EnableBandwidthManager := false;
     EnableIPv6NDP := true;
     DirectRoutingDeviceRequired := true |}.

Definition wDetect : World := mkWorld cfgDetect (mkDeviceManager ∅ ["eth0"]).

(** Nothing is configured and no feature needs devices. *)
Definition cfgIdle : Config :=
  {| devices_ := [];
     DirectRoutingDevice := "";
     IPv6MCastDevice := "";
     EnableIPv4 := true;
     EnableIPv6 := false;
     EnableHostLegacyRouting := true;
     EnableNodePort := false;
     EnableHostFirewall := false;
     EnableBandwidthManager := false;
     EnableIPv6NDP := false;
     DirectRoutingDeviceRequired := false |}.

(** The sample host when only the route listing fails. *)
Definition noRoutes : Host :=
  withRoutes (fun _ => Err "netlink: interrupted system call") host.

(** A state before detection: the direct-routing device is given as a
    pattern and the manager tracks eth9 from an earlier pass. *)
Definition w9 : World :=
  mkWorld (SetDirectRoutingDevice "eth+" cfg) (mkDeviceManager {["eth9"]} []).

(** A manager that tracks eth1. *)
Definition dm1 : DeviceManager := mkDeviceManager {["eth1"]} [].

End Sample.

Set Warnings "-clear-no-such-hyp".

(** * Properties *)

(** ** Bits and strings *)

Lemma land_pow2_testbit (x n : Z) :
  0 ≤ n → (Z.land x (2 ^ n) =? 0) = negb (Z.testbit x n).
Proof.
  intros Hn. destruct (Z.testbit x n) eqn:Hb; simpl.
  - apply Z.eqb_neq. intros H0.
    assert (Z.testbit (Z.land x (2 ^ n)) n = false) as Hz
      by (rewrite H0; apply Z.bits_0).
    rewrite Z.land_spec, Hb, Z.pow2_bits_true in Hz by lia. discriminate.
  - apply Z.eqb_eq. apply Z.bits_inj'. intros m Hm.
    rewrite Z.land_spec, Z.bits_0, Z.pow2_bits_eqb by lia.
    destruct (Z.eqb_spec n m) as [->|]; [by rewrite Hb|by rewrite andb_false_r].
Qed.

Lemma excludedIfFlagsMask_testbit (x : Z) :
  negb (Z.land x excludedIfFlagsMask =? 0) = Z.testbit x 11 || Z.testbit x 3.
Proof.
  unfold excludedIfFlagsMask, IFF_SLAVE, IFF_LOOPBACK.
  rewrite Z.land_lor_distr_r.
  pose proof (land_pow2_testbit x 11 ltac:(lia)) as H11.
  pose proof (land_pow2_testbit x 3 ltac:(lia)) as H3.
  change (2 ^ 11) with 0x800 in H11. change (2 ^ 3) with 0x8 in H3.
  destruct (Z.eqb_spec (Z.land x 0x800) 0) as [E1|E1];
    destruct (Z.eqb_spec (Z.land x 0x8) 0) as [E2|E2];
    rewrite <- (negb_involutive (Z.testbit x 11)), <- H11;
    rewrite <- (negb_involutive (Z.testbit x 3)), <- H3; simpl.
  - rewrite E1, E2. reflexivity.
  - rewrite E1, Z.lor_0_l. by apply negb_true_iff, Z.eqb_neq.
  - apply negb_true_iff, Z.eqb_neq. intros H. apply Z.lor_eq_0_iff in H. tauto.
  - apply negb_true_iff, Z.eqb_neq. intros H. apply Z.lor_eq_0_iff in H. tauto.
Qed.

(** Case analysis on the first [bool_decide] of the goal. *)
Ltac case_bd :=
  match goal with
  | |- context [@bool_decide ?P ?d] => destruct (@bool_decide_reflect P d)
  end.

(** Membership in a list given by its elements. *)
Ltac list_mem :=
  repeat match goal with
         | H : context [_ ∈ _ :: _] |- _ => rewrite elem_of_cons in H
         | H : context [_ ∈ []] |- _ => rewrite elem_of_nil in H
         end;
  rewrite ?elem_of_cons, ?elem_of_nil; naive_solver.

Lemma string_eqb_decide (s t : string) : String.eqb s t = bool_decide (s = t).
Proof.
  destruct (String.eqb_spec s t) as [->|Hne].
  - by rewrite bool_decide_eq_true_2.
  - by rewrite bool_decide_eq_false_2.
Qed.

Lemma LinkHasMacAddr_nil (link : Link) :
  negb (LinkHasMacAddr link) = bool_decide (HardwareAddr (Attrs link) = []).
Proof.
  unfold LinkHasMacAddr. rewrite negb_involutive.
  destruct (HardwareAddr (Attrs link)); reflexivity.
Qed.

Section Viability.
Context (h : Host) (c : Config) (dm : DeviceManager).

Lemma rejects_master (link : Link) l3 hdr :
  Spec.rejects h c dm l3 hdr link Spec.MasterRule =
  negb (if 0 <? MasterIndex (Attrs link) then
          match handle_LinkByIndex h (MasterIndex (Attrs link)) with
          | Ok master =>
              if String.eqb (Type_ master) "bridge" || String.eqb (Type_ master) "openvswitch"
              then false
              else if String.eqb (Type_ master) "bond" || String.eqb (Type_ master) "team"
              then false
              else true
          | Err _ => true
          end
        else true).
Proof.
  simpl. destruct (0 <? MasterIndex (Attrs link)); [|reflexivity].
  destruct (handle_LinkByIndex h (MasterIndex (Attrs link))) as [master|]; [|reflexivity].
  rewrite !string_eqb_decide. simpl.
  repeat case_bd; simpl; try reflexivity; exfalso; list_mem.
Qed.

(** C1. [isViableDevice] applies the six rules in order and stops at the
  first that rejects: excluded name prefix; slave or loopback flag; no
  L3 support and no MAC address; the device filter; the type rule (a
  veth is rejected exactly when it has no default route, a bridge or
  openvswitch always); a master that resolves to a bridge, openvswitch,
  bond or team.  A link no rule rejects is viable; for a veth this makes
  a default route necessary, and sufficient when nothing else rejects. *)
Theorem isViableDevice_first_rejection (l3DevOK hasDefaultRoute : bool) (link : Link) :
  isViableDevice h c dm l3DevOK hasDefaultRoute link
  = (if Spec.firstRejection h c dm l3DevOK hasDefaultRoute link is Some _
     then false else true)
  ∧ (Type_ link = "veth" →
     isViableDevice h c dm l3DevOK hasDefaultRoute link
     = hasDefaultRoute && isViableDevice h c dm l3DevOK true link).
Proof.
  assert (∀ hdr, isViableDevice h c dm l3DevOK hdr link
    = (if Spec.firstRejection h c dm l3DevOK hdr link is Some _ then false else true))
    as Hchar.
  { intros hdr. unfold Spec.firstRejection, Spec.rulesInOrder, isViableDevice. cbn [List.find].
    rewrite (rejects_master link l3DevOK hdr).
    cbn [Spec.rejects]. unfold hasExcludedPrefix, Strings.HasPrefix.
    destruct (existsb _ excludedDevicePrefixes); [reflexivity|].
    rewrite excludedIfFlagsMask_testbit.
    destruct (Z.testbit _ 11 || Z.testbit _ 3); [reflexivity|].
    rewrite LinkHasMacAddr_nil.
    destruct (negb l3DevOK && _); [reflexivity|].
    destruct (negb (deviceFilter_match _ _ _ _)); [reflexivity|].
    rewrite !string_eqb_decide.
    case_bd.
    - destruct (negb hdr); [reflexivity|]. by destruct (if 0 <? _ then _ else _).
    - repeat case_bd; simpl; try reflexivity; try (exfalso; list_mem).
      by destruct (if 0 <? _ then _ else _). }
  split; [apply Hchar|].
  intros Hveth. rewrite !Hchar.
  unfold Spec.firstRejection, Spec.rulesInOrder. cbn [List.find].
  cbn [Spec.rejects]. rewrite (bool_decide_eq_true_2 _ Hveth).
  destruct (existsb _ excludedDevicePrefixes); [by rewrite andb_false_r|].
  destruct (Z.testbit _ 11 || Z.testbit _ 3); [by rewrite andb_false_r|].
  destruct (negb l3DevOK && _); [by rewrite andb_false_r|].
  destruct (negb (deviceFilter_match _ _ _ _)); [by rewrite andb_false_r|].
  by destruct hasDefaultRoute.
Qed.

End Viability.

Lemma isViableDevice_first_rejection_witness :
  Type_ Sample.veth0 = "veth" ∧
  isViableDevice Sample.host Sample.cfg Sample.dm0 true false Sample.veth0
  = false && isViableDevice Sample.host Sample.cfg Sample.dm0 true true Sample.veth0.
Proof.
  split; [reflexivity|].
  apply (isViableDevice_first_rejection Sample.host Sample.cfg Sample.dm0 true false Sample.veth0).
  reflexivity.
Defined.

(** ** The [strings] functions mean what their names say *)

Lemma append_cons (a : ascii) (s t : string) : String a s +:+ t = String a (s +:+ t).
Proof. reflexivity. Qed.

Lemma append_nil_l (t : string) : "" +:+ t = t.
Proof. reflexivity. Qed.

Lemma length_append (s t : string) :
  String.length (s +:+ t) = (String.length s + String.length t)%nat.
Proof. induction s as [|a s IH]; [done|]. rewrite append_cons. simpl. by rewrite IH. Qed.

Lemma dropBytes_append (s t : string) :
  Strings.dropBytes (String.length s) (s +:+ t) = t.
Proof. induction s as [|a s IH]; [done|]. rewrite append_cons. simpl. exact IH. Qed.

Lemma dropBytes_split (n : nat) (s : string) :
  (n ≤ String.length s)%nat →
  ∃ t, s = t +:+ Strings.dropBytes n s ∧ String.length t = n.
Proof.
  revert s. induction n as [|n IH]; intros s Hn.
  - by exists "".
  - destruct s as [|a s]; simpl in Hn; [lia|].
    destruct (IH s ltac:(lia)) as (t & Hs & Hlen).
    exists (String a t). rewrite append_cons. simpl. split; [by f_equal|by f_equal].
Qed.

Lemma prefix_spec (p s : string) :
  String.prefix p s = true ↔ ∃ t, s = p +:+ t.
Proof.
  revert s. induction p as [|a p IH]; intros s.
  - destruct s; simpl; split; eauto.
  - destruct s as [|b s]; simpl.
    + split; [done|]. intros [t Ht]. by rewrite append_cons in Ht.
    + destruct (ascii_dec a b) as [->|Hne].
      * rewrite IH. split; intros [t Ht]; exists t.
        -- rewrite append_cons. by f_equal.
        -- rewrite append_cons in Ht. by injection Ht.
      * split; [done|]. intros [t Ht]. rewrite append_cons in Ht. by injection Ht.
Qed.

Lemma HasSuffix_spec (s suffix : string) :
  Strings.HasSuffix s suffix = true ↔ ∃ t, s = t +:+ suffix.
Proof.
  unfold Strings.HasSuffix. rewrite andb_true_iff, Nat.leb_le, String.eqb_eq. split.
  - intros [Hlen Hdrop].
    destruct (dropBytes_split (String.length s - String.length suffix) s ltac:(lia))
      as (t & Hs & _).
    exists t. by rewrite Hdrop in Hs.
  - intros [t ->]. rewrite length_append. split; [lia|].
    replace (String.length t + String.length suffix - String.length suffix)%nat
      with (String.length t) by lia.
    apply dropBytes_append.
Qed.

Lemma HasSuffix_isWildcard (pattern : string) :
  Strings.HasSuffix pattern "+" = true ↔ Spec.isWildcard pattern.
Proof. apply HasSuffix_spec. Qed.

(** [TrimRight s "+"] is [s] without its trailing ['+'] bytes, all of
    them. *)
Lemma TrimRight_plus (s : string) :
  ∃ t, s = Strings.TrimRight s "+" +:+ t
       ∧ Forall (λ ch, ch = "+"%char) (list_ascii_of_string t)
       ∧ Strings.HasSuffix (Strings.TrimRight s "+") "+" = false.
Proof.
  induction s as [|a s (t & Hs & Ht & Hno)].
  - exists "". split; [done|]. split; [constructor|done].
  - cbn [Strings.TrimRight]. destruct (Strings.TrimRight s "+") as [|b r] eqn:Er.
    + cbn [Strings.inCutset]. rewrite orb_false_r.
      destruct (Ascii.eqb_spec a "+"%char) as [->|Hne].
      * exists (String "+"%char t). rewrite append_nil_l in *. subst s.
        split; [done|]. split; [by constructor|done].
      * exists t. rewrite append_cons, append_nil_l in *. subst s.
        split; [done|]. split; [done|].
        apply not_true_is_false. rewrite HasSuffix_spec. intros [u Hu].
        destruct u as [|x u].
        -- rewrite append_nil_l in Hu. by injection Hu.
        -- rewrite append_cons in Hu. injection Hu as _ Hu. by destruct u.
    + exists t. rewrite append_cons. rewrite <- Hs. split; [done|]. split; [done|].
      apply not_true_is_false. rewrite HasSuffix_spec. intros [u Hu].
      destruct u as [|x u].
      * rewrite append_nil_l in Hu. done.
      * rewrite append_cons in Hu. injection Hu as _ Hu.
        apply not_true_iff_false in Hno. apply Hno, HasSuffix_spec. by exists u.
Qed.

(** The fuel of [trimLeftBy] is enough: nothing is left to strip. *)
Lemma stripOne_shorter (encs : list string) (s s' : string) :
  (∀ e, e ∈ encs → e ≠ "") →
  Strings.stripOne encs s = Some s' → (String.length s' < String.length s)%nat.
Proof.
  intros Hne. unfold Strings.stripOne.
  destruct (List.find (λ e, String.prefix e s) encs) as [e|] eqn:Hfind; [|done].
  intros [= <-]. apply find_some in Hfind as [Hin Hpre].
  apply list_elem_of_In in Hin. apply prefix_spec in Hpre as [t ->].
  rewrite dropBytes_append, length_append.
  specialize (Hne e Hin). destruct e; [done|]. simpl. lia.
Qed.

Lemma trimLeftBy_done (encs : list string) (fuel : nat) (s : string) :
  (∀ e, e ∈ encs → e ≠ "") →
  (String.length s ≤ fuel)%nat →
  Strings.stripOne encs (Strings.trimLeftBy fuel encs s) = None.
Proof.
  intros Hne. revert s. induction fuel as [|fuel IH]; intros s Hlen; cbn [Strings.trimLeftBy].
  - destruct s; [|simpl in Hlen; lia]. unfold Strings.stripOne.
    destruct (List.find _ encs) as [e|] eqn:Hfind; [|done].
    apply find_some in Hfind as [Hin Hpre]. apply list_elem_of_In in Hin.
    specialize (Hne e Hin). by destruct e.
  - destruct (Strings.stripOne encs s) as [s'|] eqn:Hs; [|done].
    apply IH. apply stripOne_shorter in Hs; [lia|done].
Qed.

(** ** The device filter *)

Section DeviceFilter.
Context (h : Host) (c : Config).

Lemma checkLinkAddrs_carries (l : Link) (family : Z) :
  checkLinkAddrs h l family = true ↔ Spec.carriesAddr h l family.
Proof.
  unfold checkLinkAddrs, Spec.carriesAddr.
  destruct (netlink_AddrList h (Some l) family) as [[|a rest]|e]; simpl.
  - split; [done|]. by intros (? & ? & ?).
  - split; [eauto|done].
  - split; [done|]. by intros (? & ? & ?).
Qed.

Lemma checkDeviceWithIP_gate (dev : string) :
  checkDeviceWithIP h c dev = true ↔ Spec.addressGate h c dev.
Proof.
  unfold checkDeviceWithIP, Spec.addressGate.
  destruct (netlink_LinkByName h dev) as [l|e].
  - setoid_rewrite <- checkLinkAddrs_carries. split.
    + intros Hc. exists l. split; [done|].
      destruct (EnableIPv4 c), (EnableIPv6 c),
        (checkLinkAddrs h l FAMILY_V4), (checkLinkAddrs h l FAMILY_V6);
        simpl in Hc; try discriminate Hc; split; intros; congruence.
    + intros (l' & Heq & H4 & H6). injection Heq as <-.
      destruct (EnableIPv4 c), (EnableIPv6 c); simpl;
        rewrite ?(H4 eq_refl), ?(H6 eq_refl); reflexivity.
  - split; [done|]. by intros (l & Hl & _).
Qed.

(** One entry of the loop decides as the specification says. *)
Lemma matchEntry_patternMatches (entry dev : string) :
  (if Strings.HasSuffix entry "+"
   then Strings.HasPrefix dev (Strings.TrimRight entry "+") && checkDeviceWithIP h c dev
   else String.eqb dev (Strings.TrimSpace entry)) = true
  ↔ Spec.patternMatches h c entry dev.
Proof.
  unfold Spec.patternMatches. rewrite <- HasSuffix_isWildcard, <- checkDeviceWithIP_gate.
  unfold Strings.HasPrefix.
  destruct (Strings.HasSuffix entry "+").
  - rewrite andb_true_iff. split; [by left|]. intros [(_ & ? & ?)|[Hn _]]; [done|].
    by destruct Hn.
  - rewrite String.eqb_eq. split; [by right|]. by intros [(? & _)|[_ ?]].
Qed.

Lemma matchEntries_exists (lst : deviceFilter) (dev : string) :
  matchEntries h c lst dev = true
  ↔ ∃ pattern, pattern ∈ lst ∧ Spec.patternMatches h c pattern dev.
Proof.
  induction lst as [|entry rest IH].
  - simpl. split; [done|]. intros (p & Hp & _). by apply elem_of_nil in Hp.
  - pose proof (matchEntry_patternMatches entry dev) as Hentry.
    cbn [matchEntries].
    destruct (Strings.HasSuffix entry "+").
    + destruct (Strings.HasPrefix dev _ && checkDeviceWithIP h c dev).
      * split; [|done]. intros _. exists entry. split; [left|by apply Hentry].
      * rewrite IH. split.
        -- intros (p & Hp & Hm). exists p. split; [by right|done].
        -- intros (p & Hp & Hm). apply elem_of_cons in Hp as [->|Hp]; [|by eauto].
           apply Hentry in Hm. done.
    + destruct (String.eqb dev (Strings.TrimSpace entry)).
      * split; [|done]. intros _. exists entry. split; [left|by apply Hentry].
      * rewrite IH. split.
        -- intros (p & Hp & Hm). exists p. split; [by right|done].
        -- intros (p & Hp & Hm). apply elem_of_cons in Hp as [->|Hp]; [|by eauto].
           apply Hentry in Hm. done.
Qed.

(** C2. [deviceFilter.match] accepts every name on an empty pattern
  list; a wildcard pattern (trailing ['+']) matches exactly the names
  that have the stripped prefix and whose device carries an address in
  every enabled address family; any other pattern matches exactly the
  name equal to the pattern trimmed of surrounding white space; on a
  non-empty list the result is true exactly when some pattern matches. *)
Theorem deviceFilter_match_spec (lst : deviceFilter) (dev : string) :
  (lst = [] → deviceFilter_match h c lst dev = true)
  ∧ (∀ pattern,
       deviceFilter_match h c [pattern] dev = true ↔ Spec.patternMatches h c pattern dev)
  ∧ (lst ≠ [] →
     (deviceFilter_match h c lst dev = true
      ↔ ∃ pattern, pattern ∈ lst ∧ Spec.patternMatches h c pattern dev)).
Proof.
  split; [by intros ->|]. split.
  - intros pattern.
    change (deviceFilter_match h c [pattern] dev) with (matchEntries h c [pattern] dev).
    rewrite matchEntries_exists. split.
    + intros (p & Hp & Hm). by apply list_elem_of_singleton in Hp as ->.
    + intros Hm. exists pattern. split; [left|done].
  - intros Hne. unfold deviceFilter_match.
    destruct lst as [|entry rest]; [done|].
    change (bool_decide (length (entry :: rest) = 0%nat)) with false.
    apply matchEntries_exists.
Qed.

End DeviceFilter.

Lemma deviceFilter_match_spec_witness :
  (["eth+"] ≠ ([] : list string)) ∧
  (deviceFilter_match Sample.host Sample.cfg ["eth+"] "eth0" = true
   ↔ ∃ pattern, pattern ∈ ["eth+"] ∧ Spec.patternMatches Sample.host Sample.cfg pattern "eth0").
Proof.
  split; [done|].
  apply (deviceFilter_match_spec Sample.host Sample.cfg ["eth+"] "eth0"). done.
Defined.

(** ** Sorted listings of a set *)

Lemma sortStrings_perm (l : list string) : sortStrings l ≡ₚ l.
Proof. apply merge_sort_Permutation. Qed.

Lemma sortStrings_sorted (l : list string) : Sorted String.le (sortStrings l).
Proof. apply (Sorted_merge_sort String.le). Qed.

Lemma elem_of_sortStrings (l : list string) (x : string) : x ∈ sortStrings l ↔ x ∈ l.
Proof. by rewrite sortStrings_perm. Qed.

Lemma elem_of_getDeviceList (devs : gset string) (x : string) :
  x ∈ getDeviceList devs ↔ x ∈ devs.
Proof. unfold getDeviceList. by rewrite elem_of_sortStrings, elem_of_elements. Qed.

Lemma NoDup_getDeviceList (devs : gset string) : NoDup (getDeviceList devs).
Proof. unfold getDeviceList. rewrite sortStrings_perm. apply NoDup_elements. Qed.

(** A sorted list without duplicates is determined by its members. *)
Lemma sorted_nodup_unique (l1 l2 : list string) :
  Sorted String.le l1 → NoDup l1 → Sorted String.le l2 → NoDup l2 →
  (∀ x, x ∈ l1 ↔ x ∈ l2) → l1 = l2.
Proof.
  intros S1 N1 S2 N2 Hmem.
  apply (Sorted_unique String.le); [done..|].
  by apply NoDup_Permutation.
Qed.

(** Sorting the set of a sorted duplicate-free list gives the list back. *)
Lemma getDeviceList_list_to_set (l : list string) :
  Sorted String.le l → NoDup l → getDeviceList (list_to_set l) = l.
Proof.
  intros Hs Hn. apply sorted_nodup_unique.
  - apply sortStrings_sorted.
  - apply NoDup_getDeviceList.
  - exact Hs.
  - exact Hn.
  - intros x. by rewrite elem_of_getDeviceList, elem_of_list_to_set.
Qed.

(** ** The wildcard expander *)

Section Expander.
Context (h : Host) (c : Config).

Lemma elem_of_expandWildcard (prefix : string) (allLinks : list Link)
    (m : gset string) (name : string) :
  name ∈ expandWildcard h c prefix allLinks m
  ↔ name ∈ m
    ∨ ((∃ link, link ∈ allLinks ∧ Name (Attrs link) = name)
       ∧ String.prefix prefix name = true ∧ Spec.addressGate h c name).
Proof.
  unfold expandWildcard. revert m.
  induction allLinks as [|link rest IH]; intros m; cbn [fold_left].
  - split; [by left|]. intros [?|((l & Hl & _) & _)]; [done|]. by apply elem_of_nil in Hl.
  - rewrite IH. unfold Strings.HasPrefix.
    destruct (String.prefix prefix (Name (Attrs link))
              && checkDeviceWithIP h c (Name (Attrs link))) eqn:Hpass.
    + apply andb_true_iff in Hpass as [Hp Hc]. apply checkDeviceWithIP_gate in Hc.
      rewrite elem_of_union, elem_of_singleton. split.
      * intros [[->|?]|((l & Hl & Hn) & ?)]; [right|by left|right].
        -- split; [exists link; split; [left|done]|done].
        -- split; [exists l; split; [by right|done]|done].
      * intros [?|((l & Hl & Hn) & Hpre & Hg)]; [by left; right|].
        apply elem_of_cons in Hl as [->|Hl]; [by left; left|].
        right. split; [by exists l|done].
    + split.
      * intros [?|((l & Hl & Hn) & ?)]; [by left|right].
        split; [exists l; split; [by right|done]|done].
      * intros [?|((l & Hl & Hn) & Hpre & Hg)]; [by left|].
        apply elem_of_cons in Hl as [->|Hl].
        -- subst name. apply checkDeviceWithIP_gate in Hg.
           rewrite Hpre, Hg in Hpass. done.
        -- right. split; [by exists l|done].
Qed.

Lemma elem_of_expandPatterns (allLinks : list Link) (devs : list string)
    (m : gset string) (name : string) :
  name ∈ fold_left (expandPattern h c allLinks) devs m
  ↔ name ∈ m ∨ Spec.expandsTo h c allLinks devs name.
Proof.
  revert m. induction devs as [|iface rest IH]; intros m; cbn [fold_left].
  - split; [by left|]. intros [?|(p & Hp & _)]; [done|]. by apply elem_of_nil in Hp.
  - rewrite IH. unfold expandPattern, Spec.expandsTo.
    pose proof (HasSuffix_isWildcard iface) as Hw.
    destruct (Strings.HasSuffix iface "+").
    + assert (Spec.isWildcard iface) as Hwild by by apply Hw.
      rewrite elem_of_expandWildcard. split.
      * intros [[?|(Hl & Hp & Hg)]|(p & Hp & Hcase)]; [by left|right..].
        -- exists iface. split; [left|]. by right.
        -- exists p. split; [by right|done].
      * intros [?|(p & Hp & Hcase)]; [by left; left|].
        apply elem_of_cons in Hp as [->|Hp]; [|right; by exists p].
        destruct Hcase as [[Hn _]|(_ & Hl & Hpre & Hg)]; [done|]. left. by right.
    + assert (¬ Spec.isWildcard iface) as Hwild by (intros Hx; by apply Hw in Hx).
      rewrite elem_of_union, elem_of_singleton. split.
      * intros [[->|?]|(p & Hp & Hcase)]; [right|by left|right].
        -- exists iface. split; [left|]. by left.
        -- exists p. split; [by right|done].
      * intros [?|(p & Hp & Hcase)]; [by left; right|].
        apply elem_of_cons in Hp as [->|Hp]; [|right; by exists p].
        destruct Hcase as [[_ ->]|(Hy & _)]; [by left; left|done].
Qed.

(** The expander, when it succeeds. *)
Lemma expandDeviceWildcards_ok (devs : list string) (option : string)
    (expanded : list string) :
  expandDeviceWildcards h c devs option = Ok expanded →
  ∃ allLinks, handle_LinkList h = Ok allLinks
    ∧ (∀ name, name ∈ expanded ↔ Spec.expandsTo h c allLinks devs name)
    ∧ Sorted String.le expanded ∧ NoDup expanded
    ∧ (devs ≠ [] → expanded ≠ []).
Proof.
  unfold expandDeviceWildcards.
  destruct (handle_LinkList h) as [allLinks|e]; [|done].
  destruct (bool_decide _ && bool_decide _) eqn:Hguard; [done|].
  intros [= <-]. exists allLinks. split; [done|]. split; [|split; [|split]].
  - intros name. rewrite elem_of_sortStrings, elem_of_elements, elem_of_expandPatterns.
    split; [intros [?|?]; [set_solver|done]|by right].
  - apply sortStrings_sorted.
  - apply NoDup_getDeviceList.
  - intros Hne Hnil. apply andb_false_iff in Hguard as [Hlen|Hsize].
    + apply bool_decide_eq_false in Hlen. destruct devs; simpl in Hlen; [done|lia].
    + apply bool_decide_eq_false in Hsize. apply Hsize. apply size_empty_iff. intros x.
      rewrite <- elem_of_elements, <- elem_of_sortStrings, Hnil. set_solver.
Qed.

(** The expander, when it fails: the links could not be listed, or the
    patterns, not empty, expand to nothing. *)
Lemma expandDeviceWildcards_err (devs : list string) (option : string) (e : error) :
  expandDeviceWildcards h c devs option = Err e →
  (∃ e', handle_LinkList h = Err e')
  ∨ ∃ allLinks, handle_LinkList h = Ok allLinks
      ∧ devs ≠ [] ∧ ∀ name, ¬ Spec.expandsTo h c allLinks devs name.
Proof.
  unfold expandDeviceWildcards.
  destruct (handle_LinkList h) as [allLinks|e']; [|by eauto].
  destruct (bool_decide _ && bool_decide _) eqn:Hguard; [|done].
  intros _. right. exists allLinks. split; [done|].
  apply andb_true_iff in Hguard as [Hlen Hsize].
  apply bool_decide_eq_true in Hlen. apply bool_decide_eq_true in Hsize.
  split; [by destruct devs; simpl in Hlen; [lia|]|].
  intros name Hname. apply size_empty_iff in Hsize.
  assert (name ∈ fold_left (expandPattern h c allLinks) devs ∅) as Hin
    by (apply elem_of_expandPatterns; by right).
  set_solver.
Qed.

(** C3, as the code has it.  [expandDeviceWildcards] lists the links
    first.  When the listing fails it returns an error whatever the
    pattern list is, the empty one and those without wildcards included.
    When the listing succeeds it returns the sorted, duplicate-free list
    of exactly the names the patterns expand to: each pattern without a
    trailing ['+'] itself, and for each wildcard the names of the listed
    links that have the stripped prefix and pass the address-family gate;
    it returns an error instead exactly when the pattern list is not empty
    and expands to no name. *)
Theorem expandDeviceWildcards_spec (devs : list string) (option : string) :
  match handle_LinkList h with
  | Err e =>
      expandDeviceWildcards h c devs option
      = Err ("device wildcard expansion failed to fetch devices: " +:+ e)
  | Ok allLinks =>
      match expandDeviceWildcards h c devs option with
      | Ok expanded =>
          (∀ name, name ∈ expanded ↔ Spec.expandsTo h c allLinks devs name)
          ∧ Sorted String.le expanded ∧ NoDup expanded
          ∧ (devs ≠ [] → expanded ≠ [])
      | Err _ => devs ≠ [] ∧ ∀ name, ¬ Spec.expandsTo h c allLinks devs name
      end
  end.
Proof.
  destruct (handle_LinkList h) as [allLinks|e0] eqn:Hlinks.
  - destruct (expandDeviceWildcards h c devs option) as [expanded|e] eqn:Hexp.
    + apply expandDeviceWildcards_ok in Hexp as (allLinks' & Hl & Hrest).
      rewrite Hlinks in Hl. by injection Hl as <-.
    + apply expandDeviceWildcards_err in Hexp as [[e' He]|(allLinks' & Hl & Hrest)].
      * congruence.
      * rewrite Hlinks in Hl. by injection Hl as <-.
  - unfold expandDeviceWildcards. by rewrite Hlinks.
Qed.

End Expander.

(** The index [expandedDevices[0]] of [expandDirectRoutingDevice] is
    always in range. *)
Lemma expandDirectRoutingDevice_in_range (h : Host) (c : Config) (dev option : string)
    (expanded : list string) :
  expandDeviceWildcards h c [dev] option = Ok expanded → expanded ≠ [].
Proof.
  intros Hexp. apply expandDeviceWildcards_ok in Hexp as (_ & _ & _ & _ & _ & Hne).
  by apply Hne.
Qed.

Lemma expandDeviceWildcards_spec_witness :
  handle_LinkList Sample.host = Ok Sample.links ∧
  match expandDeviceWildcards Sample.host Sample.cfg ["eth+"; "foo"] "devices" with
  | Ok expanded =>
      (∀ name, name ∈ expanded
         ↔ Spec.expandsTo Sample.host Sample.cfg Sample.links ["eth+"; "foo"] name)
      ∧ Sorted String.le expanded ∧ NoDup expanded
      ∧ (["eth+"; "foo"] ≠ [] → expanded ≠ [])
  | Err _ =>
      ["eth+"; "foo"] ≠ []
      ∧ ∀ name, ¬ Spec.expandsTo Sample.host Sample.cfg Sample.links ["eth+"; "foo"] name
  end.
Proof.
  split; [reflexivity|].
  exact (expandDeviceWildcards_spec Sample.host Sample.cfg ["eth+"; "foo"] "devices").
Defined.

(** C3, as stated, fails when the links cannot be listed: the pattern
    eth0, which is no wildcard, is not passed through, and the empty
    pattern list gives an error as well. *)
Lemma expandDeviceWildcards_listing_error :
  handle_LinkList Sample.downHost = Err "netlink: interrupted system call"
  ∧ expandDeviceWildcards Sample.downHost Sample.cfg ["eth0"] "devices"
    = Err "device wildcard expansion failed to fetch devices: netlink: interrupted system call"
  ∧ expandDeviceWildcards Sample.downHost Sample.cfg [] "devices"
    = Err "device wildcard expansion failed to fetch devices: netlink: interrupted system call".
Proof. vm_compute. done. Qed.

(** ** Dynamic device patterns *)

Lemma ReadDynamicDevices_loop (files : list DirEntry) (devs : list string) :
  fold_left
    (fun devs f => if EntryIsDir f then devs else devs ++ [EntryName f +:+ "+"])
    files devs
  = devs ++ map (λ f, EntryName f +:+ "+") (List.filter (λ f, negb (EntryIsDir f)) files).
Proof.
  revert devs. induction files as [|f rest IH]; intros devs; simpl.
  - by rewrite app_nil_r.
  - rewrite IH. destruct (EntryIsDir f); simpl; [done|]. by rewrite <- app_assoc.
Qed.

(** C9, as the code has it.  When the path is a directory,
    [ReadDynamicDevices] returns without error one pattern [name+] for
    each immediate child entry that is not itself a directory, in the
    order of the listing; when the path does not exist, or is not a
    directory, it returns the empty list and no error. *)
Theorem ReadDynamicDevices_spec (h : Host) :
  match os_Stat h DynamicDevicePath with
  | StatInfo true =>
      ReadDynamicDevices h
      = Ok (map (λ f, EntryName f +:+ "+")
              (List.filter (λ f, negb (EntryIsDir f)) (os_ReadDir h DynamicDevicePath).1))
  | StatInfo false => ReadDynamicDevices h = Ok []
  | StatNotExist _ => ReadDynamicDevices h = Ok []
  | StatFailed _ => True
  end.
Proof.
  unfold ReadDynamicDevices.
  destruct (os_Stat h DynamicDevicePath) as [[|]| |]; simpl; try done.
  by rewrite ReadDynamicDevices_loop.
Qed.

(** C9, as stated, fails on a directory that holds a subdirectory: the
    child directory [bond] yields no pattern. *)
Lemma ReadDynamicDevices_skips_directories :
  os_Stat Sample.dirHost DynamicDevicePath = StatInfo true
  ∧ os_ReadDir Sample.dirHost DynamicDevicePath = (Sample.dirEntries, None)
  ∧ ReadDynamicDevices Sample.dirHost = Ok ["eth+"]
  ∧ ReadDynamicDevices Sample.dirHost
    ≠ Ok (map (λ f, EntryName f +:+ "+") Sample.dirEntries).
Proof. vm_compute. repeat split; discriminate. Qed.

(** ** The traffic-control filter auditor *)

Lemma isCiliumProgram_isOurs (name : string) :
  isCiliumProgram name = true ↔ Spec.isOurs (BpfFilter name).
Proof.
  unfold isCiliumProgram, Spec.isOurs, Spec.programNames.
  rewrite !orb_true_iff. split.
  - intros Hc. exists name. split; [done|].
    destruct Hc as [[[[H|H]|H]|H]|H]; eexists; (split; [|exact H]); list_mem.
  - intros (n & [= <-] & prog & Hp & Hc).
    rewrite !elem_of_cons, elem_of_nil in Hp.
    destruct Hp as [->|[->|[->|[->|[->|[]]]]]]; tauto.
Qed.

(** The inner loop leaves the accumulator empty exactly when it was
    empty and the listing holds no filter of the datapath. *)
Lemma collectFilters_nil (acc : list string) (filters : list Filter) :
  collectFilters acc filters = [] ↔ acc = [] ∧ ∀ f, f ∈ filters → ¬ Spec.isOurs f.
Proof.
  unfold collectFilters. revert acc.
  induction filters as [|f rest IH]; intros acc; cbn [fold_left].
  - split; [intros ->; split; [done|]; by intros f ?%elem_of_nil|by intros [-> _]].
  - rewrite IH. destruct f as [name|kind].
    + pose proof (isCiliumProgram_isOurs name) as Hours.
      destruct (isCiliumProgram name).
      * split.
        -- intros [Hacc _]. by destruct acc.
        -- intros [_ Hno]. exfalso. apply (Hno (BpfFilter name)); [left|by apply Hours].
      * split.
        -- intros [-> Hno]. split; [done|]. intros f [->|Hf]%elem_of_cons; [|by apply Hno].
           intros Hx. by apply Hours in Hx.
        -- intros [-> Hno]. split; [done|]. intros f Hf. apply Hno. by right.
    + split.
      * intros [-> Hno]. split; [done|]. intros f [->|Hf]%elem_of_cons; [|by apply Hno].
        by intros (n & ? & _).
      * intros [-> Hno]. split; [done|]. intros f Hf. apply Hno. by right.
Qed.

Lemma tcFiltersLost_iff (h : Host) (link : Link) :
  tcFiltersLost h link = true
  ↔ ∃ ingress egress,
      netlink_FilterList h link tcFilterParentIngress = Ok ingress
      ∧ netlink_FilterList h link tcFilterParentEgress = Ok egress
      ∧ ∀ f, f ∈ ingress ++ egress → ¬ Spec.isOurs f.
Proof.
  unfold tcFiltersLost. cbn [tcFiltersLoop].
  destruct (netlink_FilterList h link tcFilterParentIngress) as [ingress|e1].
  2: { split; [done|]. by intros (? & ? & ? & _). }
  destruct (netlink_FilterList h link tcFilterParentEgress) as [egress|e2].
  2: { split; [done|]. by intros (? & ? & _ & ? & _). }
  rewrite bool_decide_eq_true, length_zero_iff_nil, collectFilters_nil, collectFilters_nil.
  split.
  - intros [[_ Hin] Heg]. exists ingress, egress. repeat split.
    intros f [?|?]%elem_of_app; auto.
  - intros (i & e & [= <-] & [= <-] & Hno). repeat split; intros f Hf; apply Hno;
      apply elem_of_app; auto.
Qed.

(** ** The loops of the static device check *)

Section Tick.
Context (h : Host) (c : Config) (flt : deviceFilter).

Local Abbreviation passes := (Spec.passes h c flt).
Local Abbreviation hooksLost := (Log "info" "Static device tc filter lost, load again").

Lemma checkLink_guard (name : string) :
  negb (deviceFilter_match h c flt name) || hasExcludedPrefix name = negb (passes name).
Proof.
  unfold Spec.passes. by destruct (deviceFilter_match h c flt name), (hasExcludedPrefix name).
Qed.

(** What one link does to each variable of the tick. *)
Lemma checkLink_current (t : tick) (link : Link) :
  t_current (checkLink h c flt t link)
  = if passes (Name (Attrs link)) then <[Name (Attrs link) := link]> (t_current t)
    else t_current t.
Proof.
  unfold checkLink. rewrite checkLink_guard.
  destruct (passes (Name (Attrs link))); simpl; repeat case_bd; simpl; try done.
  by destruct (tcFiltersLost h link).
Qed.

Lemma checkLink_devices (t : tick) (link : Link) (name : string) :
  name ∈ t_devices (checkLink h c flt t link)
  ↔ if bool_decide (Name (Attrs link) = name) then passes name = true
    else name ∈ t_devices t.
Proof.
  unfold checkLink. rewrite checkLink_guard.
  destruct (passes (Name (Attrs link))) eqn:Hp; simpl.
  - destruct (bool_decide_reflect (Name (Attrs link) ∈ t_devices t)) as [Hin|Hout]; simpl.
    + destruct (tcFiltersLost h link); simpl; case_bd; subst; try done.
    + case_bd; subst; [set_solver|]. set_solver.
  - destruct (bool_decide_reflect (Name (Attrs link) ∈ t_devices t)) as [Hin|Hout]; simpl.
    + case_bd; subst; [|set_solver]. rewrite Hp. set_solver.
    + case_bd; subst; [|done]. by rewrite Hp.
Qed.

Lemma checkLink_changed (t : tick) (link : Link) :
  t_changed t = true → t_changed (checkLink h c flt t link) = true.
Proof.
  intros Hc. unfold checkLink.
  repeat match goal with |- context [if ?b then _ else _] => destruct b end; done.
Qed.

(** The log grows by at most one line; the line reports lost hooks
    exactly when the link stays tracked, was tracked, and the auditor
    found its hooks lost.  A new line sets [changed]. *)
Lemma checkLink_log (t : tick) (link : Link) :
  ∃ extra,
    t_log (checkLink h c flt t link) = t_log t ++ extra
    ∧ (∀ name, hooksLost name ∈ extra ↔
         name = Name (Attrs link) ∧ passes name = true
         ∧ name ∈ t_devices t ∧ tcFiltersLost h link = true)
    ∧ (extra ≠ [] → t_changed (checkLink h c flt t link) = true).
Proof.
  unfold checkLink. rewrite checkLink_guard.
  destruct (passes (Name (Attrs link))) eqn:Hp; simpl.
  - destruct (bool_decide_reflect (Name (Attrs link) ∈ t_devices t)) as [Hin|Hout]; simpl.
    + destruct (tcFiltersLost h link) eqn:Hl; simpl.
      * eexists. split; [done|]. split; [|done]. intros name.
        rewrite list_elem_of_singleton. split; [by intros [= ->]|by intros (-> & _)].
      * exists []. split; [by rewrite app_nil_r|]. split; [|done]. intros name.
        split; [by intros ?%elem_of_nil|by intros (_ & _ & _ & ?)].
    + eexists. split; [done|]. split; [|done]. intros name.
      rewrite list_elem_of_singleton. split; [done|]. by intros (-> & _ & ? & _).
  - destruct (bool_decide_reflect (Name (Attrs link) ∈ t_devices t)) as [Hin|Hout]; simpl.
    + eexists. split; [done|]. split; [|done]. intros name.
      rewrite list_elem_of_singleton. split; [done|]. intros (-> & ? & _). congruence.
    + exists []. split; [by rewrite app_nil_r|]. split; [|done]. intros name.
      split; [by intros ?%elem_of_nil|]. intros (-> & ? & _). congruence.
Qed.

(** The loop over the links. *)
Lemma checkLinks_cons (link : Link) (rest : list Link) (t : tick) :
  checkLinks h c flt (link :: rest) t = checkLinks h c flt rest (checkLink h c flt t link).
Proof. reflexivity. Qed.

Lemma checkLinks_current (allLinks : list Link) (t : tick) (name : string) (l : Link) :
  t_current (checkLinks h c flt allLinks t) !! name = Some l →
  t_current t !! name = Some l
  ∨ (l ∈ allLinks ∧ Name (Attrs l) = name ∧ passes name = true).
Proof.
  revert t. induction allLinks as [|link rest IH]; intros t; [by left|].
  rewrite checkLinks_cons. intros Hl. apply IH in Hl as [Hl|(? & ? & ?)].
  - rewrite checkLink_current in Hl.
    destruct (passes (Name (Attrs link))) eqn:Hp; [|by left].
    apply lookup_insert_Some in Hl as [[<- <-]|[_ Hl]]; [|by left].
    right. split; [left|done].
  - right. split; [by right|done].
Qed.

Lemma checkLinks_current_mono (allLinks : list Link) (t : tick) (name : string) :
  is_Some (t_current t !! name) →
  is_Some (t_current (checkLinks h c flt allLinks t) !! name).
Proof.
  revert t. induction allLinks as [|link rest IH]; intros t Hs; [done|].
  rewrite checkLinks_cons. apply IH. rewrite checkLink_current.
  destruct (passes (Name (Attrs link))); [|done].
  rewrite lookup_insert_is_Some. destruct (decide (Name (Attrs link) = name)); auto.
Qed.

Lemma checkLinks_current_recorded (allLinks : list Link) (t : tick) (l : Link) :
  l ∈ allLinks → passes (Name (Attrs l)) = true →
  is_Some (t_current (checkLinks h c flt allLinks t) !! Name (Attrs l)).
Proof.
  revert t. induction allLinks as [|link rest IH]; intros t Hl Hp.
  - by apply elem_of_nil in Hl.
  - rewrite checkLinks_cons. apply elem_of_cons in Hl as [->|Hl]; [|by apply IH].
    apply checkLinks_current_mono. rewrite checkLink_current, Hp.
    rewrite lookup_insert_is_Some. by left.
Qed.

Lemma checkLinks_devices (allLinks : list Link) (t : tick) (name : string) :
  name ∈ t_devices (checkLinks h c flt allLinks t)
  ↔ if bool_decide (name ∈ (λ l, Name (Attrs l)) <$> allLinks)
    then passes name = true else name ∈ t_devices t.
Proof.
  revert t. induction allLinks as [|link rest IH]; intros t.
  - rewrite bool_decide_eq_false_2; [done|]. by intros ?%elem_of_nil.
  - rewrite checkLinks_cons, IH, fmap_cons.
    destruct (bool_decide_reflect (name ∈ (λ l, Name (Attrs l)) <$> rest)) as [Hin|Hnone].
    + rewrite bool_decide_eq_true_2; [done|]. by right.
    + rewrite checkLink_devices.
      destruct (bool_decide_reflect (Name (Attrs link) = name)) as [Heq|Hne].
      * rewrite bool_decide_eq_true_2; [done|]. rewrite Heq. left.
      * rewrite bool_decide_eq_false_2; [done|].
        intros [->|?]%elem_of_cons; done.
Qed.

Lemma checkLinks_changed (allLinks : list Link) (t : tick) :
  t_changed t = true → t_changed (checkLinks h c flt allLinks t) = true.
Proof.
  revert t. induction allLinks as [|link rest IH]; intros t Hc; [done|].
  rewrite checkLinks_cons. by apply IH, checkLink_changed.
Qed.

Lemma checkLinks_log_mono (allLinks : list Link) (t : tick) (e : logEntry) :
  e ∈ t_log t → e ∈ t_log (checkLinks h c flt allLinks t).
Proof.
  revert t. induction allLinks as [|link rest IH]; intros t He; [done|].
  rewrite checkLinks_cons. apply IH.
  destruct (checkLink_log t link) as (extra & -> & _). apply elem_of_app. by left.
Qed.

(** A report of lost hooks written by the loop comes with [changed]
    set, for a link of the listing that stays tracked. *)
Lemma checkLinks_hooksLost (allLinks : list Link) (t : tick) (name : string) :
  hooksLost name ∈ t_log (checkLinks h c flt allLinks t) →
  hooksLost name ∈ t_log t
  ∨ (t_changed (checkLinks h c flt allLinks t) = true
     ∧ passes name = true
     ∧ ∃ l, l ∈ allLinks ∧ Name (Attrs l) = name ∧ tcFiltersLost h l = true).
Proof.
  revert t. induction allLinks as [|link rest IH]; intros t; [by left|].
  rewrite checkLinks_cons. intros Hlog. apply IH in Hlog as [Hlog|(? & ? & l & ? & ? & ?)].
  - destruct (checkLink_log t link) as (extra & Hextra & Hiff & Hch).
    rewrite Hextra in Hlog. apply elem_of_app in Hlog as [?|Hx]; [by left|].
    right. split; [|split].
    + apply checkLinks_changed, Hch. intros ->. by apply elem_of_nil in Hx.
    + by apply Hiff in Hx as (_ & ? & _).
    + apply Hiff in Hx as (-> & _ & _ & ?). exists link. split; [left|done].
  - right. split; [done|]. split; [done|]. exists l. split; [by right|done].
Qed.

(** A tracked link that stays tracked and has lost its hooks is
    reported. *)
Lemma checkLinks_reports (allLinks : list Link) (t : tick) (l : Link) :
  l ∈ allLinks → Name (Attrs l) ∈ t_devices t → passes (Name (Attrs l)) = true →
  tcFiltersLost h l = true →
  hooksLost (Name (Attrs l)) ∈ t_log (checkLinks h c flt allLinks t).
Proof.
  revert t. induction allLinks as [|link rest IH]; intros t Hl Hin Hp Hlost.
  - by apply elem_of_nil in Hl.
  - rewrite checkLinks_cons. apply elem_of_cons in Hl as [->|Hl].
    + apply checkLinks_log_mono.
      destruct (checkLink_log t link) as (extra & -> & Hiff & _).
      apply elem_of_app. right. by apply Hiff.
    + apply IH; [done| |done..]. apply checkLink_devices.
      case_bd; [done|done].
Qed.

(** The loop that drops the devices gone from the host. *)
Lemma dropIfGone_fold (names : list string) (t : tick) :
  let t' := fold_left dropIfGone names t in
  t_current t' = t_current t
  ∧ (∀ name, name ∈ t_devices t' ↔
       name ∈ t_devices t ∧ (name ∈ names → is_Some (t_current t !! name)))
  ∧ (t_changed t = true → t_changed t' = true)
  ∧ (∀ name, hooksLost name ∈ t_log t' ↔ hooksLost name ∈ t_log t).
Proof.
  revert t. induction names as [|n rest IH]; intros t; cbn [fold_left].
  - split; [done|]. split; [|by split]. intros name. split; [|by intros [? _]].
    intros ?. split; [done|]. by intros ?%elem_of_nil.
  - destruct (IH (dropIfGone t n)) as (Hcur & Hdev & Hch & Hlog).
    assert (t_current (dropIfGone t n) = t_current t) as Hc1
      by (unfold dropIfGone; by destruct (t_current t !! n)).
    split; [by rewrite Hcur|]. split; [|split].
    + intros name. rewrite Hdev, Hc1. unfold dropIfGone.
      destruct (t_current t !! n) as [l|] eqn:Hn; simpl.
      * split; intros [? Hrest]; (split; [done|]).
        -- intros [->|?]%elem_of_cons; [by rewrite Hn|auto].
        -- intros ?. apply Hrest. by right.
      * rewrite elem_of_difference, elem_of_singleton. split.
        -- intros [[? Hne] Hrest]. split; [done|].
           intros [->|?]%elem_of_cons; [done|auto].
        -- intros [? Hrest]. split; [split; [done|]|].
           ++ intros ->. destruct (Hrest ltac:(left)) as [? Hx]. congruence.
           ++ intros ?. apply Hrest. by right.
    + intros Hc. apply Hch. unfold dropIfGone. by destruct (t_current t !! n).
    + intros name. rewrite Hlog. unfold dropIfGone.
      destruct (t_current t !! n); [done|]. simpl.
      rewrite elem_of_app, list_elem_of_singleton. split; [|by left].
      intros [?|[=]]. done.
Qed.

(** The loop that compares addresses changes neither the device set
    nor the map of present links. *)
Lemma checkAddr_fold (addrWithDevices : gmap string Net.IP) (names : list string) (t : tick) :
  let t' := fold_left (checkAddr h addrWithDevices) names t in
  t_current t' = t_current t
  ∧ t_devices t' = t_devices t
  ∧ (t_changed t = true → t_changed t' = true)
  ∧ (∀ name, hooksLost name ∈ t_log t' ↔ hooksLost name ∈ t_log t).
Proof.
  revert t. induction names as [|n rest IH]; intros t; cbn [fold_left]; [done|].
  destruct (IH (checkAddr h addrWithDevices t n)) as (Hcur & Hdev & Hch & Hlog).
  assert (t_current (checkAddr h addrWithDevices t n) = t_current t
          ∧ t_devices (checkAddr h addrWithDevices t n) = t_devices t
          ∧ (t_changed t = true → t_changed (checkAddr h addrWithDevices t n) = true)
          ∧ (∀ name, hooksLost name ∈ t_log (checkAddr h addrWithDevices t n)
                     ↔ hooksLost name ∈ t_log t)) as (H1 & H2 & H3 & H4).
  { unfold checkAddr. destruct (addrWithDevices !! n) as [oldAddr|]; simpl.
    - destruct (netlink_AddrList h (t_current t !! n) FAMILY_V4) as [addrs|e]; simpl.
      + destruct (addrChange oldAddr addrs); simpl; repeat split; try done;
          rewrite elem_of_app, list_elem_of_singleton; [by intros [?|[=]]|by left].
      + repeat split; try done;
          rewrite elem_of_app, list_elem_of_singleton; [by intros [?|[=]]|by left].
    - repeat split; try done;
        rewrite elem_of_app, list_elem_of_singleton; [by intros [?|[=]]|by left]. }
  split; [by rewrite Hcur|]. split; [by rewrite Hdev|]. split; [auto|].
  intros name. by rewrite Hlog.
Qed.

End Tick.

(** ** The static device check *)

Section StaticCheck.
Context (h : Host) (c : Config) (dm : DeviceManager).

Local Abbreviation hooksLost := (Log "info" "Static device tc filter lost, load again").

(** A tick that is not skipped runs the three loops. *)
Lemma checkStaticDevices_run (allLinks : list Link) :
  handle_LinkList h = Ok allLinks → effectiveFilter h ≠ [] →
  checkStaticDevices h c dm
  = let t3 := checkAddrs h (dropGone (checkLinks h c (effectiveFilter h) allLinks
                                        (tickStart h dm))) in
    (t_changed t3, mkDeviceManager (t_devices t3) (filter dm), t_log t3).
Proof.
  intros Hl Hf. unfold checkStaticDevices. rewrite Hl.
  rewrite bool_decide_eq_false_2; [done|]. by rewrite length_zero_iff_nil.
Qed.

(** Before the address loop, the device set is the domain of the map
    of present links: the names of the listed links that pass. *)
Lemma dropGone_devices (allLinks : list Link) (name : string) :
  let t1 := checkLinks h c (effectiveFilter h) allLinks (tickStart h dm) in
  name ∈ t_devices (dropGone t1)
  ↔ (∃ l, t_current (dropGone t1) !! name = Some l ∧ l ∈ allLinks
          ∧ Name (Attrs l) = name)
    ∧ Spec.passes h c (effectiveFilter h) name = true.
Proof.
  intros t1. unfold dropGone.
  destruct (dropIfGone_fold (elements (t_devices t1)) t1) as (Hcur & Hdev & _ & _).
  rewrite Hdev, Hcur. rewrite elem_of_elements. split.
  - intros [Hin Hsome]. destruct (Hsome Hin) as [l Hl].
    destruct (checkLinks_current h c _ allLinks _ name l Hl) as [Hx|(? & ? & ?)]; [done|].
    split; [by exists l|done].
  - intros [(l & Hl & Hin & Hn) Hp]. split; [|by eauto].
    apply checkLinks_devices. rewrite bool_decide_eq_true_2; [done|].
    apply list_elem_of_fmap. by exists l.
Qed.

Lemma checkStaticDevices_devices (allLinks : list Link) (name : string) :
  handle_LinkList h = Ok allLinks → effectiveFilter h ≠ [] →
  name ∈ devices (checkStaticDevices h c dm).1.2
  ↔ (∃ l, l ∈ allLinks ∧ Name (Attrs l) = name)
    ∧ Spec.passes h c (effectiveFilter h) name = true.
Proof.
  intros Hl Hf. rewrite (checkStaticDevices_run allLinks Hl Hf). cbn [fst snd devices].
  unfold checkAddrs at 1.
  destruct (checkAddr_fold h (node_GetMasqIPv4AddrsWithDevices h)
              (elements (t_devices (dropGone (checkLinks h c (effectiveFilter h) allLinks
                                                (tickStart h dm)))))
              (dropGone (checkLinks h c (effectiveFilter h) allLinks (tickStart h dm))))
    as (_ & -> & _ & _).
  rewrite dropGone_devices. split.
  - intros [(l & _ & ? & ?) ?]. split; [by exists l|done].
  - intros [(l & Hin & Hn) Hp]. split; [|done].
    pose proof (checkLinks_current_recorded h c (effectiveFilter h) allLinks
                  (tickStart h dm) l Hin) as Hrec.
    rewrite Hn in Hrec. destruct (Hrec Hp) as [l' Hl'].
    unfold dropGone.
    destruct (dropIfGone_fold
                (elements (t_devices (checkLinks h c (effectiveFilter h) allLinks
                                        (tickStart h dm))))
                (checkLinks h c (effectiveFilter h) allLinks (tickStart h dm)))
      as (-> & _).
    exists l'. split; [done|].
    destruct (checkLinks_current h c _ allLinks _ name l' Hl') as [Hx|(? & ? & ?)]; done.
Qed.

Lemma dynamicLog_no_report (name : string) : hooksLost name ∉ dynamicLog h.
Proof.
  unfold dynamicLog. destruct (ReadDynamicDevices h).
  - by intros ?%elem_of_nil.
  - by intros [=]%list_elem_of_singleton.
Qed.

(** A report of lost hooks in the log of a tick. *)
Lemma checkStaticDevices_report (name : string) :
  Spec.reportsHooksLost (checkStaticDevices h c dm).2 name →
  (checkStaticDevices h c dm).1.1 = true
  ∧ name ∈ devices (checkStaticDevices h c dm).1.2.
Proof.
  unfold Spec.reportsHooksLost.
  destruct (handle_LinkList h) as [allLinks|e] eqn:Hl.
  2: { unfold checkStaticDevices. rewrite Hl. by intros [=]%list_elem_of_singleton. }
  destruct (decide (effectiveFilter h = [])) as [He|Hne].
  { unfold checkStaticDevices. rewrite Hl, He. cbn.
    intros Hx. by apply dynamicLog_no_report in Hx. }
  intros Hlog. rewrite (checkStaticDevices_devices allLinks name Hl Hne).
  rewrite (checkStaticDevices_run allLinks Hl Hne) in Hlog |- *. cbn [fst snd] in *.
  set (t1 := checkLinks h c (effectiveFilter h) allLinks (tickStart h dm)) in *.
  unfold checkAddrs in *.
  destruct (checkAddr_fold h (node_GetMasqIPv4AddrsWithDevices h)
              (elements (t_devices (dropGone t1))) (dropGone t1))
    as (_ & _ & Hch3 & Hlog3).
  apply Hlog3 in Hlog. unfold dropGone in *.
  destruct (dropIfGone_fold (elements (t_devices t1)) t1) as (_ & _ & Hch2 & Hlog2).
  apply Hlog2 in Hlog.
  apply checkLinks_hooksLost in Hlog as [Hlog|(Hch & Hp & l & Hin & Hn & _)].
  { by apply dynamicLog_no_report in Hlog. }
  split; [by apply Hch3, Hch2|]. split; [by exists l|done].
Qed.

(** When the tick reports. *)
Lemma checkStaticDevices_reports (allLinks : list Link) (l : Link) :
  handle_LinkList h = Ok allLinks → effectiveFilter h ≠ [] →
  l ∈ allLinks → Name (Attrs l) ∈ devices dm →
  Spec.passes h c (effectiveFilter h) (Name (Attrs l)) = true →
  tcFiltersLost h l = true →
  Spec.reportsHooksLost (checkStaticDevices h c dm).2 (Name (Attrs l)).
Proof.
  intros Hl Hne Hin Htracked Hp Hlost. unfold Spec.reportsHooksLost.
  rewrite (checkStaticDevices_run allLinks Hl Hne). cbn [fst snd].
  set (t1 := checkLinks h c (effectiveFilter h) allLinks (tickStart h dm)).
  unfold checkAddrs.
  destruct (checkAddr_fold h (node_GetMasqIPv4AddrsWithDevices h)
              (elements (t_devices (dropGone t1))) (dropGone t1))
    as (_ & _ & _ & Hlog3).
  apply Hlog3. unfold dropGone.
  destruct (dropIfGone_fold (elements (t_devices t1)) t1) as (_ & _ & _ & Hlog2).
  apply Hlog2. by apply checkLinks_reports.
Qed.

End StaticCheck.

(** C6, as the code has it.  [tcFiltersLost] is true exactly when both
    listings succeed and hold no BPF filter whose name contains a
    recognised program name; an error of either listing gives false.
    Within a tick, a report of lost hooks on a device sets [changed] and
    leaves the device in the set; the report is made for a tracked link
    with lost hooks when the tick is not skipped (the links are listed and
    the effective filter is not empty), the link is among those listed,
    passes the effective filter and has no excluded prefix. *)
Theorem tcFiltersLost_spec (h : Host) (link : Link) :
  (tcFiltersLost h link = true
   ↔ ∃ ingress egress,
       netlink_FilterList h link tcFilterParentIngress = Ok ingress
       ∧ netlink_FilterList h link tcFilterParentEgress = Ok egress
       ∧ ∀ f, f ∈ ingress ++ egress → ¬ Spec.isOurs f)
  ∧ (∀ parent e,
       parent ∈ [tcFilterParentIngress; tcFilterParentEgress] →
       netlink_FilterList h link parent = Err e → tcFiltersLost h link = false)
  ∧ (∀ c dm name,
       Spec.reportsHooksLost (checkStaticDevices h c dm).2 name →
       (checkStaticDevices h c dm).1.1 = true
       ∧ name ∈ devices (checkStaticDevices h c dm).1.2)
  ∧ (∀ c dm allLinks,
       handle_LinkList h = Ok allLinks → effectiveFilter h ≠ [] →
       link ∈ allLinks → Name (Attrs link) ∈ devices dm →
       Spec.passes h c (effectiveFilter h) (Name (Attrs link)) = true →
       tcFiltersLost h link = true →
       Spec.reportsHooksLost (checkStaticDevices h c dm).2 (Name (Attrs link))).
Proof.
  split; [apply tcFiltersLost_iff|]. split; [|split].
  - intros parent e Hp Herr. apply not_true_is_false. rewrite tcFiltersLost_iff.
    intros (i & g & Hi & Hg & _).
    apply elem_of_cons in Hp as [->|Hp]; [congruence|].
    apply list_elem_of_singleton in Hp as ->. congruence.
  - intros c dm name. apply checkStaticDevices_report.
  - intros c dm allLinks. apply checkStaticDevices_reports.
Qed.

Lemma tcFiltersLost_spec_witness :
  (Spec.reportsHooksLost (checkStaticDevices Sample.host Sample.cfg Sample.dm1).2 "eth1"
   ∧ (checkStaticDevices Sample.host Sample.cfg Sample.dm1).1.1 = true
   ∧ "eth1" ∈ devices (checkStaticDevices Sample.host Sample.cfg Sample.dm1).1.2)
  ∧ (netlink_FilterList Sample.noEgress Sample.eth1 tcFilterParentEgress
     = Err "netlink: no buffer space available"
     ∧ tcFiltersLost Sample.noEgress Sample.eth1 = false).
Proof.
  split.
  - pose proof (tcFiltersLost_spec Sample.host Sample.eth1) as (_ & _ & Hreport & Hreach).
    assert (Spec.reportsHooksLost
              (checkStaticDevices Sample.host Sample.cfg Sample.dm1).2 "eth1") as Hr.
    { apply (Hreach Sample.cfg Sample.dm1 Sample.links).
      - reflexivity.
      - vm_compute. discriminate.
      - vm_compute. do 2 right. left.
      - unfold Sample.dm1. cbn [devices Sample.eth1 Sample.mkDev Attrs Name].
        by apply elem_of_singleton.
      - vm_compute. reflexivity.
      - vm_compute. reflexivity. }
    split; [exact Hr|]. exact (Hreport Sample.cfg Sample.dm1 "eth1" Hr).
  - split; [reflexivity|].
    apply (proj1 (proj2 (tcFiltersLost_spec Sample.noEgress Sample.eth1))
             tcFilterParentEgress "netlink: no buffer space available").
    + right. left.
    + reflexivity.
Defined.

(** C6, as stated, fails in a tick that is skipped or drops the device.
    With no device pattern configured, eth1 is tracked, is listed and has
    lost its hooks, and the tick returns false.  With the pattern eth+
    configured, br0 is tracked, is listed and has lost its hooks, and the
    tick removes it from the device set. *)
Lemma tcFiltersLost_not_reported :
  (tcFiltersLost Sample.unconfigured Sample.eth1 = true
   ∧ handle_LinkList Sample.unconfigured = Ok Sample.links
   ∧ elements (devices Sample.dm1) = ["eth1"]
   ∧ (checkStaticDevices Sample.unconfigured Sample.cfg Sample.dm1).1.1 = false)
  ∧ (tcFiltersLost Sample.host Sample.br0 = true
     ∧ handle_LinkList Sample.host = Ok Sample.links
     ∧ getDeviceList (devices (mkDeviceManager {["br0"]} [])) = ["br0"]
     ∧ getDeviceList (devices (checkStaticDevices Sample.host Sample.cfg
                                 (mkDeviceManager {["br0"]} [])).1.2)
       = ["eth0"; "eth1"]).
Proof. vm_compute. done. Qed.

Lemma hasExcludedPrefix_false (name : string) :
  hasExcludedPrefix name = false
  ↔ ∀ p, p ∈ excludedDevicePrefixes → String.prefix p name = false.
Proof.
  unfold hasExcludedPrefix, Strings.HasPrefix. split.
  - intros Hex p Hp. apply not_true_is_false. intros Hpre.
    assert (existsb (λ p, String.prefix p name) excludedDevicePrefixes = true) as Hx.
    { apply existsb_exists. exists p. split; [by apply list_elem_of_In|done]. }
    congruence.
  - intros Hall. apply not_true_is_false. intros (p & Hp & Hpre)%existsb_exists.
    apply list_elem_of_In in Hp. rewrite (Hall p Hp) in Hpre. done.
Qed.

Lemma passes_iff (h : Host) (c : Config) (flt : deviceFilter) (name : string) :
  Spec.passes h c flt name = true
  ↔ deviceFilter_match h c flt name = true
    ∧ ∀ p, p ∈ excludedDevicePrefixes → String.prefix p name = false.
Proof.
  unfold Spec.passes. by rewrite andb_true_iff, negb_true_iff, hasExcludedPrefix_false.
Qed.

(** The effective filter is empty when nothing is configured and no
    dynamic pattern is read. *)
Lemma effectiveFilter_nil (h : Host) :
  viper_GetStringSlice h option_Devices = [] →
  (∀ l, ReadDynamicDevices h = Ok l → l = []) →
  effectiveFilter h = [].
Proof.
  intros Hv Hd. unfold effectiveFilter, setList. rewrite Hv.
  destruct (ReadDynamicDevices h) as [l|e].
  - rewrite (Hd l eq_refl). cbn [list_to_set foldr].
    rewrite (union_empty_l_L (∅ : gset string)), elements_empty. reflexivity.
  - cbn [list_to_set foldr]. rewrite elements_empty. reflexivity.
Qed.

(** C7. [checkStaticDevices] returns false and leaves the manager as it
    is when the link listing fails, and when no pattern is configured and
    no dynamic pattern is read, whatever the host holds otherwise. *)
Theorem checkStaticDevices_skipped (h : Host) (c : Config) (dm : DeviceManager) :
  (∀ e, handle_LinkList h = Err e →
        (checkStaticDevices h c dm).1 = (false, dm))
  ∧ (viper_GetStringSlice h option_Devices = [] →
     (∀ l, ReadDynamicDevices h = Ok l → l = []) →
     (checkStaticDevices h c dm).1 = (false, dm))
  ∧ (effectiveFilter h = [] → (checkStaticDevices h c dm).1 = (false, dm)).
Proof.
  assert (effectiveFilter h = [] → (checkStaticDevices h c dm).1 = (false, dm)) as Hempty.
  { intros He. unfold checkStaticDevices. rewrite He.
    by destruct (handle_LinkList h). }
  split; [|split; [|done]].
  - intros e He. unfold checkStaticDevices. by rewrite He.
  - intros Hv Hd. by apply Hempty, effectiveFilter_nil.
Qed.

Lemma checkStaticDevices_skipped_witness :
  (handle_LinkList Sample.downHost = Err "netlink: interrupted system call"
   ∧ (checkStaticDevices Sample.downHost Sample.cfg Sample.dm1).1 = (false, Sample.dm1))
  ∧ (viper_GetStringSlice Sample.unconfigured option_Devices = []
     ∧ ReadDynamicDevices Sample.unconfigured = Ok []
     ∧ (checkStaticDevices Sample.unconfigured Sample.cfg Sample.dm1).1
       = (false, Sample.dm1)).
Proof.
  split.
  - split; [reflexivity|].
    exact (proj1 (checkStaticDevices_skipped Sample.downHost Sample.cfg Sample.dm1)
             _ eq_refl).
  - split; [reflexivity|]. split; [reflexivity|].
    apply (proj1 (proj2 (checkStaticDevices_skipped Sample.unconfigured Sample.cfg
                           Sample.dm1))).
    + reflexivity.
    + intros l Hl. vm_compute in Hl. by injection Hl as <-.
Defined.

(** C10. After a tick whose link listing succeeded and whose effective
    filter is not empty, every name left in the device set is the name of
    a listed link, passes the effective filter and has no excluded
    prefix; and at each step of the address loop the lookup of the device
    in the map of present links finds a link recorded from the listing. *)
Theorem checkStaticDevices_present (h : Host) (c : Config) (dm : DeviceManager)
    (allLinks : list Link) :
  handle_LinkList h = Ok allLinks → effectiveFilter h ≠ [] →
  (∀ name, name ∈ devices (checkStaticDevices h c dm).1.2 →
     (∃ l, l ∈ allLinks ∧ Name (Attrs l) = name)
     ∧ deviceFilter_match h c (effectiveFilter h) name = true
     ∧ ∀ p, p ∈ excludedDevicePrefixes → String.prefix p name = false)
  ∧ (∀ visited name rest,
       elements (t_devices (dropGone (checkLinks h c (effectiveFilter h) allLinks
                                        (tickStart h dm))))
       = visited ++ name :: rest →
       ∃ l, t_current
              (fold_left (checkAddr h (node_GetMasqIPv4AddrsWithDevices h)) visited
                 (dropGone (checkLinks h c (effectiveFilter h) allLinks (tickStart h dm))))
            !! name = Some l
            ∧ l ∈ allLinks ∧ Name (Attrs l) = name).
Proof.
  intros Hl Hne. split.
  - intros name Hin. apply (checkStaticDevices_devices h c dm allLinks name Hl Hne) in Hin.
    destruct Hin as [Hex Hp]. apply passes_iff in Hp. tauto.
  - intros visited name rest Hel.
    destruct (checkAddr_fold h (node_GetMasqIPv4AddrsWithDevices h) visited
                (dropGone (checkLinks h c (effectiveFilter h) allLinks (tickStart h dm))))
      as (-> & _).
    assert (name ∈ t_devices (dropGone (checkLinks h c (effectiveFilter h) allLinks
                                          (tickStart h dm)))) as Hin.
    { apply elem_of_elements. rewrite Hel. apply elem_of_app. right. left. }
    apply dropGone_devices in Hin as [Hex _]. exact Hex.
Qed.

Lemma checkStaticDevices_present_witness :
  handle_LinkList Sample.host = Ok Sample.links
  ∧ effectiveFilter Sample.host ≠ []
  ∧ (∀ name, name ∈ devices (checkStaticDevices Sample.host Sample.cfg Sample.dm1).1.2 →
       (∃ l, l ∈ Sample.links ∧ Name (Attrs l) = name)
       ∧ deviceFilter_match Sample.host Sample.cfg (effectiveFilter Sample.host) name = true
       ∧ ∀ p, p ∈ excludedDevicePrefixes → String.prefix p name = false)
  ∧ getDeviceList (devices (checkStaticDevices Sample.host Sample.cfg Sample.dm1).1.2)
    = ["eth0"; "eth1"]
  ∧ (∀ name rest,
       elements (t_devices (dropGone (checkLinks Sample.host Sample.cfg
                                        (effectiveFilter Sample.host) Sample.links
                                        (tickStart Sample.host Sample.dm1))))
       = name :: rest →
       ∃ l, t_current (dropGone (checkLinks Sample.host Sample.cfg
                                   (effectiveFilter Sample.host) Sample.links
                                   (tickStart Sample.host Sample.dm1)))
            !! name = Some l
            ∧ l ∈ Sample.links ∧ Name (Attrs l) = name).
Proof.
  assert (effectiveFilter Sample.host ≠ []) as Hne by (vm_compute; discriminate).
  pose proof (checkStaticDevices_present Sample.host Sample.cfg Sample.dm1 Sample.links
                eq_refl Hne) as [Hnames Hlookups].
  split; [reflexivity|]. split; [exact Hne|]. split; [exact Hnames|].
  split; [vm_compute; reflexivity|].
  intros name rest Hel. exact (Hlookups [] name rest Hel).
Defined.

(** ** Detection *)

Lemma bind_run {A B} (m : M A) (k : A → M B) (w : World) :
  (m ≫= k) w
  = match m w with
    | (Ok a, w') => k a w'
    | (Err e, w') => (Err e, w')
    end.
Proof. reflexivity. Qed.

Lemma sameFlags_refl (c : Config) : sameFlags c c.
Proof. by repeat split. Qed.

Lemma stable_refl (w : World) : stable w w.
Proof. repeat split. Qed.

Lemma stable_trans (w1 w2 w3 : World) : stable w1 w2 → stable w2 w3 → stable w1 w3.
Proof.
  unfold stable, sameFlags. intros (? & (?&?&?&?&?&?&?&?) & ? & ?) (? & (?&?&?&?&?&?&?&?) & ? & ?).
  repeat split; congruence.
Qed.

(** The device set before the call plays no part in [Detect]. *)
Lemma Detect_reset (h : Host) (w : World) (devs : gset string) :
  Detect h (withDevices devs w) = Detect h w.
Proof. reflexivity. Qed.

Lemma expandDevices_run (h : Host) (w : World) :
  expandDevices h w
  = match expandDeviceWildcards h (config w) (GetDevices (config w)) option_Devices with
    | Err e => (Err e, w)
    | Ok expanded => (Ok tt, mkWorld (SetDevices expanded (config w)) (manager w))
    end.
Proof.
  unfold expandDevices. rewrite bind_run. cbn [getConfig].
  by destruct (expandDeviceWildcards _ _ _ _).
Qed.

Lemma expandDirectRoutingDevice_stable (h : Host) (w w' : World) (r : result unit) :
  expandDirectRoutingDevice h w = (r, w') →
  stable w w' ∧ manager w' = manager w.
Proof.
  unfold expandDirectRoutingDevice. rewrite bind_run. cbn [getConfig].
  destruct (String.eqb (DirectRoutingDevice (config w)) "").
  { intros [= _ <-]. split; [apply stable_refl|done]. }
  destruct (expandDeviceWildcards _ _ _ _) as [[|dev rest]|e];
    intros [= _ <-]; (split; [repeat split|done]).
Qed.

Lemma addDevices_fold (devs : list string) (dm : DeviceManager) :
  fold_left (λ dm dev, addDevice dev dm) devs dm
  = mkDeviceManager (list_to_set devs ∪ devices dm) (filter dm).
Proof.
  revert dm. induction devs as [|dev rest IH]; intros dm; cbn [fold_left].
  - destruct dm as [d f]. simpl. f_equal. set_solver.
  - rewrite IH. unfold addDevice. simpl. f_equal. set_solver.
Qed.

Lemma visitLinkInfo_filter (h : Host) (c : Config) (l3 : bool)
    (entries : list (Z * linkInfo)) (st : DeviceManager * bool) :
  filter (fold_left (visitLinkInfo h c l3) entries st).1 = filter st.1.
Proof.
  revert st. induction entries as [|e rest IH]; intros st; cbn [fold_left]; [done|].
  rewrite IH. unfold visitLinkInfo.
  destruct (handle_LinkByIndex h e.1); [|done].
  case_bd; [done|]. by destruct (isViableDevice _ _ _ _ _ _).
Qed.

Lemma detectOrSeed_stable (h : Host) (l3 : bool) (w w' : World) (r : result unit) :
  detectOrSeed h l3 w = (r, w') →
  stable w w' ∧ config w' = config w.
Proof.
  unfold detectOrSeed. rewrite bind_run. cbn [getConfig].
  destruct (bool_decide _ && AreDevicesRequired (config w)).
  - destruct (handle_RouteListFiltered h _) as [routes|e]; intros [= _ <-].
    + split; [|done]. repeat split. cbn. unfold updateDevicesFromRoutes.
      apply visitLinkInfo_filter.
    + split; [apply stable_refl|done].
  - intros [= _ <-]. split; [|done]. repeat split. cbn. by rewrite addDevices_fold.
Qed.

Lemma addConfiguredDevices_run (w : World) :
  ∃ d w', addConfiguredDevices w = (Ok d, w')
          ∧ config w' = config w ∧ filter (manager w') = filter (manager w).
Proof.
  unfold addConfiguredDevices. rewrite bind_run. cbn [getConfig].
  destruct (DirectRoutingDeviceRequired (config w) && _),
    (negb (String.eqb (IPv6MCastDevice (config w)) "")); eexists _, _; by split.
Qed.

Lemma detectFromNodeIP_stable (h : Host) (d1 d2 : bool) (w w' : World) (e : error) :
  detectFromNodeIP h d1 d2 w = (Err e, w') → stable w w'.
Proof.
  unfold detectFromNodeIP. rewrite bind_run.
  destruct (findK8SNodeIPLink h) as [l|e0].
  - cbn [modifyManager]. rewrite bind_run.
    destruct d1; cbn [when].
    + rewrite bind_run. cbn [getManager manager].
      case_bd.
      * destruct (elements _) as [|dev rest]; cbn [ret modifyConfig];
          (destruct d2; cbn [when]; [|by intros [=]]);
          (destruct (negb (Z.land _ _ =? 0)); intros [= _ <-]; repeat split).
      * destruct (negb (String.eqb (Name (Attrs l)) "")).
        -- cbn [modifyConfig].
           destruct d2; cbn [when]; [|by intros [=]].
           destruct (negb (Z.land _ _ =? 0)); intros [= _ <-]; repeat split.
        -- intros [= _ <-]. repeat split.
    + cbn [ret]. destruct d2; cbn [when]; [|by intros [=]].
      destruct (negb (Z.land _ _ =? 0)); intros [= _ <-]; repeat split.
  - destruct (k8s_IsEnabled h); [intros [= _ <-]; apply stable_refl|].
    cbn [ret]. rewrite bind_run.
    destruct d1; cbn [when].
    + rewrite bind_run. cbn [getManager manager].
      case_bd.
      * destruct (elements _) as [|dev rest]; cbn [ret modifyConfig];
          (destruct d2; cbn [when]; [|by intros [=]]); intros [= _ <-]; repeat split.
      * cbn. intros [= _ <-]. repeat split.
    + cbn [ret]. destruct d2; cbn [when]; [|by intros [=]].
      intros [= _ <-]. repeat split.
Qed.

Lemma publishDevices_run (w : World) :
  publishDevices w
  = (Ok (getDeviceList (devices (manager w))),
     mkWorld (SetDevices (getDeviceList (devices (manager w))) (config w)) (manager w)).
Proof. reflexivity. Qed.

(** The stages of [Detect], one after the other. *)
Lemma Detect_inv (h : Host) (w w' : World) (r : result (list string)) :
  Detect h w = (r, w') →
  (∃ e, expandDevices h (withDevices ∅ w) = (Err e, w') ∧ r = Err e)
  ∨ ∃ w1, expandDevices h (withDevices ∅ w) = (Ok tt, w1) ∧
    ((∃ e, expandDirectRoutingDevice h w1 = (Err e, w') ∧ r = Err e)
     ∨ ∃ w2, expandDirectRoutingDevice h w1 = (Ok tt, w2) ∧
       ((∃ e, detectOrSeed h (probeL3Dev h (config w2)) w2 = (Err e, w') ∧ r = Err e)
        ∨ ∃ w3 d w4,
            detectOrSeed h (probeL3Dev h (config w2)) w2 = (Ok tt, w3)
            ∧ addConfiguredDevices w3 = (Ok d, w4) ∧
            ((∃ e, when (d.1 || d.2) (detectFromNodeIP h d.1 d.2) w4 = (Err e, w')
                   ∧ r = Err e)
             ∨ ∃ w5, when (d.1 || d.2) (detectFromNodeIP h d.1 d.2) w4 = (Ok tt, w5)
                     ∧ publishDevices w5 = (r, w')))).
Proof.
  unfold Detect. rewrite bind_run. cbn [resetDevices modifyManager].
  change (mkWorld (config w) (mkDeviceManager ∅ (filter (manager w))))
    with (withDevices ∅ w).
  rewrite bind_run.
  destruct (expandDevices h (withDevices ∅ w)) as [[[]|e] w1]; [|intros [= <- <-]; eauto].
  intros H. right. exists w1. split; [done|]. revert H. rewrite bind_run.
  destruct (expandDirectRoutingDevice h w1) as [[[]|e] w2]; [|intros [= <- <-]; eauto].
  intros H. right. exists w2. split; [done|]. revert H. rewrite bind_run.
  cbn [getConfig]. rewrite bind_run.
  destruct (detectOrSeed h (probeL3Dev h (config w2)) w2) as [[[]|e] w3];
    [|intros [= <- <-]; eauto].
  intros H. right. exists w3.
  destruct (addConfiguredDevices_run w3) as (d & w4 & Hadd & _).
  exists d, w4. split; [done|]. split; [done|]. revert H.
  rewrite bind_run, Hadd, bind_run.
  destruct (when _ _ w4) as [[[]|e] w5]; [|intros [= <- <-]; eauto].
  intros H. right. by exists w5.
Qed.

Lemma when_error (b : bool) (m : M unit) (w w' : World) (e : error) :
  when b m w = (Err e, w') → b = true ∧ m w = (Err e, w').
Proof. destruct b; [done|]. by intros [=]. Qed.

(** C4, as the code has it.  When [Detect] returns an error, the
    detected list is neither returned nor published: the filter of the
    manager, the feature flags and the multicast device are as before the
    call, and the configured device list is as before or replaced by its
    wildcard expansion.  The device set is not restored: it was made anew
    at the start, so the state left behind is the same whatever the set
    held before the call. *)
Theorem Detect_error_state (h : Host) (w w' : World) (e : error) :
  Detect h w = (Err e, w') →
  filter (manager w') = filter (manager w)
  ∧ sameFlags (config w) (config w')
  ∧ IPv6MCastDevice (config w') = IPv6MCastDevice (config w)
  ∧ (GetDevices (config w') = GetDevices (config w)
     ∨ expandDeviceWildcards h (config w) (GetDevices (config w)) option_Devices
       = Ok (GetDevices (config w')))
  ∧ ∀ devs, Detect h (withDevices devs w) = (Err e, w').
Proof.
  intros HD.
  assert (∀ devs, Detect h (withDevices devs w) = (Err e, w')) as Hreset
    by (intros devs; by rewrite Detect_reset).
  assert (∀ w1, expandDevices h (withDevices ∅ w) = (Ok tt, w1) → stable w1 w' →
          filter (manager w') = filter (manager w)
          ∧ sameFlags (config w) (config w')
          ∧ IPv6MCastDevice (config w') = IPv6MCastDevice (config w)
          ∧ (GetDevices (config w') = GetDevices (config w)
             ∨ expandDeviceWildcards h (config w) (GetDevices (config w)) option_Devices
               = Ok (GetDevices (config w')))) as Hafter.
  { intros w1 H1 (Hf & Hflags & Hmc & Hdevs). rewrite expandDevices_run in H1.
    cbn [withDevices config] in H1.
    destruct (expandDeviceWildcards h (config w) (GetDevices (config w)) option_Devices)
      as [expanded|?] eqn:Hexp; [|done].
    injection H1 as <-. cbn in Hf, Hflags, Hmc, Hdevs.
    split; [done|]. split; [done|]. split; [done|]. right. unfold GetDevices.
    by rewrite Hdevs. }
  apply Detect_inv in HD as [(e1 & H1 & _)|(w1 & H1 & HD)].
  { rewrite expandDevices_run in H1. cbn [withDevices config] in H1.
    destruct (expandDeviceWildcards _ _ _ _); [done|]. injection H1 as _ <-.
    split; [done|]. split; [apply sameFlags_refl|]. split; [done|]. split; [by left|done]. }
  destruct HD as [(e2 & H2 & _)|(w2 & H2 & HD)].
  { apply expandDirectRoutingDevice_stable in H2 as [H2 _].
    destruct (Hafter w1 H1 H2) as (? & ? & ? & ?). done. }
  apply expandDirectRoutingDevice_stable in H2 as [H2 _].
  destruct HD as [(e3 & H3 & _)|(w3 & d & w4 & H3 & H4 & HD)].
  { apply detectOrSeed_stable in H3 as [H3 _].
    destruct (Hafter w1 H1 (stable_trans _ _ _ H2 H3)) as (? & ? & ? & ?). done. }
  apply detectOrSeed_stable in H3 as [H3 _].
  destruct (addConfiguredDevices_run w3) as (d' & w4' & H4' & Hc4 & Hf4).
  rewrite H4 in H4'. injection H4' as <- <-.
  assert (stable w3 w4) as H34.
  { unfold stable. rewrite Hc4, Hf4. repeat split. }
  destruct HD as [(e5 & H5 & _)|(w5 & _ & H6)].
  - apply when_error in H5 as [_ H5]. apply detectFromNodeIP_stable in H5.
    destruct (Hafter w1 H1 (stable_trans _ _ _ H2
                              (stable_trans _ _ _ H3 (stable_trans _ _ _ H34 H5))))
      as (? & ? & ? & ?). done.
  - by rewrite publishDevices_run in H6.
Qed.

Lemma Detect_error_state_witness :
  Detect Sample.noRoutes Sample.w9
  = (Err "cannot retrieve routes for device detection: netlink: interrupted system call",
     (Detect Sample.noRoutes Sample.w9).2)
  ∧ IPv6MCastDevice (config (Detect Sample.noRoutes Sample.w9).2)
    = IPv6MCastDevice (config Sample.w9).
Proof.
  assert (Detect Sample.noRoutes Sample.w9
          = (Err "cannot retrieve routes for device detection: netlink: interrupted system call",
             (Detect Sample.noRoutes Sample.w9).2)) as HD by (vm_compute; reflexivity).
  split; [exact HD|].
  exact (proj1 (proj2 (proj2 (Detect_error_state Sample.noRoutes Sample.w9 _ _ HD)))).
Defined.

(** C4, as stated, fails when the route listing fails: the device set
    held eth9 before the call and is empty after it, and the
    direct-routing device has been rewritten from the pattern to a name. *)
Lemma Detect_error_not_restored :
  (Detect Sample.noRoutes Sample.w9).1
  = Err "cannot retrieve routes for device detection: netlink: interrupted system call"
  ∧ elements (devices (manager Sample.w9)) = ["eth9"]
  ∧ elements (devices (manager (Detect Sample.noRoutes Sample.w9).2)) = []
  ∧ DirectRoutingDevice (config Sample.w9) = "eth+"
  ∧ DirectRoutingDevice (config (Detect Sample.noRoutes Sample.w9).2) = "eth0".
Proof. vm_compute. done. Qed.

(** A list without wildcards expands to its own members. *)
Lemma expandsTo_no_wildcard (h : Host) (c : Config) (allLinks : list Link)
    (devs : list string) (name : string) :
  (∀ p, p ∈ devs → ¬ Spec.isWildcard p) →
  Spec.expandsTo h c allLinks devs name ↔ name ∈ devs.
Proof.
  intros Hnw. unfold Spec.expandsTo. split.
  - intros (p & Hp & [[_ ->]|[Hw _]]); [done|]. by apply Hnw in Hw.
  - intros Hin. exists name. split; [done|]. left. split; [by apply Hnw|done].
Qed.

(** The answers of the host that do not depend on its routes. *)
Lemma findNodeIPAddr_withRoutes (r : Z → result (list Route)) (h : Host)
    (nodeIP : Net.IP) (addrs : list Addr) :
  findNodeIPAddr (withRoutes r h) nodeIP addrs = findNodeIPAddr h nodeIP addrs.
Proof.
  induction addrs as [|a rest IH]; [done|]. cbn [findNodeIPAddr]. rewrite IH. done.
Qed.

Lemma findK8SNodeIPLink_withRoutes (r : Z → result (list Route)) (h : Host) :
  findK8SNodeIPLink (withRoutes r h) = findK8SNodeIPLink h.
Proof.
  unfold findK8SNodeIPLink. cbn [withRoutes node_GetK8sNodeIP netlink_AddrList].
  destruct (node_GetK8sNodeIP h); [|done].
  destruct (netlink_AddrList h None _); [|done]. apply findNodeIPAddr_withRoutes.
Qed.

Lemma detectFromNodeIP_withRoutes (r : Z → result (list Route)) (h : Host) (d1 d2 : bool) :
  detectFromNodeIP (withRoutes r h) d1 d2 = detectFromNodeIP h d1 d2.
Proof. unfold detectFromNodeIP. by rewrite findK8SNodeIPLink_withRoutes. Qed.

Lemma detectOrSeed_seeded (h : Host) (l3 : bool) (w : World) :
  GetDevices (config w) ≠ [] →
  detectOrSeed h l3 w
  = (Ok tt, mkWorld (config w)
              (mkDeviceManager (list_to_set (GetDevices (config w)) ∪ devices (manager w))
                 (filter (manager w)))).
Proof.
  intros Hne. unfold detectOrSeed. rewrite bind_run. cbn [getConfig].
  rewrite bool_decide_eq_false_2; [|by rewrite length_zero_iff_nil].
  cbn [andb]. unfold modifyManager. by rewrite addDevices_fold.
Qed.

(** After the two expansions, a list configured non-empty is still
    non-empty. *)
Lemma expanded_nonempty (h : Host) (w w1 w2 : World) :
  GetDevices (config w) ≠ [] →
  expandDevices h (withDevices ∅ w) = (Ok tt, w1) →
  expandDirectRoutingDevice h w1 = (Ok tt, w2) →
  expandDeviceWildcards h (config w) (GetDevices (config w)) option_Devices
  = Ok (GetDevices (config w2))
  ∧ GetDevices (config w2) ≠ []
  ∧ devices (manager w2) = ∅
  ∧ stable (withDevices ∅ w1) w2.
Proof.
  intros Hne H1 H2. rewrite expandDevices_run in H1. cbn [withDevices config] in H1.
  destruct (expandDeviceWildcards h (config w) (GetDevices (config w)) option_Devices)
    as [expanded|?] eqn:Hexp; [|done].
  injection H1 as <-.
  apply expandDirectRoutingDevice_stable in H2 as [(Hf & Hfl & Hmc & Hd) Hm].
  cbn in Hd, Hm. unfold GetDevices. rewrite Hd, Hm.
  apply expandDeviceWildcards_ok in Hexp as (allLinks & _ & _ & _ & _ & Hnn).
  split; [done|]. split; [by apply Hnn|]. split; [done|]. repeat split; try done.
  all: by destruct Hfl as (?&?&?&?&?&?&?&?).
Qed.

Section Explicit.
Context (h : Host) (w : World).
Hypothesis configured : GetDevices (config w) ≠ [].

(** With a configured list the routes are never consulted. *)
Lemma Detect_withRoutes (r : Z → result (list Route)) :
  Detect (withRoutes r h) w = Detect h w.
Proof.
  unfold Detect. rewrite !(bind_run resetDevices). cbn [resetDevices modifyManager].
  change (mkWorld (config w) (mkDeviceManager ∅ (filter (manager w))))
    with (withDevices ∅ w).
  rewrite !(bind_run (expandDevices _)).
  change (expandDevices (withRoutes r h)) with (expandDevices h).
  destruct (expandDevices h (withDevices ∅ w)) as [[[]|e] w1] eqn:H1; [|done].
  rewrite !(bind_run (expandDirectRoutingDevice _)).
  change (expandDirectRoutingDevice (withRoutes r h)) with (expandDirectRoutingDevice h).
  destruct (expandDirectRoutingDevice h w1) as [[[]|e] w2] eqn:H2; [|done].
  destruct (expanded_nonempty h w w1 w2 configured H1 H2) as (_ & Hne & _).
  rewrite !(bind_run getConfig). cbn [getConfig].
  rewrite !(bind_run (detectOrSeed _ _)), !detectOrSeed_seeded by done.
  rewrite !(bind_run addConfiguredDevices).
  destruct (addConfiguredDevices _) as [[d|e] w4]; [|done].
  rewrite !(bind_run (when _ _)), detectFromNodeIP_withRoutes. done.
Qed.

End Explicit.

Lemma addConfiguredDevices_skip (w : World) :
  DirectRoutingDeviceRequired (config w) = false →
  IPv6MCastDevice (config w) = "" →
  EnableIPv6NDP (config w) = false →
  addConfiguredDevices w = (Ok (false, false), w).
Proof.
  intros Hr Hm Hn. unfold addConfiguredDevices. rewrite bind_run. cbn [getConfig].
  rewrite Hr, Hm, Hn. by destruct w.
Qed.

Lemma SetDevices_same (c : Config) : SetDevices (devices_ c) c = c.
Proof. by destruct c. Qed.

(** [Detect] on a configured list, when nothing else is to be added:
    the two expansions, then the expanded list. *)
Lemma Detect_explicit_run (h : Host) (w : World) :
  GetDevices (config w) ≠ [] →
  DirectRoutingDeviceRequired (config w) = false →
  IPv6MCastDevice (config w) = "" →
  EnableIPv6NDP (config w) = false →
  Detect h w
  = match expandDevices h (withDevices ∅ w) with
    | (Err e, w1) => (Err e, w1)
    | (Ok _, w1) =>
        match expandDirectRoutingDevice h w1 with
        | (Err e, w2) => (Err e, w2)
        | (Ok _, w2) =>
            (Ok (GetDevices (config w2)),
             mkWorld (config w2)
               (mkDeviceManager (list_to_set (GetDevices (config w2))) (filter (manager w2))))
        end
    end.
Proof.
  intros Hne Hr Hm Hn.
  unfold Detect. rewrite (bind_run resetDevices). cbn [resetDevices modifyManager].
  change (mkWorld (config w) (mkDeviceManager ∅ (filter (manager w))))
    with (withDevices ∅ w).
  rewrite (bind_run (expandDevices _)).
  destruct (expandDevices h (withDevices ∅ w)) as [[[]|e] w1] eqn:H1; [|done].
  rewrite (bind_run (expandDirectRoutingDevice _)).
  destruct (expandDirectRoutingDevice h w1) as [[[]|e] w2] eqn:H2; [|done].
  destruct (expanded_nonempty h w w1 w2 Hne H1 H2) as (Hexp & Hne2 & Hempty & Hst).
  destruct Hst as (_ & (_&_&_&_&_&_&Hndp&Hreq) & Hmc & _). cbn in Hndp, Hreq, Hmc.
  rewrite expandDevices_run in H1. cbn [withDevices config] in H1. rewrite Hexp in H1.
  injection H1 as <-. cbn in Hndp, Hreq, Hmc.
  rewrite (bind_run getConfig). cbn [getConfig].
  rewrite (bind_run (detectOrSeed _ _)), detectOrSeed_seeded by done.
  rewrite (bind_run addConfiguredDevices), addConfiguredDevices_skip
    by (cbn [config]; congruence).
  rewrite (bind_run (when _ _)). cbn [fst snd orb when ret].
  rewrite publishDevices_run. cbn [manager devices config].
  rewrite Hempty, (right_id_L ∅ (∪)).
  apply expandDeviceWildcards_ok in Hexp as (_ & _ & _ & Hs & Hnd & _).
  rewrite (getDeviceList_list_to_set _ Hs Hnd). unfold GetDevices. by rewrite SetDevices_same.
Qed.

(** C8, as the code has it.  With a configured list that is not empty,
    [Detect] never consults the routes; when nothing else is to be added
    and [Detect] succeeds, the device set and the returned list are the
    wildcard expansion of the configured list, sorted and without
    duplicates, which is the configured list itself when that list has no
    wildcard and is sorted without duplicates.  It succeeds whenever the
    expansion does and no direct-routing device is configured. *)
Theorem Detect_explicit_devices (h : Host) (w : World) :
  GetDevices (config w) ≠ [] →
  (∀ routes, Detect (withRoutes routes h) w = Detect h w)
  ∧ (DirectRoutingDeviceRequired (config w) = false →
     IPv6MCastDevice (config w) = "" →
     EnableIPv6NDP (config w) = false →
     (∀ out w', Detect h w = (Ok out, w') →
        expandDeviceWildcards h (config w) (GetDevices (config w)) option_Devices = Ok out
        ∧ devices (manager w') = list_to_set out
        ∧ GetDevices (config w') = out
        ∧ ((∀ p, p ∈ GetDevices (config w) → ¬ Spec.isWildcard p) →
           Sorted String.le (GetDevices (config w)) → NoDup (GetDevices (config w)) →
           out = GetDevices (config w)))
     ∧ (∀ expanded,
          DirectRoutingDevice (config w) = "" →
          expandDeviceWildcards h (config w) (GetDevices (config w)) option_Devices
          = Ok expanded →
          (Detect h w).1 = Ok expanded)).
Proof.
  intros Hne. split; [intros routes; by apply Detect_withRoutes|].
  intros Hr Hm Hn. rewrite (Detect_explicit_run h w Hne Hr Hm Hn). split.
  - intros out w'.
    destruct (expandDevices h (withDevices ∅ w)) as [[[]|e] w1] eqn:H1; [|done].
    destruct (expandDirectRoutingDevice h w1) as [[[]|e] w2] eqn:H2; [|done].
    destruct (expanded_nonempty h w w1 w2 Hne H1 H2) as (Hexp & _).
    intros [= <- <-]. split; [done|]. split; [done|]. split; [done|].
    intros Hnw Hs Hnd.
    apply expandDeviceWildcards_ok in Hexp as (allLinks & _ & Hmem & Hs2 & Hnd2 & _).
    apply sorted_nodup_unique; [done..|].
    intros name. by rewrite Hmem, expandsTo_no_wildcard.
  - intros expanded Hdr Hexp. rewrite expandDevices_run. cbn [withDevices config].
    rewrite Hexp. unfold expandDirectRoutingDevice. rewrite bind_run. cbn [getConfig config].
    unfold SetDevices. cbn [DirectRoutingDevice]. rewrite Hdr. reflexivity.
Qed.

Lemma Detect_explicit_devices_witness :
  GetDevices (config Sample.wEth0) ≠ []
  ∧ (Detect Sample.host Sample.wEth0).1 = Ok ["eth0"]
  ∧ ∀ routes, Detect (withRoutes routes Sample.host) Sample.wEth0
              = Detect Sample.host Sample.wEth0.
Proof.
  assert (GetDevices (config Sample.wEth0) ≠ []) as Hne by (vm_compute; discriminate).
  pose proof (Detect_explicit_devices Sample.host Sample.wEth0 Hne) as [Hroutes Hseed].
  destruct (Hseed eq_refl eq_refl eq_refl) as [_ Hok].
  split; [exact Hne|]. split; [|exact Hroutes].
  apply Hok; [reflexivity|vm_compute; reflexivity].
Defined.

(** C8, as stated, fails on a configured list that is not sorted, and
    on one that holds a wildcard: the returned list is the sorted
    expansion, not the configured list, and the pattern itself is not in
    the device set. *)
Lemma Detect_returns_sorted_expansion :
  GetDevices (config Sample.wUnsorted) = ["eth1"; "eth0"]
  ∧ (Detect Sample.host Sample.wUnsorted).1 = Ok ["eth0"; "eth1"]
  ∧ GetDevices (config Sample.wWildcard) = ["eth+"]
  ∧ (Detect Sample.host Sample.wWildcard).1 = Ok ["eth0"; "eth1"]
  ∧ getDeviceList (devices (manager (Detect Sample.host Sample.wWildcard).2))
    = ["eth0"; "eth1"].
Proof. vm_compute. done. Qed.

(** ** The invariant of the device set *)

(** The gate and the filter read only the address-family flags of the
    configuration. *)
Lemma checkDeviceWithIP_flags (h : Host) (c c' : Config) (dev : string) :
  EnableIPv4 c' = EnableIPv4 c → EnableIPv6 c' = EnableIPv6 c →
  checkDeviceWithIP h c' dev = checkDeviceWithIP h c dev.
Proof. intros H4 H6. unfold checkDeviceWithIP. by rewrite H4, H6. Qed.

Lemma deviceFilter_match_flags (h : Host) (c c' : Config) (lst : deviceFilter) (dev : string) :
  EnableIPv4 c' = EnableIPv4 c → EnableIPv6 c' = EnableIPv6 c →
  deviceFilter_match h c' lst dev = deviceFilter_match h c lst dev.
Proof.
  intros H4 H6. unfold deviceFilter_match. destruct (bool_decide _); [done|].
  induction lst as [|entry rest IH]; [done|]. cbn [matchEntries].
  by rewrite IH, (checkDeviceWithIP_flags h c c' dev H4 H6).
Qed.

(** A viable link has no excluded prefix and passes the filter of the
    manager. *)
Lemma isViableDevice_true (h : Host) (c : Config) (dm : DeviceManager)
    (l3 hdr : bool) (link : Link) :
  isViableDevice h c dm l3 hdr link = true →
  hasExcludedPrefix (Name (Attrs link)) = false
  ∧ deviceFilter_match h c (filter dm) (Name (Attrs link)) = true.
Proof.
  unfold isViableDevice.
  destruct (hasExcludedPrefix _); [done|].
  destruct (negb (Z.land _ _ =? 0)); [done|].
  destruct (negb l3 && _); [done|].
  by destruct (deviceFilter_match _ _ _ _).
Qed.

(** Every name the second loop of [updateDevicesFromRoutes] adds is the
    name of a viable link. *)
Lemma visitLinkInfo_names (h : Host) (c : Config) (l3 : bool)
    (entries : list (Z * linkInfo)) (st : DeviceManager * bool) (name : string) :
  name ∈ devices (fold_left (visitLinkInfo h c l3) entries st).1 →
  name ∈ devices st.1
  ∨ (hasExcludedPrefix name = false
     ∧ deviceFilter_match h c (filter st.1) name = true).
Proof.
  revert st. induction entries as [|e rest IH]; intros st; cbn [fold_left]; [by left|].
  intros Hin. apply IH in Hin.
  assert (filter (visitLinkInfo h c l3 st e).1 = filter st.1) as Hf.
  { apply (visitLinkInfo_filter h c l3 [e] st). }
  rewrite Hf in Hin. destruct Hin as [Hin|?]; [|by right].
  unfold visitLinkInfo in Hin.
  destruct (handle_LinkByIndex h e.1) as [link|]; [|by left].
  destruct (bool_decide _); [by left|].
  destruct (isViableDevice h c st.1 l3 (hasDefaultRoute e.2) link) eqn:Hv; [|by left].
  cbn in Hin. apply elem_of_union in Hin as [Hin|?]; [|by left].
  apply elem_of_singleton in Hin as ->. right. by apply isViableDevice_true in Hv.
Qed.

Lemma expandDeviceWildcards_nil (h : Host) (c : Config) (option : string)
    (expanded : list string) :
  expandDeviceWildcards h c [] option = Ok expanded → expanded = [].
Proof.
  unfold expandDeviceWildcards. destruct (handle_LinkList h); [|done].
  cbn. by intros [= <-].
Qed.

(** C5, as the code has it.  After a tick that is not skipped the
    device set holds no name with an excluded prefix and no name that
    fails the effective filter.  Detection from routes adds only names
    without an excluded prefix that pass the filter of the manager, so
    that after a [Detect] that detects from routes, with no
    direct-routing or multicast device to add, the whole set is such.
    Names seeded from a configured list, and the direct-routing,
    multicast and node devices, join the set unchecked. *)
Theorem DeviceSet_invariant (h : Host) (c : Config) (dm : DeviceManager) :
  (∀ allLinks name,
     handle_LinkList h = Ok allLinks → effectiveFilter h ≠ [] →
     name ∈ devices (checkStaticDevices h c dm).1.2 →
     (∀ p, p ∈ excludedDevicePrefixes → String.prefix p name = false)
     ∧ deviceFilter_match h c (effectiveFilter h) name = true)
  ∧ (∀ l3DevOK routes name,
       name ∈ devices (updateDevicesFromRoutes h c l3DevOK routes dm).1 →
       name ∈ devices dm
       ∨ ((∀ p, p ∈ excludedDevicePrefixes → String.prefix p name = false)
          ∧ deviceFilter_match h c (filter dm) name = true))
  ∧ (∀ flt out w' name,
       Detect h (mkWorld c (mkDeviceManager (devices dm) flt)) = (Ok out, w') →
       GetDevices c = [] → AreDevicesRequired c = true →
       DirectRoutingDeviceRequired c = false → IPv6MCastDevice c = "" →
       EnableIPv6NDP c = false →
       name ∈ devices (manager w') →
       (∀ p, p ∈ excludedDevicePrefixes → String.prefix p name = false)
       ∧ deviceFilter_match h c flt name = true).
Proof.
  split; [|split].
  - intros allLinks name Hl Hne Hin.
    apply (checkStaticDevices_devices h c dm allLinks name Hl Hne) in Hin as [_ Hp].
    by apply passes_iff in Hp as [? ?].
  - intros l3 routes name Hin. unfold updateDevicesFromRoutes in Hin.
    apply visitLinkInfo_names in Hin as [?|[Hx ?]]; [by left|right].
    split; [by apply hasExcludedPrefix_false|done].
  - intros flt out w' name HD Hnil Hreq Hdr Hmc Hndp Hin.
    apply Detect_inv in HD as [(e & _ & [=])|(w1 & H1 & HD)].
    destruct HD as [(e & _ & [=])|(w2 & H2 & HD)].
    destruct HD as [(e & _ & [=])|(w3 & d & w4 & H3 & H4 & HD)].
    rewrite expandDevices_run in H1. cbn [withDevices config manager filter] in H1.
    rewrite Hnil in H1.
    destruct (expandDeviceWildcards h c [] option_Devices) as [expanded|] eqn:Hexp; [|done].
    apply expandDeviceWildcards_nil in Hexp as ->. injection H1 as <-.
    apply expandDirectRoutingDevice_stable in H2
      as [(_ & (H4e&H6e&_&Hnp&Hfw&Hbw&Hn2&Hr2) & Hm2 & Hd2) Hman2].
    cbn in H4e, H6e, Hnp, Hfw, Hbw, Hn2, Hr2, Hm2, Hd2, Hman2.
    assert (config w3 = config w2) as Hc3
      by (by apply detectOrSeed_stable in H3 as [_ ?]).
    unfold detectOrSeed in H3. rewrite bind_run in H3. cbn [getConfig] in H3.
    unfold GetDevices in H3. rewrite Hd2 in H3.
    assert (AreDevicesRequired (config w2) = true) as Hreq2.
    { unfold AreDevicesRequired in *. by rewrite Hnp, Hfw, Hbw. }
    rewrite Hreq2 in H3. cbn [length bool_decide andb] in H3.
    rewrite bool_decide_eq_true_2 in H3 by done. cbn [andb] in H3.
    destruct (handle_RouteListFiltered h (routeFamily (config w2))) as [routes|]; [|done].
    injection H3 as <-.
    rewrite addConfiguredDevices_skip in H4 by (cbn [config]; congruence).
    injection H4 as <- <-. cbn [fst snd orb when ret] in HD.
    destruct HD as [(e & [=] & _)|(w5 & [= <-] & H6)].
    rewrite publishDevices_run in H6. injection H6 as _ <-.
    cbn [manager config] in Hin. unfold updateDevicesFromRoutes in Hin.
    apply visitLinkInfo_names in Hin as [Hin|[Hx Hmatch]].
    + cbn [fst] in Hin. rewrite Hman2 in Hin. cbn in Hin. set_solver.
    + cbn [fst] in Hmatch. rewrite Hman2 in Hmatch. cbn [filter] in Hmatch.
      split; [by apply hasExcludedPrefix_false|].
      by rewrite <- (deviceFilter_match_flags h c (config w2) flt name H4e H6e).
Qed.

Lemma DeviceSet_invariant_witness :
  (handle_LinkList Sample.host = Ok Sample.links
   ∧ effectiveFilter Sample.host ≠ []
   ∧ ∀ name, name ∈ devices (checkStaticDevices Sample.host Sample.cfg Sample.dm1).1.2 →
       (∀ p, p ∈ excludedDevicePrefixes → String.prefix p name = false)
       ∧ deviceFilter_match Sample.host Sample.cfg (effectiveFilter Sample.host) name
         = true)
  ∧ ((Detect Sample.host (mkWorld Sample.cfg (mkDeviceManager (devices Sample.dm1) []))).1
     = Ok ["eth0"; "eth1"; "veth0"]
     ∧ ∀ name,
         name ∈ devices (manager (Detect Sample.host
                                    (mkWorld Sample.cfg
                                       (mkDeviceManager (devices Sample.dm1) []))).2) →
         (∀ p, p ∈ excludedDevicePrefixes → String.prefix p name = false)
         ∧ deviceFilter_match Sample.host Sample.cfg [] name = true).
Proof.
  assert (effectiveFilter Sample.host ≠ []) as Hne by (vm_compute; discriminate).
  pose proof (DeviceSet_invariant Sample.host Sample.cfg Sample.dm1)
    as (Htick & _ & Hdetect).
  split.
  - split; [reflexivity|]. split; [exact Hne|]. intros name.
    exact (Htick Sample.links name eq_refl Hne).
  - assert ((Detect Sample.host
               (mkWorld Sample.cfg (mkDeviceManager (devices Sample.dm1) []))).1
            = Ok ["eth0"; "eth1"; "veth0"]) as Hok by (vm_compute; reflexivity).
    split; [exact Hok|]. intros name.
    apply (Hdetect [] ["eth0"; "eth1"; "veth0"]).
    + rewrite <- Hok. apply surjective_pairing.
    + reflexivity.
    + reflexivity.
    + reflexivity.
    + reflexivity.
    + reflexivity.
Defined.

(** C5, as stated, fails after [Detect] on a configured list: the
    loopback device is seeded although its name has an excluded prefix,
    and a required direct-routing device joins the set although the
    filter of the manager rejects it. *)
Lemma Detect_seeds_unchecked :
  (Detect Sample.host Sample.wLo).1 = Ok ["lo"]
  ∧ getDeviceList (devices (manager (Detect Sample.host Sample.wLo).2)) = ["lo"]
  ∧ hasExcludedPrefix "lo" = true
  ∧ (Detect Sample.host Sample.wDirect).1 = Ok ["eth0"; "eth1"]
  ∧ getDeviceList (devices (manager (Detect Sample.host Sample.wDirect).2))
    = ["eth0"; "eth1"]
  ∧ deviceFilter_match Sample.host (config (Detect Sample.host Sample.wDirect).2)
      (filter (manager (Detect Sample.host Sample.wDirect).2)) "eth1" = false.
Proof. vm_compute. done. Qed.

(** ** The order of a range over a map does not matter

    Go ranges over a map in an unspecified order; the definitions take
    the order of [map_to_list] and [elements].  What the loops compute
    (the device set, the [changed] flag, the map of present links) is the
    same in every order; only the order of the log lines may differ. *)

Lemma isViableDevice_filter (h : Host) (c : Config) (dm dm' : DeviceManager)
    (l3 hdr : bool) (link : Link) :
  filter dm' = filter dm →
  isViableDevice h c dm' l3 hdr link = isViableDevice h c dm l3 hdr link.
Proof. intros Hf. unfold isViableDevice. by rewrite Hf. Qed.

Section RouteLoop.
Context (h : Host) (c : Config) (l3 : bool).

(** An entry of the link infos that names a viable link. *)
Local Abbreviation adds dm name e :=
  (∃ link, handle_LinkByIndex h e.1 = Ok link ∧ Name (Attrs link) = name
           ∧ isViableDevice h c dm l3 (hasDefaultRoute e.2) link = true).

Lemma visitLinkInfo_devices (entries : list (Z * linkInfo)) (st : DeviceManager * bool)
    (name : string) :
  name ∈ devices (fold_left (visitLinkInfo h c l3) entries st).1
  ↔ name ∈ devices st.1 ∨ ∃ e, e ∈ entries ∧ adds st.1 name e.
Proof.
  revert st. induction entries as [|e rest IH]; intros st; cbn [fold_left].
  - split; [by left|]. intros [?|(e & ?%elem_of_nil & _)]; done.
  - rewrite IH.
    assert (filter (visitLinkInfo h c l3 st e).1 = filter st.1) as Hf
      by apply (visitLinkInfo_filter h c l3 [e] st).
    assert (name ∈ devices (visitLinkInfo h c l3 st e).1
            ↔ name ∈ devices st.1 ∨ adds st.1 name e) as Hstep.
    { unfold visitLinkInfo. destruct (handle_LinkByIndex h e.1) as [link|err].
      - destruct (bool_decide_reflect (Name (Attrs link) ∈ devices st.1)) as [Hin|Hout].
        + split; [by left|]. intros [?|(l & [= <-] & <- & _)]; done.
        + destruct (isViableDevice h c st.1 l3 (hasDefaultRoute e.2) link) eqn:Hv.
          * cbn. rewrite elem_of_union, elem_of_singleton. split.
            -- intros [->|?]; [right; by exists link|by left].
            -- intros [?|(l & [= <-] & <- & _)]; [by right|by left].
          * split; [by left|]. intros [?|(l & [= <-] & _ & Hx)]; [done|congruence].
      - split; [by left|]. by intros [?|(l & [=] & _)]. }
    rewrite Hstep. split.
    + intros [[?|?]|(e' & He' & l & Hl & Hn & Hv)]; [by left|right..].
      * exists e. split; [left|done].
      * exists e'. split; [by right|]. exists l. split; [done|]. split; [done|].
        by rewrite <- (isViableDevice_filter h c st.1 _ l3 _ l Hf).
    + intros [?|(e' & [->|He']%elem_of_cons & l & Hl & Hn & Hv)];
        [by left; left|left; right; by exists l|right].
      exists e'. split; [done|]. exists l. split; [done|]. split; [done|].
      by rewrite (isViableDevice_filter h c st.1 _ l3 _ l Hf).
Qed.

Lemma visitLinkInfo_changed (entries : list (Z * linkInfo)) (st : DeviceManager * bool) :
  (fold_left (visitLinkInfo h c l3) entries st).2 = true
  ↔ st.2 = true
    ∨ ∃ e name, e ∈ entries ∧ (name ∉ devices st.1) ∧ adds st.1 name e.
Proof.
  revert st. induction entries as [|e rest IH]; intros st; cbn [fold_left].
  - split; [by left|]. intros [?|(e & n & ?%elem_of_nil & _)]; done.
  - rewrite IH.
    assert (filter (visitLinkInfo h c l3 st e).1 = filter st.1) as Hf
      by apply (visitLinkInfo_filter h c l3 [e] st).
    pose proof (λ name, visitLinkInfo_devices [e] st name) as Hdev. cbn [fold_left] in Hdev.
    assert ((visitLinkInfo h c l3 st e).2 = true
            ↔ st.2 = true ∨ ∃ name, (name ∉ devices st.1) ∧ adds st.1 name e) as Hstep.
    { unfold visitLinkInfo. destruct (handle_LinkByIndex h e.1) as [link|err].
      - destruct (bool_decide_reflect (Name (Attrs link) ∈ devices st.1)) as [Hin|Hout].
        + split; [by left|]. intros [?|(n & Hn & l & [= <-] & <- & _)]; done.
        + destruct (isViableDevice h c st.1 l3 (hasDefaultRoute e.2) link) eqn:Hv.
          * split; [|done]. intros _. right. exists (Name (Attrs link)).
            split; [done|]. by exists link.
          * split; [by left|]. intros [?|(n & _ & l & [= <-] & _ & Hx)]; [done|congruence].
      - split; [by left|]. by intros [?|(n & _ & l & [=] & _)]. }
    rewrite Hstep. split.
    + intros [[?|(n & Hn & Ha)]|(e' & n & He' & Hn & l & Hl & Hnm & Hv)].
      * by left.
      * right. exists e, n. split; [left|done].
      * destruct (decide (n ∈ devices st.1)) as [Hin|Hout].
        -- exfalso. apply Hn. apply Hdev. by left.
        -- right. exists e', n. split; [by right|]. split; [done|].
           exists l. split; [done|]. split; [done|].
           by rewrite <- (isViableDevice_filter h c st.1 _ l3 _ l Hf).
    + intros [?|(e' & n & [->|He']%elem_of_cons & Hn & l & Hl & Hnm & Hv)].
      * by left; left.
      * left. right. exists n. split; [done|]. by exists l.
      * destruct (decide (n ∈ devices (visitLinkInfo h c l3 st e).1)) as [Hin|Hout].
        -- left. apply Hdev in Hin as [?|(e0 & ->%list_elem_of_singleton & Ha)]; [done|].
           right. by exists n.
        -- right. exists e', n. split; [done|]. split; [done|].
           exists l. split; [done|]. split; [done|].
           by rewrite (isViableDevice_filter h c st.1 _ l3 _ l Hf).
Qed.

(** The second loop of [updateDevicesFromRoutes] in any order of the
    link infos. *)
Lemma visitLinkInfo_order (entries entries' : list (Z * linkInfo))
    (st : DeviceManager * bool) :
  entries ≡ₚ entries' →
  devices (fold_left (visitLinkInfo h c l3) entries st).1
  = devices (fold_left (visitLinkInfo h c l3) entries' st).1
  ∧ (fold_left (visitLinkInfo h c l3) entries st).2
    = (fold_left (visitLinkInfo h c l3) entries' st).2.
Proof.
  intros Hperm. split.
  - apply set_eq. intros name. rewrite !visitLinkInfo_devices.
    by setoid_rewrite Hperm.
  - apply eq_true_iff_eq. rewrite !visitLinkInfo_changed. by setoid_rewrite Hperm.
Qed.

End RouteLoop.

(** The loops of a tick over the device set, in any order of the
    names. *)
Lemma dropIfGone_changed (names : list string) (t : tick) :
  t_changed (fold_left dropIfGone names t) = true
  ↔ t_changed t = true ∨ ∃ name, name ∈ names ∧ t_current t !! name = None.
Proof.
  revert t. induction names as [|n rest IH]; intros t; cbn [fold_left].
  - split; [by left|]. by intros [?|(? & ?%elem_of_nil & _)].
  - rewrite IH.
    assert (t_current (dropIfGone t n) = t_current t) as ->
      by (unfold dropIfGone; by destruct (t_current t !! n)).
    unfold dropIfGone. destruct (t_current t !! n) eqn:Hn; cbn [t_changed].
    + split.
      * intros [?|(x & Hx & Hnone)]; [by left|right]. exists x. split; [by right|done].
      * intros [?|(x & [->|Hx]%elem_of_cons & Hnone)]; [by left|congruence|right].
        by exists x.
    + split; [|by left]. intros _. right. exists n. split; [left|done].
Qed.

Lemma dropIfGone_order (names names' : list string) (t : tick) :
  names ≡ₚ names' →
  t_devices (fold_left dropIfGone names t) = t_devices (fold_left dropIfGone names' t)
  ∧ t_changed (fold_left dropIfGone names t) = t_changed (fold_left dropIfGone names' t)
  ∧ t_current (fold_left dropIfGone names t) = t_current (fold_left dropIfGone names' t).
Proof.
  intros Hperm.
  destruct (dropIfGone_fold names t) as (Hc & Hd & _).
  destruct (dropIfGone_fold names' t) as (Hc' & Hd' & _).
  split; [|split].
  - apply set_eq. intros name. rewrite Hd, Hd'. by rewrite Hperm.
  - apply eq_true_iff_eq. rewrite !dropIfGone_changed. by setoid_rewrite Hperm.
  - by rewrite Hc, Hc'.
Qed.

Lemma checkAddr_changed (h : Host) (addrWithDevices : gmap string Net.IP)
    (names : list string) (t : tick) :
  t_changed (fold_left (checkAddr h addrWithDevices) names t) = true
  ↔ t_changed t = true
    ∨ ∃ name oldAddr addrs, name ∈ names ∧ addrWithDevices !! name = Some oldAddr
        ∧ netlink_AddrList h (t_current t !! name) FAMILY_V4 = Ok addrs
        ∧ addrChange oldAddr addrs = true.
Proof.
  revert t. induction names as [|n rest IH]; intros t; cbn [fold_left].
  - split; [by left|]. by intros [?|(? & ? & ? & ?%elem_of_nil & _)].
  - rewrite IH.
    destruct (checkAddr_fold h addrWithDevices [n] t) as (Hcur & _). cbn [fold_left] in Hcur.
    rewrite Hcur.
    assert (t_changed (checkAddr h addrWithDevices t n) = true
            ↔ t_changed t = true
              ∨ ∃ oldAddr addrs, addrWithDevices !! n = Some oldAddr
                  ∧ netlink_AddrList h (t_current t !! n) FAMILY_V4 = Ok addrs
                  ∧ addrChange oldAddr addrs = true) as Hstep.
    { unfold checkAddr. destruct (addrWithDevices !! n) as [oldAddr|]; cbn [t_changed].
      - destruct (netlink_AddrList h (t_current t !! n) FAMILY_V4) as [addrs|e];
          cbn [t_changed].
        + destruct (addrChange oldAddr addrs) eqn:Hch; cbn [t_changed].
          * split; [|done]. intros _. right. by exists oldAddr, addrs.
          * split; [by left|]. intros [?|(o & a & [= <-] & [= <-] & ?)]; [done|congruence].
        + split; [by left|]. by intros [?|(o & a & _ & [=] & _)].
      - split; [by left|]. by intros [?|(o & a & [=] & _)]. }
    rewrite Hstep. split.
    + intros [[?|(o & a & ? & ? & ?)]|(x & o & a & Hx & ? & ? & ?)].
      * by left.
      * right. exists n, o, a. split; [left|done].
      * right. exists x, o, a. split; [by right|done].
    + intros [?|(x & o & a & [->|Hx]%elem_of_cons & ? & ? & ?)].
      * by left; left.
      * left. right. by exists o, a.
      * right. by exists x, o, a.
Qed.

Lemma checkAddr_order (h : Host) (addrWithDevices : gmap string Net.IP)
    (names names' : list string) (t : tick) :
  names ≡ₚ names' →
  t_devices (fold_left (checkAddr h addrWithDevices) names t)
  = t_devices (fold_left (checkAddr h addrWithDevices) names' t)
  ∧ t_changed (fold_left (checkAddr h addrWithDevices) names t)
    = t_changed (fold_left (checkAddr h addrWithDevices) names' t).
Proof.
  intros Hperm.
  destruct (checkAddr_fold h addrWithDevices names t) as (_ & Hd & _).
  destruct (checkAddr_fold h addrWithDevices names' t) as (_ & Hd' & _).
  split; [by rewrite Hd, Hd'|].
  apply eq_true_iff_eq. rewrite !checkAddr_changed. by setoid_rewrite Hperm.
Qed.

(** ** The definitions at work *)

Example TrimSpace_examples :
  Strings.TrimSpace (Strings.bytes [32; 9; 101; 116; 104; 48; 32; 10]%nat) = "eth0"
  ∧ Strings.TrimSpace "eth 0" = "eth 0"
  ∧ Strings.TrimSpace "   " = ""
  ∧ Strings.TrimSpace (Strings.bytes [194; 160; 101; 226; 128; 128]%nat) = "e"
  ∧ Strings.TrimSpace (Strings.bytes [101; 128; 128]%nat)
    = Strings.bytes [101; 128; 128]%nat.
Proof. vm_compute. done. Qed.

Example TrimRight_examples :
  Strings.TrimRight "eth+" "+" = "eth"
  ∧ Strings.TrimRight "eth++" "+" = "eth"
  ∧ Strings.TrimRight "e+th+" "+" = "e+th"
  ∧ Strings.TrimRight "+" "+" = "".
Proof. vm_compute. done. Qed.

Example HasSuffix_examples :
  Strings.HasSuffix "eth+" "+" = true
  ∧ Strings.HasSuffix "eth+ " "+" = false
  ∧ Strings.HasSuffix "" "+" = false
  ∧ Strings.HasSuffix "+" "+" = true.
Proof. vm_compute. done. Qed.

Example Contains_examples :
  Strings.Contains "bpf_host.o:[from-netdev]" "bpf_host" = true
  ∧ Strings.Contains "cil_from_netdev" "bpf_netdev" = false
  ∧ Strings.Contains "" "" = true.
Proof. vm_compute. done. Qed.

Example sortStrings_examples :
  sortStrings ["eth1"; "eth0"; "eth10"; "bond0"] = ["bond0"; "eth0"; "eth1"; "eth10"].
Proof. vm_compute. done. Qed.

Example IsGlobalUnicast_examples :
  Net.IsGlobalUnicast (Sample.ip4 10 0 0 1) = true
  ∧ Net.IsGlobalUnicast (Net.IPv4 10 0 0 1) = true
  ∧ Net.IsGlobalUnicast (Sample.ip4 127 0 0 1) = false
  ∧ Net.IsGlobalUnicast (Sample.ip4 224 0 0 1) = false
  ∧ Net.IsGlobalUnicast (Sample.ip4 169 254 0 1) = false
  ∧ Net.IsGlobalUnicast (Sample.ip4 255 255 255 255) = false
  ∧ Net.IsGlobalUnicast Net.IPv6unspecified = false
  ∧ Net.IsGlobalUnicast Net.IPv6loopback = false
  ∧ Net.Equal (Sample.ip4 10 0 0 1) (Net.IPv4 10 0 0 1) = true.
Proof. vm_compute. done. Qed.

(** The filter of the specification's example: [eth+] matches eth0 and
    eth1, which carry an address, but neither lo nor veth0, nor eth2,
    which carries none. *)
Example deviceFilter_match_examples :
  map (deviceFilter_match Sample.host Sample.cfg ["eth+"])
    ["eth0"; "eth1"; "lo"; "veth0"; "eth2"; "eth12"]
  = [true; true; false; false; false; false]
  ∧ deviceFilter_match Sample.host Sample.cfg [] "anything" = true
  ∧ deviceFilter_match Sample.host Sample.cfg [" eth0 "] "eth0" = true.
Proof. vm_compute. done. Qed.

(** The classifier on the links of the sample host, with and without
    L3 support and a default route. *)
Example isViableDevice_examples :
  map (λ l, (Name (Attrs l),
             isViableDevice Sample.host Sample.cfg Sample.dm0 true true l,
             isViableDevice Sample.host Sample.cfg Sample.dm0 false false l))
    Sample.links
  = [("lo", false, false); ("eth0", true, true); ("eth1", true, true);
     ("veth0", true, false); ("br0", false, false); ("bond0", true, true);
     ("eth2", false, false); ("tun0", true, false)].
Proof. vm_compute. done. Qed.

(** Detection from the routes of the sample host, and a tick on it. *)
Example Detect_examples :
  (Detect Sample.host (mkWorld Sample.cfg Sample.dm0)).1 = Ok ["eth0"; "eth1"; "veth0"]
  ∧ (Detect Sample.host Sample.wEth0).1 = Ok ["eth0"]
  ∧ (Detect Sample.downHost Sample.wEth0).1
    = Err "device wildcard expansion failed to fetch devices: netlink: interrupted system call"
  ∧ (Detect Sample.host (mkWorld (SetDevices ["wlan+"] Sample.cfg) Sample.dm0)).1
    = Err "device wildcard expansion failed to detect devices. Please verify --devices option."
  ∧ (Detect Sample.host Sample.wDirect).1 = Ok ["eth0"; "eth1"]
  ∧ DirectRoutingDevice (config (Detect Sample.host Sample.wDirect).2) = "eth1".
Proof. vm_compute. done. Qed.

Example checkStaticDevices_examples :
  (checkStaticDevices Sample.host Sample.cfg Sample.dm1).1.1 = true
  ∧ getDeviceList (devices (checkStaticDevices Sample.host Sample.cfg Sample.dm1).1.2)
    = ["eth0"; "eth1"]
  ∧ (checkStaticDevices Sample.host Sample.cfg Sample.dm1).2
    = [Log "info" "Static device config lost, load again" "eth0";
       Log "info" "Static device tc filter lost, load again" "eth1";
       Log "warning" "Can't get old address, skip" "eth1"]
  ∧ tcFiltersLost Sample.host Sample.eth0 = false
  ∧ tcFiltersLost Sample.host Sample.eth1 = true.
Proof. vm_compute. done. Qed.

(** * Further properties of the device manager *)

(** ** The published list *)

(** [getDeviceList] returns the members of the set, each once, in
    ascending order, and is the only list that does. *)
Theorem getDeviceList_spec (devs : gset string) :
  Sorted String.le (getDeviceList devs)
  ∧ NoDup (getDeviceList devs)
  ∧ (∀ name, name ∈ getDeviceList devs ↔ name ∈ devs)
  ∧ ∀ l, Sorted String.le l → NoDup l → (∀ name, name ∈ l ↔ name ∈ devs) →
         getDeviceList devs = l.
Proof.
  split; [apply sortStrings_sorted|]. split; [apply NoDup_getDeviceList|].
  split; [apply elem_of_getDeviceList|].
  intros l Hs Hn Hmem. apply sorted_nodup_unique.
  - apply sortStrings_sorted.
  - apply NoDup_getDeviceList.
  - exact Hs.
  - exact Hn.
  - intros x. by rewrite elem_of_getDeviceList, Hmem.
Qed.

Lemma getDeviceList_spec_witness :
  Sorted String.le ["eth0"; "eth1"] ∧ NoDup ["eth0"; "eth1"]
  ∧ getDeviceList {["eth1"; "eth0"]} = ["eth0"; "eth1"].
Proof.
  assert (Sorted String.le ["eth0"; "eth1"]) as Hs.
  { repeat constructor. }
  assert (NoDup ["eth0"; "eth1"]) as Hn.
  { apply NoDup_cons. split; [|apply NoDup_singleton].
    intros Hx. by apply list_elem_of_singleton in Hx. }
  split; [exact Hs|]. split; [exact Hn|].
  apply (proj2 (proj2 (proj2 (getDeviceList_spec {["eth1"; "eth0"]}))) _ Hs Hn).
  intros name. rewrite !elem_of_cons, elem_of_nil. set_solver.
Defined.

(** ** Detection from routes *)

(** One route of the first loop. *)
Lemma collectRoute_step (linkInfos : gmap Z linkInfo) (route : Route) (idx : Z) :
  (is_Some (collectRoute linkInfos route !! idx)
   ↔ is_Some (linkInfos !! idx) ∨ (countsForDetection route ∧ LinkIndex route = idx))
  ∧ ((∃ info, collectRoute linkInfos route !! idx = Some info ∧ hasDefaultRoute info = true)
     ↔ (∃ info, linkInfos !! idx = Some info ∧ hasDefaultRoute info = true)
       ∨ (countsForDetection route ∧ LinkIndex route = idx ∧ Dst route = None)).
Proof.
  unfold collectRoute, countsForDetection.
  destruct (Dst route) as [ip|] eqn:Hdst.
  - destruct (Net.IsGlobalUnicast ip) eqn:Hg; cbn [negb].
    2: { split; (split; [by left|]); intros [?|Hx]; try done; by destruct Hx as [[? _] _]. }
    destruct (Z.eqb_spec (Table route) RT_TABLE_LOCAL) as [Ht|Ht].
    { split; (split; [by left|]); intros [?|Hx]; try done; by destruct Hx as [[_ ?] _]. }
    rewrite bool_decide_eq_false_2 by done. rewrite orb_false_r.
    destruct (decide (LinkIndex route = idx)) as [<-|Hne].
    + rewrite lookup_insert_eq. split.
      * split; [by right|by eauto].
      * split.
        -- intros (info & [= <-] & Hh). left. cbn in Hh.
           destruct (linkInfos !! LinkIndex route) as [i0|]; [|done]. by exists i0.
        -- intros [(info & Hl & Hh)|(_ & _ & [=])]. rewrite Hl. cbn. eexists. split; [done|].
           cbn. exact Hh.
    + rewrite lookup_insert_ne by done. split.
      * split; [by left|]. by intros [?|[_ ?]].
      * split; [by left|]. by intros [?|(_ & ? & _)].
  - destruct (Z.eqb_spec (Table route) RT_TABLE_LOCAL) as [Ht|Ht].
    { split; (split; [by left|]); intros [?|Hx]; try done; by destruct Hx as [[_ ?] _]. }
    rewrite bool_decide_eq_true_2 by done. rewrite orb_true_r.
    destruct (decide (LinkIndex route = idx)) as [<-|Hne].
    + rewrite lookup_insert_eq. split.
      * split; [by right|by eauto].
      * split; [by right|]. intros _. by eexists.
    + rewrite lookup_insert_ne by done. split.
      * split; [by left|]. by intros [?|[_ ?]].
      * split; [by left|]. by intros [?|(_ & ? & _)].
Qed.

Lemma collectRoutes_fold (routes : list Route) (linkInfos : gmap Z linkInfo) (idx : Z) :
  (is_Some (fold_left collectRoute routes linkInfos !! idx)
   ↔ is_Some (linkInfos !! idx)
     ∨ ∃ route, route ∈ routes ∧ countsForDetection route ∧ LinkIndex route = idx)
  ∧ ((∃ info, fold_left collectRoute routes linkInfos !! idx = Some info
              ∧ hasDefaultRoute info = true)
     ↔ (∃ info, linkInfos !! idx = Some info ∧ hasDefaultRoute info = true)
       ∨ ∃ route, route ∈ routes ∧ countsForDetection route ∧ LinkIndex route = idx
                  ∧ Dst route = None).
Proof.
  revert linkInfos. induction routes as [|r rest IH]; intros linkInfos; cbn [fold_left].
  - split; (split; [by left|]); intros [?|(r & ?%elem_of_nil & _)]; done.
  - destruct (IH (collectRoute linkInfos r)) as [IH1 IH2].
    destruct (collectRoute_step linkInfos r idx) as [S1 S2].
    rewrite IH1, IH2, S1, S2. split.
    + split.
      * intros [[?|[? ?]]|(r' & ? & ?)]; [by left|right..].
        -- exists r. split; [left|done].
        -- exists r'. split; [by right|done].
      * intros [?|(r' & [->|?]%elem_of_cons & ? & ?)];
          [by left; left|by left; right|right; by exists r'].
    + split.
      * intros [[?|(? & ? & ?)]|(r' & ? & ?)]; [by left|right..].
        -- exists r. split; [left|done].
        -- exists r'. split; [by right|done].
      * intros [?|(r' & [->|?]%elem_of_cons & ? & ? & ?)];
          [by left; left|by left; right|right; by exists r'].
Qed.

(** The first loop of [updateDevicesFromRoutes]: a link index has an
    entry exactly when a route that counts points at it, and the entry
    says it has a default route exactly when one of those routes has a nil
    destination. *)
Theorem collectRoutes_spec (routes : list Route) (idx : Z) :
  (is_Some (fold_left collectRoute routes ∅ !! idx)
   ↔ ∃ route, route ∈ routes ∧ countsForDetection route ∧ LinkIndex route = idx)
  ∧ ((∃ info, fold_left collectRoute routes ∅ !! idx = Some info
              ∧ hasDefaultRoute info = true)
     ↔ ∃ route, route ∈ routes ∧ countsForDetection route ∧ LinkIndex route = idx
                ∧ Dst route = None).
Proof.
  destruct (collectRoutes_fold routes ∅ idx) as [H1 H2]. rewrite H1, H2.
  split; (split; [|by right]).
  - intros [Hx|?]; [|done]. rewrite lookup_empty in Hx. by destruct Hx.
  - intros [(info & Hx & _)|?]; [|done]. by rewrite lookup_empty in Hx.
Qed.

Lemma collectRoutes_spec_witness :
  (is_Some (fold_left collectRoute Sample.routes ∅ !! 2)
   ↔ ∃ route, route ∈ Sample.routes ∧ countsForDetection route ∧ LinkIndex route = 2)
  ∧ is_Some (fold_left collectRoute Sample.routes ∅ !! 2)
  ∧ fold_left collectRoute Sample.routes ∅ !! 1 = None.
Proof.
  split; [exact (proj1 (collectRoutes_spec Sample.routes 2))|].
  split; [|vm_compute; reflexivity].
  apply (proj1 (collectRoutes_spec Sample.routes 2)).
  exists (mkRoute None 254 2). split; [left|]. split; [|reflexivity].
  split; [exact I|]. unfold RT_TABLE_LOCAL. cbn. lia.
Defined.

(** [updateDevicesFromRoutes] keeps the filter and every device already
    in the set, adds exactly the names of the viable links its link infos
    resolve to, and returns [changed] exactly when it added a name. *)
Theorem updateDevicesFromRoutes_spec (h : Host) (c : Config) (l3DevOK : bool)
    (routes : list Route) (dm : DeviceManager) :
  filter (updateDevicesFromRoutes h c l3DevOK routes dm).1 = filter dm
  ∧ devices dm ⊆ devices (updateDevicesFromRoutes h c l3DevOK routes dm).1
  ∧ (∀ name,
       name ∈ devices (updateDevicesFromRoutes h c l3DevOK routes dm).1
       ↔ name ∈ devices dm
         ∨ ∃ idx info link,
             fold_left collectRoute routes ∅ !! idx = Some info
             ∧ handle_LinkByIndex h idx = Ok link ∧ Name (Attrs link) = name
             ∧ isViableDevice h c dm l3DevOK (hasDefaultRoute info) link = true)
  ∧ ((updateDevicesFromRoutes h c l3DevOK routes dm).2 = true
     ↔ ∃ name, name ∈ devices (updateDevicesFromRoutes h c l3DevOK routes dm).1
               ∧ name ∉ devices dm)
  ∧ ((updateDevicesFromRoutes h c l3DevOK routes dm).2 = false →
     devices (updateDevicesFromRoutes h c l3DevOK routes dm).1 = devices dm).
Proof.
  unfold updateDevicesFromRoutes.
  set (entries := map_to_list (fold_left collectRoute routes ∅)).
  pose proof (λ name, visitLinkInfo_devices h c l3DevOK entries (dm, false) name) as Hdev.
  pose proof (visitLinkInfo_changed h c l3DevOK entries (dm, false)) as Hch.
  cbn [fst snd] in Hdev, Hch.
  assert ((fold_left (visitLinkInfo h c l3DevOK) entries (dm, false)).2 = true
          ↔ ∃ name, name ∈ devices (fold_left (visitLinkInfo h c l3DevOK) entries
                                      (dm, false)).1
                    ∧ name ∉ devices dm) as Hch'.
  { rewrite Hch. split.
    - intros [?|(e & name & He & Hn & Ha)]; [done|]. exists name. split; [|done].
      apply Hdev. right. by exists e.
    - intros (name & Hin & Hn). right. apply Hdev in Hin as [?|(e & He & Ha)]; [done|].
      by exists e, name. }
  split; [apply (visitLinkInfo_filter h c l3DevOK entries (dm, false))|].
  split; [intros name Hin; apply Hdev; by left|]. split; [|split; [exact Hch'|]].
  - intros name. rewrite Hdev. split.
    + intros [?|([idx info] & He & link & Hl & Hn & Hv)]; [by left|right].
      apply elem_of_map_to_list in He. by exists idx, info, link.
    + intros [?|(idx & info & link & Hi & Hl & Hn & Hv)]; [by left|right].
      exists (idx, info). split; [by apply elem_of_map_to_list|]. by exists link.
  - intros Hfalse. apply set_eq. intros name. split; [|intros ?; apply Hdev; by left].
    intros Hin. destruct (decide (name ∈ devices dm)) as [?|Hout]; [done|].
    assert ((fold_left (visitLinkInfo h c l3DevOK) entries (dm, false)).2 = true) as Ht
      by (apply Hch'; by exists name).
    congruence.
Qed.

Lemma updateDevicesFromRoutes_spec_witness :
  (updateDevicesFromRoutes Sample.host Sample.cfg true Sample.routes Sample.dm1).2 = true
  ∧ getDeviceList
      (devices (updateDevicesFromRoutes Sample.host Sample.cfg true Sample.routes
                  Sample.dm1).1)
    = ["eth0"; "eth1"; "veth0"]
  ∧ ((updateDevicesFromRoutes Sample.host Sample.cfg true [] Sample.dm1).2 = false
     ∧ devices (updateDevicesFromRoutes Sample.host Sample.cfg true [] Sample.dm1).1
       = devices Sample.dm1).
Proof.
  split; [vm_compute; reflexivity|]. split; [vm_compute; reflexivity|].
  assert ((updateDevicesFromRoutes Sample.host Sample.cfg true [] Sample.dm1).2 = false)
    as Hf by (vm_compute; reflexivity).
  split; [exact Hf|].
  exact (proj2 (proj2 (proj2 (proj2
           (updateDevicesFromRoutes_spec Sample.host Sample.cfg true [] Sample.dm1)))) Hf).
Defined.

(** Go ranges over the map of link infos in an unspecified order: in
    every order [updateDevicesFromRoutes] leaves the same device set and
    returns the same [changed]. *)
Theorem updateDevicesFromRoutes_any_order (h : Host) (c : Config) (l3DevOK : bool)
    (routes : list Route) (dm : DeviceManager) (entries : list (Z * linkInfo)) :
  entries ≡ₚ map_to_list (fold_left collectRoute routes ∅) →
  devices (fold_left (visitLinkInfo h c l3DevOK) entries (dm, false)).1
  = devices (updateDevicesFromRoutes h c l3DevOK routes dm).1
  ∧ (fold_left (visitLinkInfo h c l3DevOK) entries (dm, false)).2
    = (updateDevicesFromRoutes h c l3DevOK routes dm).2.
Proof. intros Hperm. by apply visitLinkInfo_order. Qed.

Lemma updateDevicesFromRoutes_any_order_witness :
  reverse (map_to_list (fold_left collectRoute Sample.routes ∅))
  ≡ₚ map_to_list (fold_left collectRoute Sample.routes ∅)
  ∧ devices (fold_left (visitLinkInfo Sample.host Sample.cfg true)
               (reverse (map_to_list (fold_left collectRoute Sample.routes ∅)))
               (Sample.dm0, false)).1
    = devices (updateDevicesFromRoutes Sample.host Sample.cfg true Sample.routes
                 Sample.dm0).1.
Proof.
  pose proof (reverse_Permutation (map_to_list (fold_left collectRoute Sample.routes ∅)))
    as Hperm.
  split; [exact Hperm|].
  exact (proj1 (updateDevicesFromRoutes_any_order Sample.host Sample.cfg true Sample.routes
                  Sample.dm0 _ Hperm)).
Defined.

(** ** The wildcard expander *)

Lemma expandPatterns_members (h : Host) (c : Config) (allLinks : list Link)
    (devs devs' : list string) :
  (∀ p, p ∈ devs ↔ p ∈ devs') →
  fold_left (expandPattern h c allLinks) devs ∅
  = fold_left (expandPattern h c allLinks) devs' ∅.
Proof.
  intros Hmem. apply set_eq. intros name. rewrite !elem_of_expandPatterns.
  unfold Spec.expandsTo. by setoid_rewrite Hmem.
Qed.

Lemma length_pos_members (devs devs' : list string) :
  (∀ p, p ∈ devs ↔ p ∈ devs') →
  bool_decide (0 < length devs)%nat = bool_decide (0 < length devs')%nat.
Proof.
  intros Hmem. destruct devs as [|d rest], devs' as [|d' rest']; try done.
  - exfalso. apply (elem_of_nil d'). apply Hmem. left.
  - exfalso. apply (elem_of_nil d). apply Hmem. left.
Qed.

(** Only the set of patterns matters to [expandDeviceWildcards]: their
    order and repetitions change neither the list nor the error. *)
Theorem expandDeviceWildcards_members (h : Host) (c : Config) (devs devs' : list string)
    (option : string) :
  (∀ p, p ∈ devs ↔ p ∈ devs') →
  expandDeviceWildcards h c devs option = expandDeviceWildcards h c devs' option.
Proof.
  intros Hmem. unfold expandDeviceWildcards.
  destruct (handle_LinkList h) as [allLinks|e]; [|done].
  by rewrite (expandPatterns_members h c allLinks devs devs' Hmem),
    (length_pos_members devs devs' Hmem).
Qed.

Lemma expandDeviceWildcards_members_witness :
  (∀ p, p ∈ ["eth+"; "foo"; "eth+"] ↔ p ∈ ["foo"; "eth+"])
  ∧ expandDeviceWildcards Sample.host Sample.cfg ["eth+"; "foo"; "eth+"] "devices"
    = expandDeviceWildcards Sample.host Sample.cfg ["foo"; "eth+"] "devices".
Proof.
  assert (∀ p, p ∈ ["eth+"; "foo"; "eth+"] ↔ p ∈ ["foo"; "eth+"]) as Hmem.
  { intros p. rewrite !elem_of_cons, elem_of_nil. tauto. }
  split; [exact Hmem|].
  exact (expandDeviceWildcards_members Sample.host Sample.cfg _ _ "devices" Hmem).
Defined.

(** A pattern list without wildcards never fails to expand when the
    links can be listed: the result is the list itself, sorted and without
    duplicates, whatever the links are. *)
Theorem expandDeviceWildcards_no_wildcard (h : Host) (c : Config) (devs : list string)
    (option : string) (allLinks : list Link) :
  handle_LinkList h = Ok allLinks →
  (∀ p, p ∈ devs → ¬ Spec.isWildcard p) →
  expandDeviceWildcards h c devs option = Ok (getDeviceList (list_to_set devs)).
Proof.
  intros Hl Hnw. unfold expandDeviceWildcards. rewrite Hl.
  assert (fold_left (expandPattern h c allLinks) devs ∅ = list_to_set devs) as ->.
  { apply set_eq. intros name.
    rewrite elem_of_expandPatterns, (expandsTo_no_wildcard h c allLinks devs name Hnw),
      elem_of_list_to_set. set_solver. }
  destruct devs as [|d rest]; [done|].
  rewrite (bool_decide_eq_false_2 (size _ = 0%nat)); [by rewrite andb_false_r|].
  intros Hsize. apply size_empty_iff in Hsize. set_solver.
Qed.

Lemma expandDeviceWildcards_no_wildcard_witness :
  handle_LinkList Sample.host = Ok Sample.links
  ∧ (∀ p, p ∈ ["eth1"; "ghost0"; "eth1"] → ¬ Spec.isWildcard p)
  ∧ expandDeviceWildcards Sample.host Sample.cfg ["eth1"; "ghost0"; "eth1"] "devices"
    = Ok (getDeviceList (list_to_set ["eth1"; "ghost0"; "eth1"])).
Proof.
  assert (∀ p, p ∈ ["eth1"; "ghost0"; "eth1"] → ¬ Spec.isWildcard p) as Hnw.
  { intros p Hp Hw. apply HasSuffix_isWildcard in Hw.
    rewrite !elem_of_cons, elem_of_nil in Hp.
    destruct Hp as [->|[->|[->|[]]]]; vm_compute in Hw; discriminate. }
  split; [reflexivity|]. split; [exact Hnw|].
  exact (expandDeviceWildcards_no_wildcard Sample.host Sample.cfg _ "devices" Sample.links
           eq_refl Hnw).
Defined.

(** The first of a sorted list is its least member. *)
Lemma sorted_head_least (x : string) (l : list string) (y : string) :
  Sorted String.le (x :: l) → y ∈ x :: l → String.le x y.
Proof.
  intros Hs Hy. apply Sorted_StronglySorted in Hs; [|apply _].
  apply StronglySorted_cons in Hs as [Hall _].
  apply elem_of_cons in Hy as [->|Hy]; [reflexivity|].
  by apply (proj1 (Forall_forall _ _) Hall).
Qed.

(** [expandDirectRoutingDevice] never indexes an empty slice, touches
    only the direct-routing device, and only when it succeeds: an empty
    setting is left alone, and otherwise the setting becomes the least
    name, in byte order, that it expands to (itself when it is no
    wildcard). *)
Theorem expandDirectRoutingDevice_spec (h : Host) (w w' : World) (r : result unit) :
  expandDirectRoutingDevice h w = (r, w') →
  r ≠ Err panicIndexOutOfRange
  ∧ manager w' = manager w
  ∧ config w' = SetDirectRoutingDevice (DirectRoutingDevice (config w')) (config w)
  ∧ (∀ e, r = Err e → w' = w)
  ∧ (DirectRoutingDevice (config w) = "" → r = Ok tt ∧ w' = w)
  ∧ (r = Ok tt → DirectRoutingDevice (config w) ≠ "" →
     ∃ allLinks,
       handle_LinkList h = Ok allLinks
       ∧ Spec.expandsTo h (config w) allLinks [DirectRoutingDevice (config w)]
           (DirectRoutingDevice (config w'))
       ∧ (∀ name,
            Spec.expandsTo h (config w) allLinks [DirectRoutingDevice (config w)] name →
            String.le (DirectRoutingDevice (config w')) name)
       ∧ (¬ Spec.isWildcard (DirectRoutingDevice (config w)) →
          DirectRoutingDevice (config w') = DirectRoutingDevice (config w))).
Proof.
  unfold expandDirectRoutingDevice. rewrite bind_run. cbn [getConfig].
  destruct (String.eqb_spec (DirectRoutingDevice (config w)) "") as [Hempty|Hne].
  { intros [= <- <-]. split; [done|]. split; [done|]. split; [by destruct w as [[]]|].
    split; [done|]. split; [done|]. done. }
  destruct (expandDeviceWildcards h (config w) [DirectRoutingDevice (config w)]
              option_DirectRoutingDevice) as [expanded|e] eqn:Hexp.
  - pose proof (expandDirectRoutingDevice_in_range _ _ _ _ _ Hexp) as Hnn.
    destruct expanded as [|dev rest]; [done|].
    intros [= <- <-]. split; [done|]. split; [done|]. split; [by destruct w as [[]]|].
    split; [done|]. split; [done|]. intros _ _.
    apply expandDeviceWildcards_ok in Hexp as (allLinks & Hl & Hmem & Hs & _).
    exists allLinks. split; [done|]. cbn [config DirectRoutingDevice SetDirectRoutingDevice].
    split; [apply Hmem; left|]. split.
    + intros name Hname. apply Hmem in Hname. by apply (sorted_head_least dev rest).
    + intros Hnw.
      assert (dev ∈ dev :: rest) as Hin by left.
      apply Hmem in Hin as (p & ->%list_elem_of_singleton & [[_ ->]|[? _]]); done.
  - intros [= <- <-]. split.
    + unfold expandDeviceWildcards in Hexp. intros [= Hx]. subst e.
      destruct (handle_LinkList h) as [allLinks|e0].
      * destruct (bool_decide _ && bool_decide _); [|done].
        injection Hexp as Hx. vm_compute in Hx. discriminate Hx.
      * injection Hexp as Hx. vm_compute in Hx. discriminate Hx.
    + split; [done|]. split; [by destruct w as [[]]|]. split; [done|]. done.
Qed.

Lemma expandDirectRoutingDevice_spec_witness :
  expandDirectRoutingDevice Sample.host Sample.w9
  = (Ok tt, (expandDirectRoutingDevice Sample.host Sample.w9).2)
  ∧ DirectRoutingDevice (config Sample.w9) = "eth+"
  ∧ DirectRoutingDevice (config (expandDirectRoutingDevice Sample.host Sample.w9).2) = "eth0"
  ∧ manager (expandDirectRoutingDevice Sample.host Sample.w9).2 = manager Sample.w9.
Proof.
  assert (expandDirectRoutingDevice Sample.host Sample.w9
          = (Ok tt, (expandDirectRoutingDevice Sample.host Sample.w9).2)) as Hrun
    by (vm_compute; reflexivity).
  split; [exact Hrun|]. split; [reflexivity|]. split; [vm_compute; reflexivity|].
  exact (proj1 (proj2 (expandDirectRoutingDevice_spec Sample.host Sample.w9 _ _ Hrun))).
Defined.

(** ** The device filter *)

Lemma deviceFilter_match_ext (h : Host) (c : Config) (lst lst' : deviceFilter)
    (dev : string) :
  (∀ p, p ∈ lst ↔ p ∈ lst') →
  deviceFilter_match h c lst dev = deviceFilter_match h c lst' dev.
Proof.
  intros Hmem. unfold deviceFilter_match.
  destruct lst as [|p rest], lst' as [|p' rest'].
  - done.
  - exfalso. apply (elem_of_nil p'). apply Hmem. left.
  - exfalso. apply (elem_of_nil p). apply Hmem. left.
  - change (bool_decide (length (p :: rest) = 0%nat)) with false.
    change (bool_decide (length (p' :: rest') = 0%nat)) with false. cbv iota.
    apply eq_true_iff_eq. rewrite !matchEntries_exists. by setoid_rewrite Hmem.
Qed.

(** Only the set of patterns matters to [deviceFilter.match]: neither
    their order nor their repetition changes which names match. *)
Theorem deviceFilter_match_members (h : Host) (c : Config) (lst lst' : deviceFilter)
    (dev : string) :
  (∀ p, p ∈ lst ↔ p ∈ lst') →
  deviceFilter_match h c lst dev = deviceFilter_match h c lst' dev.
Proof. apply deviceFilter_match_ext. Qed.

Lemma deviceFilter_match_members_witness :
  (∀ p, p ∈ ["eth+"; "lo"; "eth+"] ↔ p ∈ ["lo"; "eth+"])
  ∧ deviceFilter_match Sample.host Sample.cfg ["eth+"; "lo"; "eth+"] "eth1"
    = deviceFilter_match Sample.host Sample.cfg ["lo"; "eth+"] "eth1".
Proof.
  assert (∀ p, p ∈ ["eth+"; "lo"; "eth+"] ↔ p ∈ ["lo"; "eth+"]) as Hmem.
  { intros p. rewrite !elem_of_cons, elem_of_nil. tauto. }
  split; [exact Hmem|].
  exact (deviceFilter_match_members Sample.host Sample.cfg _ _ "eth1" Hmem).
Defined.

(** A filter without wildcards never looks at the host: it matches a
    name exactly when it is empty or the name is one of its entries,
    trimmed of white space, whether or not such a device exists or carries
    an address. *)
Theorem deviceFilter_match_exact (h : Host) (c : Config) (lst : deviceFilter) (dev : string) :
  (∀ p, p ∈ lst → ¬ Spec.isWildcard p) →
  (deviceFilter_match h c lst dev = true
   ↔ lst = [] ∨ ∃ p, p ∈ lst ∧ dev = Strings.TrimSpace p)
  ∧ ∀ h' c', deviceFilter_match h' c' lst dev = deviceFilter_match h c lst dev.
Proof.
  intros Hnw.
  assert (∀ h0 c0, deviceFilter_match h0 c0 lst dev = true
                   ↔ lst = [] ∨ ∃ p, p ∈ lst ∧ dev = Strings.TrimSpace p) as Hchar.
  { intros h0 c0. destruct lst as [|p0 rest]; [split; [by left|done]|].
    unfold deviceFilter_match.
    change (bool_decide (length (p0 :: rest) = 0%nat)) with false. cbv iota.
    rewrite matchEntries_exists. split.
    - intros (p & Hp & [(Hw & _)|[_ ->]]); [by apply Hnw in Hw|]. right. by exists p.
    - intros [?|(p & Hp & ->)]; [done|]. exists p. split; [done|]. right.
      split; [by apply Hnw|done]. }
  split; [apply Hchar|]. intros h' c'. apply eq_true_iff_eq. by rewrite !Hchar.
Qed.

Lemma deviceFilter_match_exact_witness :
  (∀ p, p ∈ ["ghost0"] → ¬ Spec.isWildcard p)
  ∧ deviceFilter_match Sample.host Sample.cfg ["ghost0"] "ghost0" = true
  ∧ netlink_LinkByName Sample.host "ghost0" = Err "Link not found".
Proof.
  assert (∀ p, p ∈ ["ghost0"] → ¬ Spec.isWildcard p) as Hnw.
  { intros p ->%list_elem_of_singleton Hw. apply HasSuffix_isWildcard in Hw.
    vm_compute in Hw. discriminate. }
  split; [exact Hnw|]. split; [|reflexivity].
  apply (proj1 (deviceFilter_match_exact Sample.host Sample.cfg ["ghost0"] "ghost0" Hnw)).
  right. exists "ghost0". split; [left|vm_compute; reflexivity].
Defined.

(** ** Dynamic device patterns and the effective filter *)

Lemma ReadDynamicDevices_wildcards (h : Host) (l : list string) (p : string) :
  ReadDynamicDevices h = Ok l → p ∈ l → Spec.isWildcard p.
Proof.
  unfold ReadDynamicDevices.
  destruct (os_Stat h DynamicDevicePath) as [[|]| |]; cbn [negb]; intros [= <-].
  - rewrite ReadDynamicDevices_loop, app_nil_l.
    intros (f & -> & _)%list_elem_of_fmap. by exists (EntryName f).
  - by intros ?%elem_of_nil.
  - by intros ?%elem_of_nil.
Qed.

Lemma elem_of_effectiveFilter (h : Host) (p : string) :
  p ∈ effectiveFilter h
  ↔ p ∈ viper_GetStringSlice h option_Devices
    ∨ ∃ l, ReadDynamicDevices h = Ok l ∧ p ∈ l.
Proof.
  unfold effectiveFilter, setList.
  destruct (ReadDynamicDevices h) as [l|e];
    rewrite elem_of_sortStrings, elem_of_elements.
  - rewrite elem_of_union, !elem_of_list_to_set. split.
    + intros [?|?]; [right; by exists l|by left].
    + intros [?|(l' & [= <-] & ?)]; [by right|by left].
  - rewrite elem_of_list_to_set. split; [by left|]. by intros [?|(? & [=] & _)].
Qed.

(** The effective filter of a tick is sorted, without duplicates, and
    holds exactly the configured patterns and the dynamic ones; when the
    dynamic patterns cannot be read it holds the configured ones alone. *)
Theorem effectiveFilter_spec (h : Host) :
  Sorted String.le (effectiveFilter h)
  ∧ NoDup (effectiveFilter h)
  ∧ (∀ p, p ∈ effectiveFilter h
          ↔ p ∈ viper_GetStringSlice h option_Devices
            ∨ ∃ l, ReadDynamicDevices h = Ok l ∧ p ∈ l)
  ∧ ∀ c dev,
      deviceFilter_match h c (effectiveFilter h) dev
      = deviceFilter_match h c
          (viper_GetStringSlice h option_Devices
           ++ match ReadDynamicDevices h with Ok l => l | Err _ => [] end) dev.
Proof.
  pose proof (elem_of_effectiveFilter h) as Hmem.
  split; [|split; [|split; [exact Hmem|]]].
  - unfold effectiveFilter, setList. destruct (ReadDynamicDevices h); apply sortStrings_sorted.
  - unfold effectiveFilter, setList. destruct (ReadDynamicDevices h); apply NoDup_getDeviceList.
  - intros c dev. apply deviceFilter_match_ext. intros p.
    rewrite Hmem, elem_of_app. destruct (ReadDynamicDevices h) as [l|e].
    + split; [intros [?|(l' & [= <-] & ?)]; auto|intros [?|?]; [by left|right; by exists l]].
    + split; [intros [?|(? & [=] & _)]; auto|intros [?|?%elem_of_nil]; [by left|done]].
Qed.

(** When no pattern is configured, the effective filter holds only the
    dynamic wildcards: every name it matches resolves to a device that
    carries an address in every enabled address family. *)
Theorem dynamic_patterns_gate (h : Host) (c : Config) (dev : string) :
  viper_GetStringSlice h option_Devices = [] →
  effectiveFilter h ≠ [] →
  deviceFilter_match h c (effectiveFilter h) dev = true →
  Spec.addressGate h c dev.
Proof.
  intros Hv Hne Hm.
  destruct (effectiveFilter h) as [|p0 rest] eqn:Heff; [done|].
  unfold deviceFilter_match in Hm.
  change (bool_decide (length (p0 :: rest) = 0%nat)) with false in Hm. cbv iota in Hm.
  apply matchEntries_exists in Hm as (p & Hp & Hpm).
  rewrite <- Heff in Hp. apply elem_of_effectiveFilter in Hp.
  rewrite Hv in Hp. destruct Hp as [?%elem_of_nil|(l & Hl & Hin)]; [done|].
  pose proof (ReadDynamicDevices_wildcards h l p Hl Hin) as Hw.
  destruct Hpm as [(_ & _ & Hg)|[Hnw _]]; done.
Qed.

Lemma dynamic_patterns_gate_witness :
  viper_GetStringSlice Sample.dynamicOnly option_Devices = []
  ∧ effectiveFilter Sample.dynamicOnly = ["eth+"]
  ∧ deviceFilter_match Sample.dynamicOnly Sample.cfg (effectiveFilter Sample.dynamicOnly)
      "eth0" = true
  ∧ Spec.addressGate Sample.dynamicOnly Sample.cfg "eth0".
Proof.
  assert (effectiveFilter Sample.dynamicOnly = ["eth+"]) as Heff by (vm_compute; reflexivity).
  assert (deviceFilter_match Sample.dynamicOnly Sample.cfg
            (effectiveFilter Sample.dynamicOnly) "eth0" = true) as Hm
    by (vm_compute; reflexivity).
  split; [reflexivity|]. split; [exact Heff|]. split; [exact Hm|].
  apply (dynamic_patterns_gate Sample.dynamicOnly Sample.cfg "eth0").
  - reflexivity.
  - rewrite Heff. discriminate.
  - exact Hm.
Defined.

Lemma effectiveFilter_spec_witness :
  ("eth+" ∈ effectiveFilter Sample.dynamicOnly
   ↔ "eth+" ∈ viper_GetStringSlice Sample.dynamicOnly option_Devices
     ∨ ∃ l, ReadDynamicDevices Sample.dynamicOnly = Ok l ∧ "eth+" ∈ l)
  ∧ effectiveFilter Sample.dynamicOnly = ["eth+"].
Proof.
  split; [|vm_compute; reflexivity].
  exact (proj1 (proj2 (proj2 (effectiveFilter_spec Sample.dynamicOnly))) "eth+").
Defined.

(** ** The static device check, further *)

Section StaticCheckMore.
Context (h : Host) (c : Config).

Lemma checkLink_unchanged (flt : deviceFilter) (t : tick) (link : Link) :
  t_changed (checkLink h c flt t link) = false →
  t_changed t = false ∧ t_devices (checkLink h c flt t link) = t_devices t.
Proof.
  unfold checkLink.
  repeat match goal with
         | |- context [if ?b then _ else _] => destruct b
         end; cbn [t_changed t_devices]; done.
Qed.

Lemma checkLinks_unchanged (flt : deviceFilter) (allLinks : list Link) (t : tick) :
  t_changed (checkLinks h c flt allLinks t) = false →
  t_changed t = false ∧ t_devices (checkLinks h c flt allLinks t) = t_devices t.
Proof.
  revert t. induction allLinks as [|link rest IH]; intros t; [done|].
  rewrite checkLinks_cons. intros Hf. apply IH in Hf as [Hc Hd].
  apply checkLink_unchanged in Hc as [? Hd']. split; [done|congruence].
Qed.

Lemma dropIfGone_unchanged (names : list string) (t : tick) :
  t_changed (fold_left dropIfGone names t) = false →
  t_changed t = false ∧ t_devices (fold_left dropIfGone names t) = t_devices t.
Proof.
  revert t. induction names as [|n rest IH]; intros t; cbn [fold_left]; [done|].
  intros Hf. apply IH in Hf as [Hc Hd]. unfold dropIfGone in *.
  destruct (t_current t !! n); [done|]. done.
Qed.

Lemma checkStaticDevices_quiet (dm : DeviceManager) :
  filter (checkStaticDevices h c dm).1.2 = filter dm
  ∧ ((checkStaticDevices h c dm).1.1 = false →
     devices (checkStaticDevices h c dm).1.2 = devices dm).
Proof.
  unfold checkStaticDevices.
  destruct (handle_LinkList h) as [allLinks|e]; [|done].
  destruct (bool_decide (length (effectiveFilter h) = 0%nat)); [done|].
  cbn [fst snd filter devices]. split; [done|].
  unfold checkAddrs.
  destruct (checkAddr_fold h (node_GetMasqIPv4AddrsWithDevices h)
              (elements (t_devices (dropGone (checkLinks h c (effectiveFilter h) allLinks
                                                (tickStart h dm)))))
              (dropGone (checkLinks h c (effectiveFilter h) allLinks (tickStart h dm))))
    as (_ & -> & Hch & _).
  intros Hf.
  assert (t_changed (dropGone (checkLinks h c (effectiveFilter h) allLinks
                                 (tickStart h dm))) = false) as H2.
  { apply not_true_is_false. intros Ht. apply Hch in Ht. congruence. }
  unfold dropGone in *. apply dropIfGone_unchanged in H2 as [H1 ->].
  by apply checkLinks_unchanged in H1 as [_ ->].
Qed.

(** Whenever [checkStaticDevices] returns false, the device set is as
    it was; the filter of the manager is never touched. *)
Theorem checkStaticDevices_change_reported (dm : DeviceManager) :
  filter (checkStaticDevices h c dm).1.2 = filter dm
  ∧ ((checkStaticDevices h c dm).1.1 = false →
     devices (checkStaticDevices h c dm).1.2 = devices dm).
Proof. apply checkStaticDevices_quiet. Qed.

(** A tick that is not skipped leaves in the device set exactly the
    names of the listed links that pass the effective filter and have no
    excluded prefix: a lost device is restored, whatever the set held
    before, and a second tick on the same host changes nothing in it. *)
Theorem checkStaticDevices_converges (dm : DeviceManager) (allLinks : list Link) :
  handle_LinkList h = Ok allLinks → effectiveFilter h ≠ [] →
  (∀ name,
     name ∈ devices (checkStaticDevices h c dm).1.2
     ↔ (∃ l, l ∈ allLinks ∧ Name (Attrs l) = name)
       ∧ deviceFilter_match h c (effectiveFilter h) name = true
       ∧ ∀ p, p ∈ excludedDevicePrefixes → String.prefix p name = false)
  ∧ (∀ dm', devices (checkStaticDevices h c dm').1.2
            = devices (checkStaticDevices h c dm).1.2)
  ∧ devices (checkStaticDevices h c (checkStaticDevices h c dm).1.2).1.2
    = devices (checkStaticDevices h c dm).1.2.
Proof.
  intros Hl Hne.
  assert (∀ dm0 name,
            name ∈ devices (checkStaticDevices h c dm0).1.2
            ↔ (∃ l, l ∈ allLinks ∧ Name (Attrs l) = name)
              ∧ deviceFilter_match h c (effectiveFilter h) name = true
              ∧ ∀ p, p ∈ excludedDevicePrefixes → String.prefix p name = false) as Hchar.
  { intros dm0 name.
    by rewrite (checkStaticDevices_devices h c dm0 allLinks name Hl Hne), passes_iff. }
  split; [apply Hchar|]. split.
  - intros dm'. apply set_eq. intros name. by rewrite !Hchar.
  - apply set_eq. intros name. by rewrite !Hchar.
Qed.

End StaticCheckMore.

Lemma checkStaticDevices_change_reported_witness :
  (checkStaticDevices Sample.unconfigured Sample.cfg Sample.dm1).1.1 = false
  ∧ devices (checkStaticDevices Sample.unconfigured Sample.cfg Sample.dm1).1.2
    = devices Sample.dm1.
Proof.
  assert ((checkStaticDevices Sample.unconfigured Sample.cfg Sample.dm1).1.1 = false) as Hf
    by (vm_compute; reflexivity).
  split; [exact Hf|].
  exact (proj2 (checkStaticDevices_change_reported Sample.unconfigured Sample.cfg
                  Sample.dm1) Hf).
Defined.

Lemma checkStaticDevices_converges_witness :
  handle_LinkList Sample.host = Ok Sample.links
  ∧ effectiveFilter Sample.host ≠ []
  ∧ getDeviceList (devices (checkStaticDevices Sample.host Sample.cfg Sample.dm0).1.2)
    = ["eth0"; "eth1"]
  ∧ devices (checkStaticDevices Sample.host Sample.cfg Sample.dm1).1.2
    = devices (checkStaticDevices Sample.host Sample.cfg Sample.dm0).1.2.
Proof.
  assert (effectiveFilter Sample.host ≠ []) as Hne by (vm_compute; discriminate).
  split; [reflexivity|]. split; [exact Hne|]. split; [vm_compute; reflexivity|].
  exact (proj1 (proj2 (checkStaticDevices_converges Sample.host Sample.cfg Sample.dm0
                         Sample.links eq_refl Hne)) Sample.dm1).
Defined.

(** The loop over the addresses of a device finds no change exactly
    when one of the primary addresses equals the recorded one: secondary
    and deprecated addresses are not compared. *)
Lemma addrChange_false (oldAddr : Net.IP) (addrs : list Addr) :
  addrChange oldAddr addrs = false
  ↔ ∃ addr, addr ∈ addrs ∧ isPrimary addr ∧ Net.Equal oldAddr (AddrIP addr) = true.
Proof.
  unfold isPrimary. induction addrs as [|a rest IH]; cbn [addrChange].
  - split; [done|]. by intros (? & ?%elem_of_nil & _).
  - destruct (Z.eqb_spec (Z.land (AddrFlags a) addrFlagsMask) 0) as [Hp|Hs]; cbn [negb].
    + destruct (Net.Equal oldAddr (AddrIP a)) eqn:He.
      * split; [|done]. intros _. exists a. split; [left|done].
      * rewrite IH. split.
        -- intros (x & ? & ?). exists x. split; [by right|done].
        -- intros (x & [->|?]%elem_of_cons & ? & ?); [congruence|by exists x].
    + rewrite IH. split.
      * intros (x & ? & ?). exists x. split; [by right|done].
      * intros (x & [->|?]%elem_of_cons & ? & ?); [done|by exists x].
Qed.

(** In a tick that is not skipped, a device left in the set whose
    recorded masquerade address is none of its primary IPv4 addresses
    makes the tick return true; the device stays in the set. *)
Theorem checkStaticDevices_address_changed (h : Host) (c : Config) (dm : DeviceManager)
    (allLinks : list Link) (name : string) (oldAddr : Net.IP) (addrs : list Addr) :
  handle_LinkList h = Ok allLinks → effectiveFilter h ≠ [] →
  name ∈ devices (checkStaticDevices h c dm).1.2 →
  node_GetMasqIPv4AddrsWithDevices h !! name = Some oldAddr →
  (∀ l, l ∈ allLinks → Name (Attrs l) = name →
        netlink_AddrList h (Some l) FAMILY_V4 = Ok addrs) →
  (∀ addr, addr ∈ addrs → isPrimary addr → Net.Equal oldAddr (AddrIP addr) = false) →
  (checkStaticDevices h c dm).1.1 = true.
Proof.
  intros Hl Hne Hin Hold Hlist Hnone.
  rewrite (checkStaticDevices_run h c dm allLinks Hl Hne) in Hin |- *.
  cbn [fst snd devices] in *. unfold checkAddrs in *.
  set (t2 := dropGone (checkLinks h c (effectiveFilter h) allLinks (tickStart h dm))) in *.
  destruct (checkAddr_fold h (node_GetMasqIPv4AddrsWithDevices h)
              (elements (t_devices t2)) t2) as (_ & Hd & _).
  rewrite Hd in Hin.
  apply checkAddr_changed. right.
  pose proof (proj1 (dropGone_devices h c dm allLinks name) Hin) as [(l & Hcur & Hlin & Hn) _].
  exists name, oldAddr, addrs. split; [by apply elem_of_elements|]. split; [done|].
  fold t2 in Hcur. rewrite Hcur. split; [by apply Hlist|].
  apply not_false_iff_true. intros Hf. apply addrChange_false in Hf as (a & Ha & Hp & He).
  rewrite (Hnone a Ha Hp) in He. done.
Qed.

Lemma checkStaticDevices_address_changed_witness :
  handle_LinkList Sample.movedHost = Ok Sample.links
  ∧ node_GetMasqIPv4AddrsWithDevices Sample.movedHost !! "eth0" = Some (Sample.ip4 10 0 0 9)
  ∧ (checkStaticDevices Sample.movedHost Sample.cfg Sample.dm01).1.1 = true
  ∧ getDeviceList (devices (checkStaticDevices Sample.movedHost Sample.cfg Sample.dm01).1.2)
    = ["eth0"; "eth1"].
Proof.
  split; [reflexivity|]. split; [reflexivity|]. split; [|vm_compute; reflexivity].
  apply (checkStaticDevices_address_changed Sample.movedHost Sample.cfg Sample.dm01
           Sample.links "eth0" (Sample.ip4 10 0 0 9)
           [mkAddr (Sample.ip4 10 0 0 1) 0 2]).
  - reflexivity.
  - vm_compute. discriminate.
  - apply elem_of_getDeviceList.
    replace (getDeviceList (devices (checkStaticDevices Sample.movedHost Sample.cfg
                                       Sample.dm01).1.2))
      with ["eth0"; "eth1"] by (vm_compute; reflexivity). left.
  - reflexivity.
  - intros l Hl Hn. unfold Sample.links in Hl. rewrite !elem_of_cons, elem_of_nil in Hl.
    destruct Hl as [->|[->|[->|[->|[->|[->|[->|[->|[]]]]]]]]];
      vm_compute in Hn; try discriminate Hn; vm_compute; reflexivity.
  - intros addr ->%list_elem_of_singleton _. vm_compute. reflexivity.
Defined.

(** ** The start of [Listen] *)

Lemma elem_of_linksByName (allLinks : list Link) (name : string) :
  name ∈ linksByName allLinks ↔ ∃ l, l ∈ allLinks ∧ Name (Attrs l) = name.
Proof.
  unfold linksByName.
  assert (∀ m : gset string,
            name ∈ fold_left (λ m link, {[Name (Attrs link)]} ∪ m) allLinks m
            ↔ name ∈ m ∨ ∃ l, l ∈ allLinks ∧ Name (Attrs l) = name) as Hgen.
  { induction allLinks as [|link rest IH]; intros m; cbn [fold_left].
    - split; [by left|]. by intros [?|(? & ?%elem_of_nil & _)].
    - rewrite IH, elem_of_union, elem_of_singleton. split.
      + intros [[->|?]|(l & ? & ?)]; [right|by left|right].
        * exists link. split; [left|done].
        * exists l. split; [by right|done].
      + intros [?|(l & [->|?]%elem_of_cons & Hn)]; [by left; right|by left; left|right].
        by exists l. }
  rewrite Hgen. split; [|by right]. intros [?|?]; [set_solver|done].
Qed.

Lemma dropIfDeleted_fold (present : gset string) (names : list string)
    (st : gset string * bool) :
  (∀ name, name ∈ (fold_left (dropIfDeleted present) names st).1
           ↔ name ∈ st.1 ∧ (name ∈ names → name ∈ present))
  ∧ ((fold_left (dropIfDeleted present) names st).2 = true
     ↔ st.2 = true ∨ ∃ name, name ∈ names ∧ name ∉ present).
Proof.
  revert st. induction names as [|n rest IH]; intros st; cbn [fold_left].
  - split.
    + intros name. split; [|by intros [? _]]. intros ?. split; [done|]. by intros ?%elem_of_nil.
    + split; [by left|]. by intros [?|(? & ?%elem_of_nil & _)].
  - destruct (IH (dropIfDeleted present st n)) as [IH1 IH2]. unfold dropIfDeleted in *.
    destruct (bool_decide_reflect (n ∈ present)) as [Hin|Hout].
    + split.
      * intros name. rewrite IH1. split; intros [? Hrest]; (split; [done|]).
        -- intros [->|?]%elem_of_cons; auto.
        -- intros ?. apply Hrest. by right.
      * rewrite IH2. split.
        -- intros [?|(x & ? & ?)]; [by left|right]. exists x. split; [by right|done].
        -- intros [?|(x & [->|?]%elem_of_cons & ?)]; [by left|done|right]. by exists x.
    + split.
      * intros name. rewrite IH1. cbn [fst]. rewrite elem_of_difference, elem_of_singleton.
        split.
        -- intros [[? Hne] Hrest]. split; [done|]. intros [->|?]%elem_of_cons; [done|auto].
        -- intros [? Hrest]. split; [split; [done|]|].
           ++ intros ->. apply Hout, Hrest. left.
           ++ intros ?. apply Hrest. by right.
      * rewrite IH2. cbn [snd]. split; [|by left]. intros _. right. exists n. split; [left|done].
Qed.

(** At its start [Listen] drops from the device set exactly the devices
    whose name no listed link bears, and sends the sorted set on the
    channel exactly when it dropped one; when the links cannot be listed
    it drops and sends nothing. *)
Theorem listenStart_spec (h : Host) (dm : DeviceManager) :
  (∀ e, handle_LinkList h = Err e → listenStart h dm = (None, dm))
  ∧ (∀ allLinks, handle_LinkList h = Ok allLinks →
       filter (listenStart h dm).2 = filter dm
       ∧ (∀ name, name ∈ devices (listenStart h dm).2
                  ↔ name ∈ devices dm ∧ ∃ l, l ∈ allLinks ∧ Name (Attrs l) = name)
       ∧ ((listenStart h dm).1 = None ↔ devices (listenStart h dm).2 = devices dm)
       ∧ (∀ devs, (listenStart h dm).1 = Some devs →
                  devs = getDeviceList (devices (listenStart h dm).2))).
Proof.
  split; [intros e He; unfold listenStart; by rewrite He|].
  intros allLinks Hl. unfold listenStart. rewrite Hl.
  destruct (dropIfDeleted_fold (linksByName allLinks) (elements (devices dm))
              (devices dm, false)) as [Hdev Hch].
  cbn [fst snd filter devices] in *.
  assert (∀ name,
            name ∈ (fold_left (dropIfDeleted (linksByName allLinks))
                      (elements (devices dm)) (devices dm, false)).1
            ↔ name ∈ devices dm ∧ ∃ l, l ∈ allLinks ∧ Name (Attrs l) = name) as Hdev'.
  { intros name. rewrite Hdev, elem_of_elements, elem_of_linksByName. tauto. }
  split; [done|]. split; [exact Hdev'|]. split.
  - destruct (fold_left _ _ _).2 eqn:Hflag; cbn [fst].
    + split; [done|]. intros Heq. exfalso.
      destruct (proj1 Hch eq_refl) as [?|(x & Hx & Hout)]; [done|].
      apply elem_of_elements in Hx. rewrite <- Heq in Hx. apply Hdev' in Hx as [_ Hp].
      by apply Hout, elem_of_linksByName.
    + split; [|done]. intros _. apply set_eq. intros name. rewrite Hdev'.
      split; [by intros [? _]|]. intros Hin. split; [done|].
      apply elem_of_linksByName.
      destruct (decide (name ∈ linksByName allLinks)) as [?|Hout]; [done|].
      assert (false = true) as Ht; [|done].
      apply Hch. right. exists name. split; [by apply elem_of_elements|done].
  - intros devs. by destruct (fold_left _ _ _).2; intros [= <-].
Qed.

Lemma listenStart_spec_witness :
  handle_LinkList Sample.host = Ok Sample.links
  ∧ (listenStart Sample.host Sample.dmGone).1 = Some ["eth1"]
  ∧ (∀ name, name ∈ devices (listenStart Sample.host Sample.dmGone).2
             ↔ name ∈ devices Sample.dmGone
               ∧ ∃ l, l ∈ Sample.links ∧ Name (Attrs l) = name)
  ∧ (handle_LinkList Sample.downHost = Err "netlink: interrupted system call"
     ∧ listenStart Sample.downHost Sample.dmGone = (None, Sample.dmGone)).
Proof.
  split; [reflexivity|]. split; [vm_compute; reflexivity|]. split.
  - exact (proj1 (proj2 (proj2 (listenStart_spec Sample.host Sample.dmGone)
                           Sample.links eq_refl))).
  - split; [reflexivity|].
    exact (proj1 (listenStart_spec Sample.downHost Sample.dmGone) _ eq_refl).
Defined.

(** ** Detection, further *)

Lemma addConfiguredDevices_spec (w : World) :
  ∃ d w',
    addConfiguredDevices w = (Ok d, w')
    ∧ config w' = config w ∧ filter (manager w') = filter (manager w)
    ∧ devices (manager w) ⊆ devices (manager w')
    ∧ d.1 = DirectRoutingDeviceRequired (config w)
            && String.eqb (DirectRoutingDevice (config w)) ""
    ∧ d.2 = String.eqb (IPv6MCastDevice (config w)) "" && EnableIPv6NDP (config w)
    ∧ (DirectRoutingDeviceRequired (config w) = true →
       DirectRoutingDevice (config w) ≠ "" →
       DirectRoutingDevice (config w) ∈ devices (manager w'))
    ∧ (IPv6MCastDevice (config w) ≠ "" →
       IPv6MCastDevice (config w) ∈ devices (manager w')).
Proof.
  unfold addConfiguredDevices. rewrite bind_run. cbn [getConfig].
  destruct (DirectRoutingDeviceRequired (config w)) eqn:Hr;
    destruct (String.eqb_spec (DirectRoutingDevice (config w)) "") as [Hd|Hd];
    destruct (String.eqb_spec (IPv6MCastDevice (config w)) "") as [Hm|Hm];
    cbn; eexists _, _; (split; [reflexivity|]); cbn;
    repeat split; try done; try set_solver.
Qed.

(** What the block guarded by [detectDirectRoutingDev ||
    detectIPv6MCastDev] leaves when it succeeds. *)
Lemma detectFromNodeIP_ok (h : Host) (d1 d2 : bool) (w w' : World) :
  detectFromNodeIP h d1 d2 w = (Ok tt, w') →
  filter (manager w') = filter (manager w)
  ∧ sameFlags (config w) (config w')
  ∧ devices_ (config w') = devices_ (config w)
  ∧ devices (manager w) ⊆ devices (manager w')
  ∧ (d1 = true → DirectRoutingDevice (config w') ∈ devices (manager w'))
  ∧ (d1 = false → DirectRoutingDevice (config w') = DirectRoutingDevice (config w))
  ∧ (d2 = true →
     ∃ l, findK8SNodeIPLink h = Ok l
          ∧ IPv6MCastDevice (config w') = Name (Attrs l)
          ∧ Z.land (Flags (Attrs l)) Net.FlagMulticast ≠ 0
          ∧ Name (Attrs l) ∈ devices (manager w'))
  ∧ (d2 = false → IPv6MCastDevice (config w') = IPv6MCastDevice (config w)).
Proof.
  unfold detectFromNodeIP. rewrite bind_run.
  destruct (findK8SNodeIPLink h) as [l|e0].
  - cbn [modifyManager]. rewrite bind_run.
    destruct d1; cbn [when].
    + rewrite bind_run. cbn [getManager manager].
      destruct (bool_decide_reflect
                  (size (devices (addDevice (Name (Attrs l)) (manager w))) = 1%nat))
        as [Hone|Hmany].
      * destruct (elements (devices (addDevice (Name (Attrs l)) (manager w))))
          as [|dev rest] eqn:Hel.
        { apply size_1_elem_of in Hone as [x Hx]. apply elements_empty_inv in Hel.
          exfalso. cbn in *. set_solver. }
        assert (dev ∈ devices (addDevice (Name (Attrs l)) (manager w))) as Hdev
          by (apply elem_of_elements; rewrite Hel; left).
        cbn [modifyConfig]. destruct d2; cbn [when ret].
        -- destruct (Z.eqb_spec (Z.land (Flags (Attrs l)) Net.FlagMulticast) 0); cbn [negb];
             intros [= <-]. cbn.
           repeat split; try done; try set_solver;
             try (exists l; cbn; repeat split; try done; set_solver).
        -- intros [= <-]. cbn. repeat split; try done; set_solver.
      * destruct (String.eqb_spec (Name (Attrs l)) "") as [Hn|Hn]; cbn [negb]; [done|].
        cbn [modifyConfig]. destruct d2; cbn [when ret].
        -- destruct (Z.eqb_spec (Z.land (Flags (Attrs l)) Net.FlagMulticast) 0); cbn [negb];
             intros [= <-]. cbn.
           repeat split; try done; try set_solver;
             try (exists l; cbn; repeat split; try done; set_solver).
        -- intros [= <-]. cbn. repeat split; try done; set_solver.
    + cbn [ret]. destruct d2; cbn [when ret].
      * destruct (Z.eqb_spec (Z.land (Flags (Attrs l)) Net.FlagMulticast) 0); cbn [negb];
          intros [= <-]. cbn.
        repeat split; try done; try set_solver;
          try (exists l; cbn; repeat split; try done; set_solver).
      * intros [= <-]. cbn. repeat split; try done; set_solver.
  - destruct (k8s_IsEnabled h); [done|].
    cbn [ret]. rewrite bind_run.
    destruct d1; cbn [when].
    + rewrite bind_run. cbn [getManager manager].
      destruct (bool_decide_reflect (size (devices (manager w)) = 1%nat)) as [Hone|Hmany].
      * destruct (elements (devices (manager w))) as [|dev rest] eqn:Hel.
        { apply size_1_elem_of in Hone as [x Hx]. apply elements_empty_inv in Hel.
          exfalso. set_solver. }
        assert (dev ∈ devices (manager w)) as Hdev
          by (apply elem_of_elements; rewrite Hel; left).
        cbn [modifyConfig]. destruct d2; cbn [when ret]; [done|].
        intros [= <-]. cbn. repeat split; try done.
      * cbn. done.
    + cbn [ret]. destruct d2; cbn [when ret]; [done|].
      intros [= <-]. repeat split; try done.
Qed.

Lemma sameFlags_trans (c1 c2 c3 : Config) :
  sameFlags c1 c2 → sameFlags c2 c3 → sameFlags c1 c3.
Proof.
  unfold sameFlags. intros (?&?&?&?&?&?&?&?) (?&?&?&?&?&?&?&?). repeat split; congruence.
Qed.

(** The state a successful [Detect] went through, stage by stage. *)
Lemma Detect_ok_inv (h : Host) (w w' : World) (out : list string) :
  Detect h w = (Ok out, w') →
  ∃ w2 w3 d w4 w5,
    stable (withDevices ∅ w)
      (mkWorld (SetDevices (devices_ (config w)) (config w2)) (manager w2))
    ∧ manager w2 = manager (withDevices ∅ w)
    ∧ detectOrSeed h (probeL3Dev h (config w2)) w2 = (Ok tt, w3)
    ∧ addConfiguredDevices w3 = (Ok d, w4)
    ∧ when (d.1 || d.2) (detectFromNodeIP h d.1 d.2) w4 = (Ok tt, w5)
    ∧ out = getDeviceList (devices (manager w5))
    ∧ w' = mkWorld (SetDevices out (config w5)) (manager w5).
Proof.
  intros HD.
  apply Detect_inv in HD as [(e & _ & [=])|(w1 & H1 & HD)].
  destruct HD as [(e & _ & [=])|(w2 & H2 & HD)].
  destruct HD as [(e & _ & [=])|(w3 & d & w4 & H3 & H4 & HD)].
  destruct HD as [(e & _ & [=])|(w5 & H5 & H6)].
  rewrite publishDevices_run in H6. injection H6 as <- <-.
  exists w2, w3, d, w4, w5.
  rewrite expandDevices_run in H1. cbn [withDevices config] in H1.
  destruct (expandDeviceWildcards _ _ _ _) as [expanded|]; [|done]. injection H1 as <-.
  apply expandDirectRoutingDevice_stable in H2 as [(Hf & Hfl & Hm & Hd) Hman].
  cbn in Hf, Hfl, Hm, Hd, Hman.
  split; [|by rewrite Hman]. unfold stable. cbn. rewrite Hman. cbn.
  split; [done|]. split; [|done].
  unfold sameFlags in *. by destruct (config w2).
Qed.

(** A successful [Detect] returns the device set it leaves, each name
    once, in ascending order, and has written that list to the
    configuration; the filter of the manager and the feature flags are as
    before. *)
Theorem Detect_publishes (h : Host) (w w' : World) (out : list string) :
  Detect h w = (Ok out, w') →
  out = getDeviceList (devices (manager w'))
  ∧ GetDevices (config w') = out
  ∧ Sorted String.le out ∧ NoDup out
  ∧ (∀ name, name ∈ out ↔ name ∈ devices (manager w'))
  ∧ filter (manager w') = filter (manager w)
  ∧ sameFlags (config w) (config w').
Proof.
  intros HD.
  apply Detect_ok_inv in HD as (w2 & w3 & d & w4 & w5 & Hst & Hman & H3 & H4 & H5 & -> & ->).
  cbn [manager config GetDevices SetDevices devices_].
  split; [done|]. split; [done|]. split; [apply sortStrings_sorted|].
  split; [apply NoDup_getDeviceList|]. split; [apply elem_of_getDeviceList|].
  destruct Hst as (_ & Hfl2 & _). cbn in Hfl2.
  apply detectOrSeed_stable in H3 as [(Hf3 & Hfl3 & _) _].
  destruct (addConfiguredDevices_spec w3) as (d' & w4' & H4' & Hc4 & Hf4 & _).
  rewrite H4 in H4'. injection H4' as <- <-.
  assert (filter (manager w5) = filter (manager w4)
          ∧ sameFlags (config w4) (config w5)) as [Hf5 Hfl5].
  { destruct (d.1 || d.2); cbn [when] in H5.
    - by apply detectFromNodeIP_ok in H5 as (? & ? & _).
    - injection H5 as <-. split; [done|apply sameFlags_refl]. }
  split.
  - rewrite Hf5, Hf4, Hf3, Hman. done.
  - unfold sameFlags in *. rewrite Hc4 in Hfl5.
    destruct Hfl2 as (?&?&?&?&?&?&?&?), Hfl3 as (?&?&?&?&?&?&?&?),
      Hfl5 as (?&?&?&?&?&?&?&?).
    cbn in *. repeat split; congruence.
Qed.

Lemma Detect_publishes_witness :
  Detect Sample.host Sample.wDirect
  = (Ok ["eth0"; "eth1"], (Detect Sample.host Sample.wDirect).2)
  ∧ GetDevices (config (Detect Sample.host Sample.wDirect).2) = ["eth0"; "eth1"]
  ∧ ∀ name, name ∈ ["eth0"; "eth1"]
            ↔ name ∈ devices (manager (Detect Sample.host Sample.wDirect).2).
Proof.
  assert (Detect Sample.host Sample.wDirect
          = (Ok ["eth0"; "eth1"], (Detect Sample.host Sample.wDirect).2)) as HD
    by (vm_compute; reflexivity).
  pose proof (Detect_publishes Sample.host Sample.wDirect _ _ HD)
    as (_ & Hcfg & _ & _ & Hmem & _).
  split; [exact HD|]. split; [exact Hcfg|exact Hmem].
Defined.

(** After a successful [Detect] the direct-routing device, when one is
    required, and the multicast device, when one is set, are in the
    returned list; a multicast device that had to be detected is the
    device of the node IP, which bears the multicast flag, and a
    configured one is kept. *)
Theorem Detect_routing_devices_tracked (h : Host) (w w' : World) (out : list string) :
  Detect h w = (Ok out, w') →
  (DirectRoutingDeviceRequired (config w) = true →
   DirectRoutingDevice (config w') ∈ out)
  ∧ (IPv6MCastDevice (config w') ≠ "" → IPv6MCastDevice (config w') ∈ out)
  ∧ (IPv6MCastDevice (config w) ≠ "" →
     IPv6MCastDevice (config w') = IPv6MCastDevice (config w))
  ∧ (IPv6MCastDevice (config w) = "" → EnableIPv6NDP (config w) = true →
     ∃ l, findK8SNodeIPLink h = Ok l
          ∧ IPv6MCastDevice (config w') = Name (Attrs l)
          ∧ Z.land (Flags (Attrs l)) Net.FlagMulticast ≠ 0)
  ∧ (IPv6MCastDevice (config w) = "" → EnableIPv6NDP (config w) = false →
     IPv6MCastDevice (config w') = "").
Proof.
  intros HD.
  apply Detect_ok_inv in HD as (w2 & w3 & d & w4 & w5 & Hst & Hman & H3 & H4 & H5 & -> & ->).
  cbn [manager config SetDevices DirectRoutingDevice IPv6MCastDevice].
  setoid_rewrite elem_of_getDeviceList.
  destruct Hst as (_ & (_&_&_&_&_&_&Hndp2&Hreq2) & Hmc2 & _). cbn in Hndp2, Hreq2, Hmc2.
  apply detectOrSeed_stable in H3 as [_ Hc3].
  destruct (addConfiguredDevices_spec w3)
    as (d' & w4' & H4' & Hc4 & _ & Hsub4 & Hd1 & Hd2 & Hdr4 & Hmc4).
  rewrite H4 in H4'. injection H4' as <- <-.
  rewrite Hc3 in Hd1, Hd2, Hdr4, Hmc4. rewrite Hndp2, Hmc2 in Hd2. rewrite Hreq2 in Hd1, Hdr4.
  rewrite Hmc2 in Hmc4.
  assert (devices (manager w4) ⊆ devices (manager w5)
          ∧ (d.1 = true → DirectRoutingDevice (config w5) ∈ devices (manager w5))
          ∧ (d.1 = false → DirectRoutingDevice (config w5) = DirectRoutingDevice (config w2))
          ∧ (d.2 = true →
             ∃ l, findK8SNodeIPLink h = Ok l
                  ∧ IPv6MCastDevice (config w5) = Name (Attrs l)
                  ∧ Z.land (Flags (Attrs l)) Net.FlagMulticast ≠ 0
                  ∧ Name (Attrs l) ∈ devices (manager w5))
          ∧ (d.2 = false → IPv6MCastDevice (config w5) = IPv6MCastDevice (config w)))
    as (Hsub5 & Hdr5 & Hdr5' & Hmc5 & Hmc5').
  { destruct (d.1 || d.2) eqn:Hor; cbn [when] in H5.
    - apply detectFromNodeIP_ok in H5 as (_ & _ & _ & ? & ? & Hx & ? & Hy).
      rewrite Hc4, Hc3 in Hx, Hy. rewrite Hmc2 in Hy. done.
    - injection H5 as <-. apply orb_false_iff in Hor as [-> ->].
      rewrite Hc4, Hc3, Hmc2. done. }
  split; [|split; [|split; [|split]]].
  - intros Hreq. rewrite Hreq in Hd1, Hdr4. cbn in Hd1.
    destruct (String.eqb_spec (DirectRoutingDevice (config w2)) "") as [He|Hne].
    + by apply Hdr5.
    + rewrite (Hdr5' Hd1). apply Hsub5. by apply Hdr4.
  - intros Hset.
    destruct (String.eqb_spec (IPv6MCastDevice (config w)) "") as [He|Hne].
    + cbn in Hd2. destruct (EnableIPv6NDP (config w)).
      * destruct (Hmc5 Hd2) as (l & _ & -> & _ & ?). done.
      * rewrite (Hmc5' Hd2), He in Hset. done.
    + cbn in Hd2. rewrite (Hmc5' Hd2). apply Hsub5. by apply Hmc4.
  - intros Hne. apply Hmc5'. rewrite Hd2.
    by destruct (String.eqb_spec (IPv6MCastDevice (config w)) "").
  - intros He Hndp. rewrite He, Hndp in Hd2. cbn in Hd2.
    destruct (Hmc5 Hd2) as (l & ? & ? & ? & _). by exists l.
  - intros He Hndp. rewrite He, Hndp in Hd2. cbn in Hd2. by rewrite (Hmc5' Hd2).
Qed.

Lemma Detect_routing_devices_tracked_witness :
  Detect Sample.host Sample.wDetect
  = (Ok ["eth0"], (Detect Sample.host Sample.wDetect).2)
  ∧ DirectRoutingDeviceRequired (config Sample.wDetect) = true
  ∧ DirectRoutingDevice (config Sample.wDetect) = ""
  ∧ DirectRoutingDevice (config (Detect Sample.host Sample.wDetect).2) = "eth0"
  ∧ IPv6MCastDevice (config (Detect Sample.host Sample.wDetect).2) = "eth0"
  ∧ DirectRoutingDevice (config (Detect Sample.host Sample.wDetect).2) ∈ ["eth0"].
Proof.
  assert (Detect Sample.host Sample.wDetect
          = (Ok ["eth0"], (Detect Sample.host Sample.wDetect).2)) as HD
    by (vm_compute; reflexivity).
  split; [exact HD|]. split; [reflexivity|]. split; [reflexivity|].
  split; [vm_compute; reflexivity|]. split; [vm_compute; reflexivity|].
  exact (proj1 (Detect_routing_devices_tracked Sample.host Sample.wDetect _ _ HD) eq_refl).
Defined.

(** ** The device of the node IP *)

Lemma findNodeIPAddr_ok (h : Host) (nodeIP : Net.IP) (addrs : list Addr) (link : Link) :
  findNodeIPAddr h nodeIP addrs = Ok link →
  ∃ before a after,
    addrs = before ++ a :: after
    ∧ Net.Equal (AddrIP a) nodeIP = true
    ∧ netlink_LinkByIndex h (AddrLinkIndex a) = Ok link
    ∧ Name (Attrs link) ≠ defaults_HostDevice
    ∧ ∀ b, b ∈ before → Net.Equal (AddrIP b) nodeIP = true →
           ∃ lb, netlink_LinkByIndex h (AddrLinkIndex b) = Ok lb
                 ∧ Name (Attrs lb) = defaults_HostDevice.
Proof.
  induction addrs as [|a rest IH]; cbn [findNodeIPAddr]; [done|].
  destruct (Net.Equal (AddrIP a) nodeIP) eqn:He.
  - destruct (netlink_LinkByIndex h (AddrLinkIndex a)) as [l|e] eqn:Hl; [|done].
    destruct (String.eqb_spec (Name (Attrs l)) defaults_HostDevice) as [Hn|Hn].
    + intros Hrest. destruct (IH Hrest) as (before & x & after & -> & ? & ? & ? & Hb).
      exists (a :: before), x, after. repeat split; try done.
      intros b [->|?]%elem_of_cons ?; [by exists l|by apply Hb].
    + intros [= <-]. exists [], a, rest. repeat split; try done.
      by intros b ?%elem_of_nil.
  - intros Hrest. destruct (IH Hrest) as (before & x & after & -> & ? & ? & ? & Hb).
    exists (a :: before), x, after. repeat split; try done.
    intros b [->|?]%elem_of_cons ?; [congruence|by apply Hb].
Qed.

(** The link [findK8SNodeIPLink] returns is that of the first listed
    address equal to the node IP whose link is not [cilium_host]; the
    addresses are listed in the family of the node IP. *)
Theorem findK8SNodeIPLink_spec (h : Host) (link : Link) :
  findK8SNodeIPLink h = Ok link →
  ∃ nodeIP before a after,
    node_GetK8sNodeIP h = Some nodeIP
    ∧ netlink_AddrList h None
        (if Net.To4 nodeIP is Some _ then FAMILY_V4 else FAMILY_V6)
      = Ok (before ++ a :: after)
    ∧ Net.Equal (AddrIP a) nodeIP = true
    ∧ netlink_LinkByIndex h (AddrLinkIndex a) = Ok link
    ∧ Name (Attrs link) ≠ "cilium_host"
    ∧ ∀ b, b ∈ before → Net.Equal (AddrIP b) nodeIP = true →
           ∃ lb, netlink_LinkByIndex h (AddrLinkIndex b) = Ok lb
                 ∧ Name (Attrs lb) = "cilium_host".
Proof.
  unfold findK8SNodeIPLink.
  destruct (node_GetK8sNodeIP h) as [nodeIP|]; [|done].
  destruct (netlink_AddrList h None _) as [addrs|e] eqn:Hl; [|done].
  intros Hfind. apply findNodeIPAddr_ok in Hfind as (before & a & after & -> & ?).
  by exists nodeIP, before, a, after.
Qed.

Lemma findK8SNodeIPLink_spec_witness :
  findK8SNodeIPLink Sample.host = Ok Sample.eth0
  ∧ ∃ nodeIP before a after,
      node_GetK8sNodeIP Sample.host = Some nodeIP
      ∧ netlink_AddrList Sample.host None
          (if Net.To4 nodeIP is Some _ then FAMILY_V4 else FAMILY_V6)
        = Ok (before ++ a :: after)
      ∧ Net.Equal (AddrIP a) nodeIP = true
      ∧ netlink_LinkByIndex Sample.host (AddrLinkIndex a) = Ok Sample.eth0
      ∧ Name (Attrs Sample.eth0) ≠ "cilium_host"
      ∧ ∀ b, b ∈ before → Net.Equal (AddrIP b) nodeIP = true →
             ∃ lb, netlink_LinkByIndex Sample.host (AddrLinkIndex b) = Ok lb
                   ∧ Name (Attrs lb) = "cilium_host".
Proof.
  assert (findK8SNodeIPLink Sample.host = Ok Sample.eth0) as Hf by (vm_compute; reflexivity).
  split; [exact Hf|]. exact (findK8SNodeIPLink_spec Sample.host Sample.eth0 Hf).
Defined.

(** The last step of the block, the multicast device, touches neither
    the device set nor the direct-routing device. *)
Lemma detectMCast_keeps (d2 : bool) (found : result Link) (k8sNodeDev : string)
    (w w' : World) :
  when d2
    (match found with
     | Ok l =>
         if negb (Z.land (Flags (Attrs l)) Net.FlagMulticast =? 0)
         then modifyConfig (SetIPv6MCastDevice k8sNodeDev)
         else fail ("unable to determine Multicast device. Use --"
                    +:+ option_IPv6MCastDevice +:+ " to specify it")
     | Err _ =>
         fail ("unable to determine Multicast device. Use --"
               +:+ option_IPv6MCastDevice +:+ " to specify it")
     end) w = (Ok tt, w') →
  manager w' = manager w
  ∧ DirectRoutingDevice (config w') = DirectRoutingDevice (config w).
Proof.
  destruct d2; cbn [when ret]; [|by intros [= <-]].
  destruct found as [l|e]; [|done]. destruct (negb _); [|done]. by intros [= <-].
Qed.

(** The choice of the direct-routing device: the only device of the
    set when there is just one, else the device of the node IP; with more
    or fewer than one device and no device of the node IP the block
    fails and leaves the state as it was. *)
Theorem detectFromNodeIP_direct_routing (h : Host) (d2 : bool) (w : World) :
  (∀ w', detectFromNodeIP h true d2 w = (Ok tt, w') →
     (∀ dev, devices (manager w') = {[dev]} → DirectRoutingDevice (config w') = dev)
     ∧ (size (devices (manager w')) ≠ 1%nat →
        ∃ l, findK8SNodeIPLink h = Ok l
             ∧ DirectRoutingDevice (config w') = Name (Attrs l)))
  ∧ (∀ e, findK8SNodeIPLink h = Err e → size (devices (manager w)) ≠ 1%nat →
          ∃ e', detectFromNodeIP h true d2 w = (Err e', w)).
Proof.
  split.
  - intros w'. unfold detectFromNodeIP. rewrite bind_run.
    destruct (findK8SNodeIPLink h) as [l|e0].
    + cbn [modifyManager when]. rewrite !bind_run. cbn [getManager manager].
      destruct (bool_decide_reflect
                  (size (devices (addDevice (Name (Attrs l)) (manager w))) = 1%nat))
        as [Hone|Hmany].
      * destruct (elements (devices (addDevice (Name (Attrs l)) (manager w))))
          as [|dev rest] eqn:Hel.
        { apply size_1_elem_of in Hone as [x Hx]. apply elements_empty_inv in Hel.
          exfalso. cbn in *. set_solver. }
        assert (dev ∈ devices (addDevice (Name (Attrs l)) (manager w))) as Hdev
          by (apply elem_of_elements; rewrite Hel; left).
        cbn [modifyConfig].
        intros Hrun.
        apply (detectMCast_keeps d2 (Ok l) (Name (Attrs l))) in Hrun as [Hm Hd].
        cbn [manager config SetDirectRoutingDevice DirectRoutingDevice] in Hm, Hd.
        rewrite Hm, Hd. split.
        -- intros x Hx. rewrite Hx in Hdev. by apply elem_of_singleton in Hdev.
        -- intros Hsz. done.
      * destruct (String.eqb_spec (Name (Attrs l)) "") as [Hn|Hn]; cbn [negb]; [done|].
        cbn [modifyConfig].
        intros Hrun.
        apply (detectMCast_keeps d2 (Ok l) (Name (Attrs l))) in Hrun as [Hm Hd].
        cbn [manager config SetDirectRoutingDevice DirectRoutingDevice] in Hm, Hd.
        rewrite Hm, Hd. split.
        -- intros x Hx. rewrite Hx, size_singleton in Hmany. done.
        -- intros _. by exists l.
    + destruct (k8s_IsEnabled h); [done|]. cbn [ret when]. rewrite !bind_run.
      cbn [getManager manager].
      destruct (bool_decide_reflect (size (devices (manager w)) = 1%nat)) as [Hone|Hmany].
      * destruct (elements (devices (manager w))) as [|dev rest] eqn:Hel.
        { apply size_1_elem_of in Hone as [x Hx]. apply elements_empty_inv in Hel.
          exfalso. set_solver. }
        assert (dev ∈ devices (manager w)) as Hdev
          by (apply elem_of_elements; rewrite Hel; left).
        cbn [modifyConfig]. destruct d2; cbn [when ret]; [done|]. intros [= <-].
        cbn. split.
        -- intros x Hx. rewrite Hx in Hdev. by apply elem_of_singleton in Hdev.
        -- done.
      * cbn. done.
  - intros e He Hsz. unfold detectFromNodeIP. rewrite bind_run, He.
    destruct (k8s_IsEnabled h); [by eexists|]. cbn [ret when]. rewrite !bind_run.
    cbn [getManager manager]. rewrite bool_decide_eq_false_2 by done. cbn. by eexists.
Qed.

Lemma detectFromNodeIP_direct_routing_witness :
  detectFromNodeIP Sample.host true true Sample.wDetect
  = (Ok tt, (detectFromNodeIP Sample.host true true Sample.wDetect).2)
  ∧ getDeviceList (devices (manager (detectFromNodeIP Sample.host true true
                                       Sample.wDetect).2)) = ["eth0"]
  ∧ (size (devices (manager (detectFromNodeIP Sample.host true true Sample.wDetect).2))
     ≠ 1%nat →
     ∃ l, findK8SNodeIPLink Sample.host = Ok l
          ∧ DirectRoutingDevice
              (config (detectFromNodeIP Sample.host true true Sample.wDetect).2)
            = Name (Attrs l)).
Proof.
  assert (detectFromNodeIP Sample.host true true Sample.wDetect
          = (Ok tt, (detectFromNodeIP Sample.host true true Sample.wDetect).2)) as Hrun
    by (vm_compute; reflexivity).
  split; [exact Hrun|]. split; [vm_compute; reflexivity|].
  exact (proj2 (proj1 (detectFromNodeIP_direct_routing Sample.host true Sample.wDetect)
                  _ Hrun)).
Defined.

(** ** Detection without a need for devices *)

Lemma detectOrSeed_not_required (h : Host) (l3 : bool) (w : World) :
  AreDevicesRequired (config w) = false →
  detectOrSeed h l3 w
  = (Ok tt, mkWorld (config w)
              (mkDeviceManager (list_to_set (GetDevices (config w)) ∪ devices (manager w))
                 (filter (manager w)))).
Proof.
  intros Hreq. unfold detectOrSeed. rewrite bind_run. cbn [getConfig].
  rewrite Hreq, andb_false_r. unfold modifyManager. by rewrite addDevices_fold.
Qed.

Lemma AreDevicesRequired_flags (c c' : Config) :
  sameFlags c c' → AreDevicesRequired c' = AreDevicesRequired c.
Proof.
  intros (_&_&_&Hn&Hf&Hb&_). unfold AreDevicesRequired. by rewrite Hn, Hf, Hb.
Qed.

(** When neither node port, host firewall nor bandwidth manager is
    enabled, [Detect] never consults the routes; with nothing configured
    and nothing else to add it returns the empty list as soon as the links
    can be listed. *)
Theorem Detect_not_required (h : Host) (w : World) :
  AreDevicesRequired (config w) = false →
  (∀ routes, Detect (withRoutes routes h) w = Detect h w)
  ∧ (∀ allLinks,
       handle_LinkList h = Ok allLinks →
       GetDevices (config w) = [] → DirectRoutingDevice (config w) = "" →
       DirectRoutingDeviceRequired (config w) = false →
       IPv6MCastDevice (config w) = "" → EnableIPv6NDP (config w) = false →
       (Detect h w).1 = Ok [] ∧ devices (manager (Detect h w).2) = ∅).
Proof.
  intros Hreq. split.
  - intros r.
    unfold Detect. rewrite !(bind_run resetDevices). cbn [resetDevices modifyManager].
    change (mkWorld (config w) (mkDeviceManager ∅ (filter (manager w))))
      with (withDevices ∅ w).
    rewrite !(bind_run (expandDevices _)).
    change (expandDevices (withRoutes r h)) with (expandDevices h).
    destruct (expandDevices h (withDevices ∅ w)) as [[[]|e] w1] eqn:H1; [|done].
    rewrite !(bind_run (expandDirectRoutingDevice _)).
    change (expandDirectRoutingDevice (withRoutes r h)) with (expandDirectRoutingDevice h).
    destruct (expandDirectRoutingDevice h w1) as [[[]|e] w2] eqn:H2; [|done].
    assert (AreDevicesRequired (config w2) = false) as Hreq2.
    { rewrite expandDevices_run in H1. cbn [withDevices config] in H1.
      destruct (expandDeviceWildcards _ _ _ _); [|done]. injection H1 as <-.
      apply expandDirectRoutingDevice_stable in H2 as [(_ & Hfl & _) _].
      rewrite (AreDevicesRequired_flags _ _ Hfl). cbn. exact Hreq. }
    rewrite !(bind_run getConfig). cbn [getConfig].
    rewrite !(bind_run (detectOrSeed _ _)), !detectOrSeed_not_required by done.
    rewrite !(bind_run addConfiguredDevices).
    destruct (addConfiguredDevices _) as [[d|e] w4]; [|done].
    rewrite !(bind_run (when _ _)), detectFromNodeIP_withRoutes. done.
  - intros allLinks Hl Hnil Hdr Hr Hm Hn.
    assert (Detect h w
            = (Ok [], mkWorld (SetDevices [] (config w))
                        (mkDeviceManager ∅ (filter (manager w))))) as ->; [|done].
    unfold Detect. rewrite (bind_run resetDevices). cbn [resetDevices modifyManager].
    rewrite (bind_run (expandDevices _)), expandDevices_run. cbn [config].
    rewrite Hnil. unfold expandDeviceWildcards at 1. rewrite Hl. cbn [fold_left length].
    rewrite (bool_decide_eq_false_2 (0 < 0)%nat) by lia. cbn [andb].
    rewrite elements_empty.
    change (sortStrings []) with (@nil string).
    rewrite (bind_run (expandDirectRoutingDevice _)).
    unfold expandDirectRoutingDevice. rewrite bind_run. cbn [getConfig config].
    unfold SetDevices at 1. cbn [DirectRoutingDevice]. rewrite Hdr. cbn [String.eqb ret].
    rewrite (bind_run getConfig). cbn [getConfig].
    rewrite (bind_run (detectOrSeed _ _)), detectOrSeed_not_required by done.
    cbn [config manager devices filter].
    rewrite (bind_run addConfiguredDevices), addConfiguredDevices_skip
      by (cbn [config]; destruct (config w); cbn in *; done).
    rewrite (bind_run (when _ _)). cbn [fst snd orb when ret].
    rewrite publishDevices_run. cbn [fst snd config manager devices filter].
    assert (GetDevices (SetDevices [] (config w)) = []) as -> by (by destruct (config w)).
    cbn [list_to_set]. rewrite !(right_id_L ∅ (∪)).
    unfold getDeviceList. rewrite elements_empty. done.
Qed.

Lemma Detect_not_required_witness :
  AreDevicesRequired Sample.cfgIdle = false
  ∧ (Detect Sample.host (mkWorld Sample.cfgIdle Sample.dm1)).1 = Ok []
  ∧ ∀ routes, Detect (withRoutes routes Sample.host) (mkWorld Sample.cfgIdle Sample.dm1)
              = Detect Sample.host (mkWorld Sample.cfgIdle Sample.dm1).
Proof.
  pose proof (Detect_not_required Sample.host (mkWorld Sample.cfgIdle Sample.dm1) eq_refl)
    as [Hroutes Hempty].
  split; [reflexivity|]. split; [|exact Hroutes].
  exact (proj1 (Hempty Sample.links eq_refl eq_refl eq_refl eq_refl eq_refl eq_refl)).
Defined.

(** ** The classifier, further *)

(** L3 support and a default route never cost a link its viability. *)
Theorem isViableDevice_monotone (h : Host) (c : Config) (dm : DeviceManager)
    (l3DevOK hasDefaultRoute l3DevOK' hasDefaultRoute' : bool) (link : Link) :
  isViableDevice h c dm l3DevOK hasDefaultRoute link = true →
  isViableDevice h c dm (l3DevOK || l3DevOK') (hasDefaultRoute || hasDefaultRoute') link
  = true.
Proof.
  unfold isViableDevice.
  destruct (hasExcludedPrefix _); [done|].
  destruct (negb (Z.land _ _ =? 0)); [done|].
  destruct l3DevOK, (LinkHasMacAddr link); cbn; try done;
    destruct (negb (deviceFilter_match _ _ _ _)); try done;
    destruct (String.eqb (Type_ link) "veth"); try done;
    destruct hasDefaultRoute; cbn; try done;
    destruct l3DevOK'; cbn; try done.
Qed.

Lemma isViableDevice_monotone_witness :
  isViableDevice Sample.host Sample.cfg Sample.dm0 false false Sample.eth0 = true
  ∧ isViableDevice Sample.host Sample.cfg Sample.dm0 true true Sample.eth0 = true.
Proof.
  assert (isViableDevice Sample.host Sample.cfg Sample.dm0 false false Sample.eth0 = true)
    as Hv by (vm_compute; reflexivity).
  split; [exact Hv|].
  exact (isViableDevice_monotone Sample.host Sample.cfg Sample.dm0 false false true true
           Sample.eth0 Hv).
Defined.

(** ** A tick of [Listen] *)

(** A tick sends nothing only when the device set is as it was, and
    what it sends is the device set it leaves, sorted. *)
Theorem tickOnce_reports (h : Host) (c : Config) (dm : DeviceManager) :
  ((tickOnce h c dm).1 = None → devices (tickOnce h c dm).2 = devices dm)
  ∧ (∀ devs, (tickOnce h c dm).1 = Some devs →
             devs = getDeviceList (devices (tickOnce h c dm).2))
  ∧ filter (tickOnce h c dm).2 = filter dm.
Proof.
  unfold tickOnce.
  pose proof (checkStaticDevices_quiet h c dm) as [Hf Hrep].
  destruct (checkStaticDevices h c dm) as [[changed dm'] log]. cbn [fst snd] in *.
  split; [|split; [|done]].
  - destruct changed; [done|]. intros _. by apply Hrep.
  - intros devs. by destruct changed; intros [= <-].
Qed.

Lemma tickOnce_reports_witness :
  (tickOnce Sample.unconfigured Sample.cfg Sample.dm1).1 = None
  ∧ devices (tickOnce Sample.unconfigured Sample.cfg Sample.dm1).2 = devices Sample.dm1
  ∧ (tickOnce Sample.host Sample.cfg Sample.dm1).1 = Some ["eth0"; "eth1"].
Proof.
  assert ((tickOnce Sample.unconfigured Sample.cfg Sample.dm1).1 = None) as Hn
    by (vm_compute; reflexivity).
  split; [exact Hn|]. split; [|vm_compute; reflexivity].
  exact (proj1 (tickOnce_reports Sample.unconfigured Sample.cfg Sample.dm1) Hn).
Defined.
